(** * BLerrors: error records, status mapping, envelopes and middlewares

    A shallow embedding of the Go package [blerrors] (errors.go, types.go
    and http.go) together with the small part of the Go runtime and of the
    standard library that the package calls: [runtime.Callers] and the
    frame iterator, [time.Now], [fmt]'s [%d] and [%v] verbs,
    [encoding/json] on the package's three structs, [context] values and
    the write-once [http.ResponseWriter].

    Conventions.
    - Go strings are byte strings: [string].
    - [int] and [int64] are [Z]; where the source converts or overflows the
      wrap-around is written out.
    - Values held in an [interface{}] are the inductive [value].
    - JSON documents are trees ([jvalue]); the text codec that prints and
      parses them is the standard library's and is not modelled.  The
      coercion of strings to valid UTF-8 done by the encoder is.
    - Everything that reads the clock, the call stack, or that reaches a
      record or a response writer through a pointer runs in the monad [M]:
      state passing over [World], with panics as a second outcome. *)

From Stdlib Require Import ZArith Lia String Ascii List Bool.
From stdpp Require Import base option list strings gmap.

Local Open Scope string_scope.
Local Open Scope list_scope.

(** ** strconv: integers in positional notation *)

Module strconv.

Definition digitChar (d : N) : ascii :=
  if (d <? 10)%N then ascii_of_N (48 + d) else ascii_of_N (87 + d).

(** [formatBits] peels digits off the low end, as the library's loop does.
    The fuel is an upper bound on the number of digits. *)
Fixpoint formatBits (fuel : nat) (base n : N) (acc : string) : string :=
  match fuel with
  | O => acc
  | S fuel =>
      let acc := String (digitChar (n mod base)) acc in
      if (n <? base)%N then acc else formatBits fuel base (n / base)%N acc
  end.

Definition FormatUint (n base : N) : string :=
  formatBits (S (N.to_nat (N.log2 n))) base n "".

Definition Itoa (z : Z) : string :=
  if (z <? 0)%Z then String "-" (FormatUint (Z.to_N (- z)) 10)
  else FormatUint (Z.to_N z) 10.

(** A float64 of this development has an integral value and is given by
    it.  [roundToMantissa a] is the float64 nearest to the integer
    [a >= 0]: [a] rounded to 53 significant bits, a tie going to the even
    mantissa. *)
Definition roundToMantissa (a : Z) : Z :=
  let excess := (Z.log2 a + 1 - 53)%Z in
  if (excess <=? 0)%Z then a
  else
    let ulp := (2 ^ excess)%Z in
    let q := (a / ulp)%Z in
    let r := (a mod ulp)%Z in
    let half := (ulp / 2)%Z in
    let q := if (half <? r)%Z || ((r =? half)%Z && Z.odd q) then (q + 1)%Z else q in
    (q * ulp)%Z.

(** [strconv.ParseFloat(s, 64)] for the decimal integer [n]: the nearest
    float64.  (Past the largest float64, about 1.8e308, the library
    reports a range error instead; that is left out: no number that this
    package writes is that large.) *)
Definition ParseFloat (n : Z) : Z := (Z.sgn n * roundToMantissa (Z.abs n))%Z.

(** Whether the decimal integer [c] reads back as the float64 [a]. *)
Definition readsAs (c a : Z) : bool := (ParseFloat c =? a)%Z.

(** The shortest decimal that reads back as the float64 [a > 0], as the
    library prints a float64 when no precision is asked for.  With [m]
    significant digits the decimals next to [a] are the two multiples of
    [unit] around it; [m] grows until one of them reads back as [a], and
    of two that do the nearer to [a] is taken, the even one when they are
    equally near. *)
Fixpoint shortestFrom (fuel : nat) (a unit : Z) : Z :=
  match fuel with
  | O => a
  | S fuel =>
      let lo := (a / unit * unit)%Z in
      let hi := (lo + unit)%Z in
      let down := readsAs lo a in
      let up := readsAs hi a in
      if down && up then
        if (a - lo <? hi - a)%Z then lo
        else if (hi - a <? a - lo)%Z then hi
        else if Z.even (a / unit) then lo else hi
      else if down then lo
      else if up then hi
      else shortestFrom fuel a (unit / 10)
  end.

(** Up to 2^53 every integer is a float64 and no shorter decimal reads
    back as it. *)
Definition shortest (a : Z) : Z :=
  if (a <=? 2 ^ 53)%Z then a
  else
    let digits := String.length (Itoa a) in
    shortestFrom digits a (10 ^ Z.of_nat (digits - 1)).

(** The number that the shortest decimal of the float64 [n] denotes. *)
Definition shortestDecimal (n : Z) : Z := (Z.sgn n * shortest (Z.abs n))%Z.

Fixpoint trimZeros (fuel : nat) (d : Z) : Z :=
  match fuel with
  | O => d
  | S fuel =>
      if (0 <? d)%Z && (d mod 10 =? 0)%Z then trimZeros fuel (d / 10)%Z else d
  end.

(** [strconv.FormatFloat(f, 'g', -1, 64)] for the float64 of integral
    value [n]: the shortest decimal, written out in full while its
    exponent is below 6 and as [d.ddde+XX] from 1e+06 on, the exponent
    with two digits at least. *)
Definition FormatFloat (n : Z) : string :=
  let sign := if (n <? 0)%Z then "-" else "" in
  let d := shortest (Z.abs n) in
  let exp := (String.length (Itoa d) - 1)%nat in
  if (exp <? 6)%nat then sign +:+ Itoa d
  else
    let e := Itoa (Z.of_nat exp) in
    let e := if (exp <? 10)%nat then "0" +:+ e else e in
    match Itoa (trimZeros exp d) with
    | "" => ""
    | String first "" => sign +:+ String first "" +:+ "e+" +:+ e
    | String first more => sign +:+ String first ("." +:+ more) +:+ "e+" +:+ e
    end.

End strconv.

(** ** unicode/utf8: coercion to valid UTF-8

    [for _, r := range s] and the JSON encoder both decode a string rune
    by rune; a byte that starts no well-formed encoding is taken alone and
    becomes U+FFFD. *)

Module utf8.

Definition byte (a : ascii) : N := N_of_ascii a.

Definition inRange (lo hi : N) (a : ascii) : bool :=
  (lo <=? byte a)%N && (byte a <=? hi)%N.

Definition cont : ascii -> bool := inRange 128 191.

Definition two_ok (b0 b1 : ascii) : bool := inRange 194 223 b0 && cont b1.

Definition three_ok (b0 b1 b2 : ascii) : bool :=
  ((inRange 224 224 b0 && inRange 160 191 b1)
   || (inRange 225 236 b0 && cont b1)
   || (inRange 237 237 b0 && inRange 128 159 b1)
   || (inRange 238 239 b0 && cont b1))
  && cont b2.

Definition four_ok (b0 b1 b2 b3 : ascii) : bool :=
  ((inRange 240 240 b0 && inRange 144 191 b1)
   || (inRange 241 243 b0 && cont b1)
   || (inRange 244 244 b0 && inRange 128 143 b1))
  && cont b2 && cont b3.

(** U+FFFD in UTF-8: EF BF BD. *)
Definition RuneError : string :=
  String (ascii_of_N 239) (String (ascii_of_N 191) (String (ascii_of_N 189) "")).

Fixpoint ToValid (s : string) : string :=
  match s with
  | "" => ""
  | String b0 t =>
      if (byte b0 <? 128)%N then String b0 (ToValid t)
      else
        match t with
        | String b1 t1 =>
            if two_ok b0 b1 then String b0 (String b1 (ToValid t1))
            else
              match t1 with
              | String b2 t2 =>
                  if three_ok b0 b1 b2
                  then String b0 (String b1 (String b2 (ToValid t2)))
                  else
                    match t2 with
                    | String b3 t3 =>
                        if four_ok b0 b1 b2 b3
                        then String b0 (String b1 (String b2 (String b3 (ToValid t3))))
                        else RuneError +:+ ToValid t
                    | "" => RuneError +:+ ToValid t
                    end
              | "" => RuneError +:+ ToValid t
              end
        | "" => RuneError +:+ ToValid t
        end
  end.

Definition ValidString (s : string) : bool := String.eqb (ToValid s) s.

End utf8.

(** ** Dynamic values

    What an [interface{}] of this package can hold: the [Details] of a
    record, the payload of a success envelope, a context key or value, the
    argument of [panic].  [VFloat64 n] is the float64 whose value is the
    integer [n], one that float64 represents ([strconv.ParseFloat n = n],
    so every [n] with [|n| <= 2^53]); a slice value is not nil; a map is
    given by its entries in ascending key order, which is also how the
    encoder emits it; [VError] is an error value, by its message;
    [VChan] is a channel, by its address. *)

Scheme All for list.
Scheme All for prod.

Inductive value : Type :=
| VNil
| VBool (b : bool)
| VInt (n : Z)
| VFloat64 (n : Z)
| VString (s : string)
| VError (msg : string)
| VStrings (l : list string)
| VSlice (l : list value)
| VStringMap (m : list (string * string))
| VMap (m : list (string * value))
| VChan (addr : N).

(** [==] on two interface values: same dynamic type and equal contents.
    Slices and maps are not comparable; no key of such a type reaches a
    context ([context.WithValue] refuses it). *)
Definition iface_eq (a b : value) : bool :=
  match a, b with
  | VNil, VNil => true
  | VBool x, VBool y => Bool.eqb x y
  | VInt x, VInt y => (x =? y)%Z
  | VFloat64 x, VFloat64 y => (x =? y)%Z
  | VString x, VString y => String.eqb x y
  | VError x, VError y => String.eqb x y
  | VChan x, VChan y => (x =? y)%N
  | _, _ => false
  end.

(** ** fmt *)

Module fmt.

Fixpoint join (sep : string) (l : list string) : string :=
  match l with
  | [] => ""
  | [x] => x
  | x :: rest => x +:+ sep +:+ join sep rest
  end.

(** The [%v] verb: [%d] for an integer, [%g] for a float64, the address
    for a channel. *)
Fixpoint Sprint (v : value) : string :=
  match v with
  | VNil => "<nil>"
  | VBool true => "true"
  | VBool false => "false"
  | VInt n => strconv.Itoa n
  | VFloat64 n => strconv.FormatFloat n
  | VString s => s
  | VError msg => msg
  | VStrings l => "[" +:+ join " " l +:+ "]"
  | VSlice l => "[" +:+ join " " (map Sprint l) +:+ "]"
  | VStringMap m => "map[" +:+ join " " (map (fun kv => fst kv +:+ ":" +:+ snd kv) m) +:+ "]"
  | VMap m => "map[" +:+ join " " (map (fun kv => fst kv +:+ ":" +:+ Sprint (snd kv)) m) +:+ "]"
  | VChan a => if (a =? 0)%N then "<nil>" else "0x" +:+ strconv.FormatUint a 16
  end.

End fmt.

(** ** JSON documents *)

Inductive jvalue : Type :=
| JNull
| JBool (b : bool)
| JNum (n : Z)
| JStr (s : string)
| JArr (l : list jvalue)
| JObj (members : list (string * jvalue)).

(** ** types.go *)

Definition ErrorCode := string.

Definition ErrCodeNotFound : ErrorCode := "NOT_FOUND".
Definition ErrCodeValidation : ErrorCode := "VALIDATION_ERROR".
Definition ErrCodeInternal : ErrorCode := "INTERNAL_ERROR".
Definition ErrCodeUnauthorized : ErrorCode := "UNAUTHORIZED".
Definition ErrCodeForbidden : ErrorCode := "FORBIDDEN".
Definition ErrCodeBadRequest : ErrorCode := "BAD_REQUEST".
Definition ErrCodeConflict : ErrorCode := "CONFLICT".
Definition ErrCodeTooManyRequests : ErrorCode := "TOO_MANY_REQUESTS".
Definition ErrCodeServiceUnavailable : ErrorCode := "SERVICE_UNAVAILABLE".

(** The seven fields of the struct declaration, followed by the five that
    only [NewAppError] names ([HumanReadableTime], [Priority],
    [ErrorCode], [ErrorType], [UserID]).  [Trace] is a slice; [nil] and
    the empty slice are both [[]]. *)
Record AppError : Type := mkAppError {
  Code : ErrorCode;
  Message : string;
  Timestamp : Z;
  Module_ : string;
  Trace : list string;
  Details : value;
  RequestID : string;
  HumanReadableTime : string;
  Priority : string;
  ErrorCode_ : string;
  ErrorType : string;
  UserID : string
}.

(** A pointer is an index into the store of its type; an index past the
    end of the store is a nil (or dangling) pointer. *)
Definition ptr := nat.

Record ErrorResponse : Type := mkErrorResponse {
  er_Success : bool;
  er_Error : ptr
}.

Record SuccessResponse : Type := mkSuccessResponse {
  sr_Success : bool;
  sr_Data : value
}.

(** ** runtime: call frames *)

Record Frame : Type := mkFrame {
  Function : string;
  File : string;
  Line : Z
}.

Definition zeroFrame : Frame := mkFrame "" "" 0.

(** ** net/http: the response writer

    One [ResponseRecorder] stands for the writer handed to a handler
    ([httptest.ResponseRecorder]; the server's own writer behaves alike).
    The status and the header map are committed by the first
    [WriteHeader]: [snapHeader] is the header as sent, [HeaderMap] the
    live map that [Header()] returns.  The body is the sequence of writes:
    a JSON document and its newline, or a line of text. *)

Inductive chunk : Type :=
| JsonLine (j : jvalue)
| TextLine (s : string).

Record ResponseRecorder : Type := mkRecorder {
  StatusCode : Z;
  HeaderMap : gmap string string;
  wroteHeader : bool;
  snapHeader : gmap string string;
  Body : list chunk
}.

(** [httptest.NewRecorder()]. *)
Definition NewRecorder : ResponseRecorder :=
  mkRecorder 200 ∅ false ∅ [].

(** ** The world and the monad *)

Record World : Type := mkWorld {
  clock : Z;                      (* wall clock, nanoseconds since the epoch *)
  ticks : list N;                 (* by how much the clock has advanced at each later reading *)
  zoneOffset : Z;                 (* time.Local, seconds east of UTC *)
  stack : list Frame;             (* the goroutine's call stack, innermost frame first *)
  errs : list AppError;           (* the records behind *AppError pointers *)
  resps : list ResponseRecorder   (* the response writers *)
}.

Definition set_clock (t : Z) (tk : list N) (σ : World) : World :=
  mkWorld t tk (zoneOffset σ) (stack σ) (errs σ) (resps σ).
Definition set_stack (s : list Frame) (σ : World) : World :=
  mkWorld (clock σ) (ticks σ) (zoneOffset σ) s (errs σ) (resps σ).
Definition set_errs (h : list AppError) (σ : World) : World :=
  mkWorld (clock σ) (ticks σ) (zoneOffset σ) (stack σ) h (resps σ).
Definition set_resps (h : list ResponseRecorder) (σ : World) : World :=
  mkWorld (clock σ) (ticks σ) (zoneOffset σ) (stack σ) (errs σ) h.

Inductive result (A : Type) : Type :=
| Ok (a : A)
| Panic (v : value).
Arguments Ok {A} a.
Arguments Panic {A} v.

Definition M (A : Type) : Type := World -> result A * World.

#[global] Instance M_ret : MRet M := fun A a σ => (Ok a, σ).
#[global] Instance M_bind : MBind M := fun A B f m σ =>
  match m σ with
  | (Ok a, σ') => f a σ'
  | (Panic v, σ') => (Panic v, σ')
  end.

Definition panic {A} (v : value) : M A := fun σ => (Panic v, σ).

(** The runtime error of a nil pointer dereference. *)
Definition nilDeref : value :=
  VError "runtime error: invalid memory address or nil pointer dereference".

(** A call pushes the callee's frame; a normal return pops it.  When the
    callee panics its frames stay on the stack until a deferred call
    recovers. *)
Definition call {A} (f : Frame) (body : M A) : M A := fun σ =>
  match body (set_stack (f :: stack σ) σ) with
  | (Ok a, σ') => (Ok a, set_stack (stack σ) σ')
  | (Panic v, σ') => (Panic v, σ')
  end.

Definition gopanicFrame : Frame := mkFrame "runtime.gopanic" "runtime/panic.go" 0.

(** The error that stands for a [panic(nil)]: [*runtime.PanicNilError]. *)
Definition PanicNilError : value := VError "panic called with nil argument".

(** What [recover()] returns while a panic with value [v] is in flight:
    the value itself, and for [panic(nil)] the runtime's [PanicNilError],
    which is not nil (the rule of Go 1.21 and later). *)
Definition recover (v : value) : value :=
  match v with
  | VNil => PanicNilError
  | _ => v
  end.

(** [defer func() { if err := recover(); err != nil { handler err } }()]
    around [body].  On a normal return [recover()] is nil and the deferred
    call does nothing.  On a panic [recover()] is not nil; the deferred
    call runs above the frames of the panic; when it returns the function
    returns normally to its caller, and when it panics in turn that panic
    propagates. *)
Definition deferRecover (deferred : Frame) (handler : value -> M unit) (body : M unit) : M unit :=
  fun σ =>
    match body σ with
    | (Ok tt, σ') => (Ok tt, σ')
    | (Panic v, σ') =>
        match call gopanicFrame (call deferred (handler (recover v))) σ' with
        | (Ok tt, σ'') => (Ok tt, set_stack (stack σ) σ'')
        | (Panic v', σ'') => (Panic v', σ'')
        end
    end.

(** ** time *)

Module time.

(** [time.Now()]: a reading of the wall clock, which has moved on by the
    next tick (never backwards). *)
Definition Now : M Z := fun σ =>
  match ticks σ with
  | [] => (Ok (clock σ), σ)
  | d :: later => let t := (clock σ + Z.of_N d)%Z in (Ok t, set_clock t later σ)
  end.

Definition Local : M Z := fun σ => (Ok (zoneOffset σ), σ).

(** [t.Unix()]: whole seconds since the epoch. *)
Definition Unix (t : Z) : Z := (t / 1000000000)%Z.

(** Two's complement reading of the low 64 bits. *)
Definition wrap64 (z : Z) : Z := ((z + 2 ^ 63) mod 2 ^ 64 - 2 ^ 63)%Z.

(** [t.UnixNano()], an int64.  The [time] package leaves the result
    undefined for instants whose nanosecond count does not fit; the
    wrap-around taken here is what the conversion computes, and no
    statement below depends on it outside the int64 range. *)
Definition UnixNano (t : Z) : Z := wrap64 t.

(** [appendInt(b, z, width)]: the sign first, then the digits padded with
    zeros to [width]. *)
Definition pad (width : nat) (z : Z) : string :=
  let s := strconv.Itoa (Z.abs z) in
  (if (z <? 0)%Z then "-" else "")
  +:+ String.concat "" (replicate (width - String.length s) "0") +:+ s.

(** The civil date of a day number counted from 1970-01-01. *)
Definition civil (days : Z) : Z * Z * Z :=
  let z := (days + 719468)%Z in
  let era := (z / 146097)%Z in
  let doe := (z - era * 146097)%Z in
  let yoe := ((doe - doe / 1460 + doe / 36524 - doe / 146096) / 365)%Z in
  let doy := (doe - (365 * yoe + yoe / 4 - yoe / 100))%Z in
  let mp := ((5 * doy + 2) / 153)%Z in
  let d := (doy - (153 * mp + 2) / 5 + 1)%Z in
  let m := (if (mp <? 10)%Z then mp + 3 else mp - 9)%Z in
  let y := (yoe + era * 400 + (if (m <=? 2)%Z then 1 else 0))%Z in
  (y, m, d).

(** [t.Format("2006-01-02 15:04:05")] in the zone [offset] seconds east. *)
Definition Format (offset : Z) (t : Z) : string :=
  let secs := (Unix t + offset)%Z in
  let '(y, m, d) := civil (secs / 86400) in
  let rem := (secs mod 86400)%Z in
  pad 4 y +:+ "-" +:+ pad 2 m +:+ "-" +:+ pad 2 d +:+ " " +:+
  pad 2 (rem / 3600) +:+ ":" +:+ pad 2 (rem mod 3600 / 60) +:+ ":" +:+ pad 2 (rem mod 60).

End time.

(** ** runtime: reading the call stack *)

Module runtime.

Definition CallersFrame : Frame := mkFrame "runtime.Callers" "runtime/extern.go" 0.

(** [runtime.Callers(skip, pc)] with [len(pc) = size]: the frames of the
    calling goroutine, [skip = 0] being [Callers] itself and [skip = 1]
    its caller; as many as fit in [pc]. *)
Definition Callers (skip size : nat) : M (list Frame) :=
  call CallersFrame (fun σ => (Ok (take size (drop skip (stack σ))), σ)).

(** [frames.Next()]: the next frame and whether another one follows.  An
    exhausted iterator gives the zero [Frame] and [false]. *)
Definition Next (frames : list Frame) : Frame * bool * list Frame :=
  match frames with
  | [] => (zeroFrame, false, [])
  | frame :: rest => (frame, match rest with [] => false | _ :: _ => true end, rest)
  end.

End runtime.

(** ** errors.go *)

(** The import path of the package, as the README gives it. *)
Definition pkg : string := "github.com/blackboxai/blerrors".

Definition ownFrame (file name : string) (line : Z) : Frame :=
  mkFrame (pkg +:+ "." +:+ name) file line.

Definition systemPrefixes : list string :=
  ["runtime."; "reflect."; "blerrors."; "net/http."; "github.com/gorilla/mux."].

Fixpoint hasPrefixIn (prefixes : list string) (function : string) : bool :=
  match prefixes with
  | [] => false
  | prefix :: rest =>
      if (String.length prefix <? String.length function)%nat
         && String.eqb (substring 0 (String.length prefix) function) prefix
      then true
      else hasPrefixIn rest function
  end.

Definition isSystemFrame (function : string) : bool :=
  hasPrefixIn systemPrefixes function.

Definition isSeparator (r : ascii) : bool :=
  Ascii.eqb r "/" || Ascii.eqb r ".".

(** The first loop of [extractModuleName], over the runes of the name. *)
Fixpoint splitLoop (function : string) (parts : list string) (current : string)
  : list string * string :=
  match function with
  | "" => (parts, current)
  | String r rest =>
      if isSeparator r then
        if negb (String.eqb current "") then splitLoop rest (parts ++ [current]) ""
        else splitLoop rest parts current
      else splitLoop rest parts (current +:+ String r "")
  end.

Definition meaningful (part : string) : bool :=
  (0 <? String.length part)%nat
  && negb (String.eqb part "internal") && negb (String.eqb part "pkg").

(** The second loop: [for i := len(parts) - 1; i >= 0; i--], entered with
    [n = len(parts)] and looking at index [n - 1]. *)
Fixpoint lastMeaningful (parts : list string) (n : nat) : string :=
  match n with
  | O => "unknown"
  | S i =>
      match parts !! i with
      | Some part => if meaningful part then part else lastMeaningful parts i
      | None => "unknown"
      end
  end.

(** [for _, r := range function] decodes the name rune by rune and
    [current += string(r)] encodes each rune back: the loop sees the
    bytes of the name coerced to valid UTF-8, and the separators are
    single bytes. *)
Definition extractModuleName (function : string) : string :=
  let '(parts, current) := splitLoop (utf8.ToValid function) [] "" in
  let parts := if negb (String.eqb current "") then parts ++ [current] else parts in
  lastMeaningful parts (length parts).

(** [fmt.Sprintf("%s:%d %s", frame.File, frame.Line, frame.Function)]. *)
Definition formatFrame (frame : Frame) : string :=
  File frame +:+ ":" +:+ strconv.Itoa (Line frame) +:+ " " +:+ Function frame.

(** The loop of [getStackTrace].  Each turn consumes a frame, so one turn
    more than there are frames is fuel enough. *)
Fixpoint traceLoop (fuel : nat) (frames : list Frame) (trace : list string)
  : option (list string) :=
  match fuel with
  | O => None
  | S fuel =>
      let '(frame, more, frames) := runtime.Next frames in
      let trace :=
        if negb (isSystemFrame (Function frame)) then trace ++ [formatFrame frame]
        else trace in
      if negb more || (10 <=? length trace)%nat then Some trace
      else traceLoop fuel frames trace
  end.

Definition outOfFuel : value := VError "out of fuel".

Definition getStackTrace : M (list string) :=
  call (ownFrame "errors.go" "getStackTrace" 464)
    (pc ← runtime.Callers 3 15;
     match traceLoop (S (length pc)) pc [] with
     | Some trace => mret trace
     | None => panic outOfFuel
     end).

Definition getCurrentModule : M string :=
  call (ownFrame "errors.go" "getCurrentModule" 484)
    (pc ← runtime.Callers 3 5;
     if (0 <? length pc)%nat then
       let '(frame, more, _) := runtime.Next pc in
       if more then mret (extractModuleName (Function frame)) else mret "unknown"
     else mret "unknown").

(** [&AppError{...}]: a fresh record at the end of the store. *)
Definition new (rec : AppError) : M ptr := fun σ =>
  (Ok (length (errs σ)), set_errs (errs σ ++ [rec]) σ).

Definition NewAppError (code : ErrorCode)
  (message priority errorCode errorType userID : string) : M ptr :=
  call (ownFrame "errors.go" "NewAppError" 423)
    (now ← time.Now;
     zone ← time.Local;
     trace ← getStackTrace;
     module ← getCurrentModule;
     new {| Code := code;
            Message := message;
            Timestamp := time.Unix now;
            HumanReadableTime := time.Format zone now;
            Trace := trace;
            Module_ := module;
            Priority := priority;
            ErrorCode_ := errorCode;
            ErrorType := errorType;
            UserID := userID;
            Details := VNil;
            RequestID := "" |}).

Definition set_Module (module : string) (e : AppError) : AppError :=
  mkAppError (Code e) (Message e) (Timestamp e) module (Trace e) (Details e)
    (RequestID e) (HumanReadableTime e) (Priority e) (ErrorCode_ e) (ErrorType e) (UserID e).
Definition set_Trace (trace : list string) (e : AppError) : AppError :=
  mkAppError (Code e) (Message e) (Timestamp e) (Module_ e) trace (Details e)
    (RequestID e) (HumanReadableTime e) (Priority e) (ErrorCode_ e) (ErrorType e) (UserID e).
Definition set_Details (details : value) (e : AppError) : AppError :=
  mkAppError (Code e) (Message e) (Timestamp e) (Module_ e) (Trace e) details
    (RequestID e) (HumanReadableTime e) (Priority e) (ErrorCode_ e) (ErrorType e) (UserID e).
Definition set_RequestID (requestID : string) (e : AppError) : AppError :=
  mkAppError (Code e) (Message e) (Timestamp e) (Module_ e) (Trace e) (Details e)
    requestID (HumanReadableTime e) (Priority e) (ErrorCode_ e) (ErrorType e) (UserID e).
Definition set_Priority (priority : string) (e : AppError) : AppError :=
  mkAppError (Code e) (Message e) (Timestamp e) (Module_ e) (Trace e) (Details e)
    (RequestID e) (HumanReadableTime e) priority (ErrorCode_ e) (ErrorType e) (UserID e).
Definition set_ErrorCode (errorCode : string) (e : AppError) : AppError :=
  mkAppError (Code e) (Message e) (Timestamp e) (Module_ e) (Trace e) (Details e)
    (RequestID e) (HumanReadableTime e) (Priority e) errorCode (ErrorType e) (UserID e).
Definition set_ErrorType (errorType : string) (e : AppError) : AppError :=
  mkAppError (Code e) (Message e) (Timestamp e) (Module_ e) (Trace e) (Details e)
    (RequestID e) (HumanReadableTime e) (Priority e) (ErrorCode_ e) errorType (UserID e).
Definition set_UserID (userID : string) (e : AppError) : AppError :=
  mkAppError (Code e) (Message e) (Timestamp e) (Module_ e) (Trace e) (Details e)
    (RequestID e) (HumanReadableTime e) (Priority e) (ErrorCode_ e) (ErrorType e) userID.

(** A method with a pointer receiver that assigns to the record and
    returns the receiver: [e.F = x; return e].  Through a nil pointer the
    assignment panics. *)
Definition assign (name : string) (line : Z) (f : AppError -> AppError) (e : ptr) : M ptr :=
  call (ownFrame "errors.go" name line)
    (fun σ =>
       match errs σ !! e with
       | Some rec => (Ok e, set_errs (<[e := f rec]> (errs σ)) σ)
       | None => (Panic nilDeref, σ)
       end).

Definition WithModule (module : string) : ptr -> M ptr :=
  assign "(*AppError).WithModule" 440 (set_Module module).

Definition WithDetails (details : value) : ptr -> M ptr :=
  assign "(*AppError).WithDetails" 446 (set_Details details).

Definition WithRequestID (requestID : string) : ptr -> M ptr :=
  assign "(*AppError).WithRequestID" 452 (set_RequestID requestID).

Definition WithoutTrace : ptr -> M ptr :=
  assign "(*AppError).WithoutTrace" 458 (set_Trace []).

(** The strings that [IsCritical] and [IsSystemError] store; their
    declarations are not under src/. *)
Class Labels : Type := {
  PriorityCritical : string;
  ErrorTypeSystem : string
}.

(** Modelled from the spec: [IsCritical], a builder that the recovery
    middleware calls and no file under src/ defines.  Like every builder
    of the spec it overwrites its own field and returns the record for
    chaining; the field is the one that [NewAppError] fills from its
    parameter [priority]. *)
Definition IsCritical `{Labels} : ptr -> M ptr :=
  assign "(*AppError).IsCritical" 0 (set_Priority PriorityCritical).

(** Modelled from the spec: [WithErrorCode], missing likewise; it
    overwrites the field filled from the parameter [errorCode]. *)
Definition WithErrorCode (errorCode : string) : ptr -> M ptr :=
  assign "(*AppError).WithErrorCode" 0 (set_ErrorCode errorCode).

(** Modelled from the spec: [IsSystemError], missing likewise; it
    overwrites the field filled from the parameter [errorType]. *)
Definition IsSystemError `{Labels} : ptr -> M ptr :=
  assign "(*AppError).IsSystemError" 0 (set_ErrorType ErrorTypeSystem).

(** Modelled from the spec: [WithUserID], missing likewise; it overwrites
    the field filled from the parameter [userID]. *)
Definition WithUserID (userID : string) : ptr -> M ptr :=
  assign "(*AppError).WithUserID" 0 (set_UserID userID).

(** A chain of builder calls on one receiver. *)
Inductive builderCall : Type :=
| CallWithModule (module : string)
| CallWithDetails (details : value)
| CallWithRequestID (requestID : string).

Definition builder (c : builderCall) : ptr -> M ptr :=
  match c with
  | CallWithModule module => WithModule module
  | CallWithDetails details => WithDetails details
  | CallWithRequestID requestID => WithRequestID requestID
  end.

Fixpoint chain (cs : list builderCall) (e : ptr) : M ptr :=
  match cs with
  | [] => mret e
  | c :: cs => e ← builder c e; chain cs e
  end.

(** ** encoding/json on the package's structs *)

Module json.

Definition str (s : string) : jvalue := JStr (utf8.ToValid s).

(** [json.Marshal] of a dynamic value; [None] is the encoder's
    [UnsupportedTypeError].  A float64 is written as its shortest decimal.
    An error value of the standard library has no exported field and
    encodes as the empty object. *)
Fixpoint marshalValue (v : value) : option jvalue :=
  match v with
  | VNil => Some JNull
  | VBool b => Some (JBool b)
  | VInt n => Some (JNum n)
  | VFloat64 n => Some (JNum (strconv.shortestDecimal n))
  | VString s => Some (str s)
  | VError _ => Some (JObj [])
  | VStrings l => Some (JArr (map str l))
  | VSlice l =>
      JArr <$>
        (fix each (l : list value) : option (list jvalue) :=
           match l with
           | [] => Some []
           | x :: rest =>
               match marshalValue x, each rest with
               | Some j, Some js => Some (j :: js)
               | _, _ => None
               end
           end) l
  | VStringMap m => Some (JObj (map (fun kv => (utf8.ToValid (fst kv), str (snd kv))) m))
  | VMap m =>
      JObj <$>
        (fix each (m : list (string * value)) : option (list (string * jvalue)) :=
           match m with
           | [] => Some []
           | kv :: rest =>
               match marshalValue (snd kv), each rest with
               | Some j, Some js => Some ((utf8.ToValid (fst kv), j) :: js)
               | _, _ => None
               end
           end) m
  | VChan _ => None
  end.

(** A field under [omitempty] is left out when it is empty: a string of
    length zero, a slice of length zero, a nil interface. *)
Definition omitEmptyString (name s : string) : list (string * jvalue) :=
  if String.eqb s "" then [] else [(name, str s)].

Definition omitEmptyStrings (name : string) (l : list string) : list (string * jvalue) :=
  match l with
  | [] => []
  | _ :: _ => [(name, JArr (map str l))]
  end.

Definition omitNil (name : string) (v : value) : option (list (string * jvalue)) :=
  match v with
  | VNil => Some []
  | _ => (fun j => [(name, j)]) <$> marshalValue v
  end.

(** The struct tags of [AppError]: [code], [message] and [timestamp]
    always; [module], [trace], [details] and [request_id] under
    [omitempty].  The five fields that the declaration does not list carry
    no tag there and stay off the wire. *)
Definition marshalAppError (e : AppError) : option jvalue :=
  details ← omitNil "details" (Details e);
  Some (JObj
    ([("code", str (Code e)); ("message", str (Message e)); ("timestamp", JNum (Timestamp e))]
     ++ omitEmptyString "module" (Module_ e)
     ++ omitEmptyStrings "trace" (Trace e)
     ++ details
     ++ omitEmptyString "request_id" (RequestID e))).

(** [ErrorResponse]: [success] and [error]; a nil [*AppError] is [null]. *)
Definition marshalErrorResponse (heap : list AppError) (r : ErrorResponse) : option jvalue :=
  error ←
    match heap !! er_Error r with
    | Some e => marshalAppError e
    | None => Some JNull
    end;
  Some (JObj [("success", JBool (er_Success r)); ("error", error)]).

(** [SuccessResponse]: [success], and [data] under [omitempty]: a nil
    interface is left out. *)
Definition marshalSuccessResponse (r : SuccessResponse) : option jvalue :=
  data ← omitNil "data" (sr_Data r);
  Some (JObj ([("success", JBool (sr_Success r))] ++ data)).

(** A map as its entries in ascending key order: assignment [m[k] = v]. *)
Fixpoint mapSet {A} (k : string) (v : A) (m : list (string * A)) : list (string * A) :=
  match m with
  | [] => [(k, v)]
  | (k', v') :: rest =>
      if String.eqb k k' then (k, v) :: rest
      else if String.ltb k k' then (k, v) :: m
      else (k', v') :: mapSet k v rest
  end.

Definition mapOf {A} (members : list (string * A)) : list (string * A) :=
  fold_left (fun m kv => mapSet (fst kv) (snd kv) m) members [].

(** [json.Unmarshal] into an [interface{}]: booleans, float64 numbers,
    strings, [[]interface{}] and [map[string]interface{}].  A number is
    read by [strconv.ParseFloat], so it comes out rounded to the nearest
    float64. *)
Fixpoint unmarshalValue (j : jvalue) : value :=
  match j with
  | JNull => VNil
  | JBool b => VBool b
  | JNum n => VFloat64 (strconv.ParseFloat n)
  | JStr s => VString s
  | JArr l => VSlice (map unmarshalValue l)
  | JObj members => VMap (mapOf (map (fun kj => (fst kj, unmarshalValue (snd kj))) members))
  end.

(** Decoding into a field of a given type.  [null] leaves a string or an
    integer as it was and makes a slice nil; a JSON value of another kind
    is the decoder's [UnmarshalTypeError], here [None]. *)
Definition decodeString (j : jvalue) (old : string) : option string :=
  match j with
  | JStr s => Some s
  | JNull => Some old
  | _ => None
  end.

Definition decodeInt64 (j : jvalue) (old : Z) : option Z :=
  match j with
  | JNum n => if ((- 2 ^ 63 <=? n) && (n <? 2 ^ 63))%Z then Some n else None
  | JNull => Some old
  | _ => None
  end.

Definition decodeStrings (j : jvalue) : option (list string) :=
  match j with
  | JArr l => mapM (fun x => decodeString x "") l
  | JNull => Some []
  | _ => None
  end.

Inductive field : Type :=
| FCode | FMessage | FTimestamp | FModule | FTrace | FDetails | FRequestID.

Definition fields : list (string * field) :=
  [("code", FCode); ("message", FMessage); ("timestamp", FTimestamp);
   ("module", FModule); ("trace", FTrace); ("details", FDetails);
   ("request_id", FRequestID)].

Definition lowerChar (a : ascii) : ascii :=
  let n := N_of_ascii a in
  if ((65 <=? n) && (n <=? 90))%N then ascii_of_N (n + 32) else a.

(** A member name with letter case folded away, as far as a tag of ASCII
    letters can tell: the letters A..Z go to lower case, and so do the two
    letters outside ASCII that Unicode's simple case folding puts with an
    ASCII letter, the long s (U+017F, bytes C5 BF) with [s] and the Kelvin
    sign (U+212A, bytes E2 84 AA) with [k]. *)
Fixpoint lower (s : string) : string :=
  match s with
  | "" => ""
  | String a rest =>
      match rest with
      | String b rest1 =>
          if ((N_of_ascii a =? 197) && (N_of_ascii b =? 191))%N
          then String "s" (lower rest1)
          else
            match rest1 with
            | String c rest2 =>
                if ((N_of_ascii a =? 226) && (N_of_ascii b =? 132) && (N_of_ascii c =? 170))%N
                then String "k" (lower rest2)
                else String (lowerChar a) (lower rest)
            | "" => String (lowerChar a) (lower rest)
            end
      | "" => String (lowerChar a) ""
      end
  end.

(** The field a member name selects: the exact tag first, else the tag
    that matches when letter case is folded away; other members are
    skipped. *)
Definition findField (key : string) : option field :=
  match find (fun nf => String.eqb (fst nf) key) fields with
  | Some nf => Some (snd nf)
  | None => snd <$> find (fun nf => String.eqb (fst nf) (lower key)) fields
  end.

Definition decodeMember (e : AppError) (kj : string * jvalue) : option AppError :=
  let '(key, j) := kj in
  match findField key with
  | Some FCode =>
      s ← decodeString j (Code e);
      Some (mkAppError s (Message e) (Timestamp e) (Module_ e) (Trace e) (Details e)
              (RequestID e) (HumanReadableTime e) (Priority e) (ErrorCode_ e) (ErrorType e) (UserID e))
  | Some FMessage =>
      s ← decodeString j (Message e);
      Some (mkAppError (Code e) s (Timestamp e) (Module_ e) (Trace e) (Details e)
              (RequestID e) (HumanReadableTime e) (Priority e) (ErrorCode_ e) (ErrorType e) (UserID e))
  | Some FTimestamp =>
      n ← decodeInt64 j (Timestamp e);
      Some (mkAppError (Code e) (Message e) n (Module_ e) (Trace e) (Details e)
              (RequestID e) (HumanReadableTime e) (Priority e) (ErrorCode_ e) (ErrorType e) (UserID e))
  | Some FModule => s ← decodeString j (Module_ e); Some (set_Module s e)
  | Some FTrace => l ← decodeStrings j; Some (set_Trace l e)
  | Some FDetails => Some (set_Details (unmarshalValue j) e)
  | Some FRequestID => s ← decodeString j (RequestID e); Some (set_RequestID s e)
  | None => Some e
  end.

Definition zeroAppError : AppError :=
  mkAppError "" "" 0 "" [] VNil "" "" "" "" "" "".

Fixpoint decodeMembers (e : AppError) (members : list (string * jvalue)) : option AppError :=
  match members with
  | [] => Some e
  | kj :: rest => e ← decodeMember e kj; decodeMembers e rest
  end.

(** [json.Unmarshal(data, &e)] with [e] a zero [AppError]. *)
Definition unmarshalAppError (j : jvalue) : option AppError :=
  match j with
  | JObj members => decodeMembers zeroAppError members
  | JNull => Some zeroAppError
  | _ => None
  end.

(** What a value looks like after a trip through the wire. *)
Fixpoint isGeneric (v : value) : bool :=
  match v with
  | VNil => true
  | VBool _ => true
  | VFloat64 n => (Z.abs n <=? 2 ^ 53)%Z
  | VString s => utf8.ValidString s
  | VSlice l => forallb isGeneric l
  | VMap m =>
      (fix ascending (m : list (string * value)) : bool :=
         match m with
         | [] => true
         | kv :: rest =>
             utf8.ValidString (fst kv) && isGeneric (snd kv)
             && forallb (fun kv' => String.ltb (fst kv) (fst kv')) rest
             && ascending rest
         end) m
  | VInt _ | VError _ | VStrings _ | VStringMap _ | VChan _ => false
  end.

End json.

(** ** context *)

Module context.

Inductive Context : Type :=
| background
| valueCtx (parent : Context) (key val : value).

Definition Background : Context := background.

Definition comparable (v : value) : bool :=
  match v with
  | VStrings _ | VSlice _ | VStringMap _ | VMap _ => false
  | _ => true
  end.

(** [context.WithValue(parent, key, val)] panics on a nil key and on a key
    that cannot be compared. *)
Definition WithValue (parent : Context) (key val : value) : M Context :=
  match key with
  | VNil => panic (VString "nil key")
  | _ =>
      if comparable key then mret (valueCtx parent key val)
      else panic (VString "key is not comparable")
  end.

(** [ctx.Value(key)]: the value of the nearest enclosing pair with that
    key, nil when there is none. *)
Fixpoint Value (ctx : Context) (key : value) : value :=
  match ctx with
  | background => VNil
  | valueCtx parent k v => if iface_eq k key then v else Value parent key
  end.

End context.

(** ** net/http *)

Module http.

Definition StatusOK : Z := 200.
Definition StatusBadRequest : Z := 400.
Definition StatusUnauthorized : Z := 401.
Definition StatusForbidden : Z := 403.
Definition StatusNotFound : Z := 404.
Definition StatusConflict : Z := 409.
Definition StatusTooManyRequests : Z := 429.
Definition StatusInternalServerError : Z := 500.
Definition StatusServiceUnavailable : Z := 503.

Record Request : Type := mkRequest {
  Method : string;
  URL : string;
  Context : context.Context
}.

(** [r.WithContext(ctx)]: a copy of the request with its context changed. *)
Definition WithContext (r : Request) (ctx : context.Context) : Request :=
  mkRequest (Method r) (URL r) ctx.

(** A handler, by its [ServeHTTP(w, r)]. *)
Definition Handler : Type := ptr -> Request -> M unit.

Definition ServeHTTPFrame : Frame :=
  mkFrame "net/http.HandlerFunc.ServeHTTP" "net/http/server.go" 0.

(** [http.HandlerFunc(f)]: [ServeHTTP] calls [f]. *)
Definition HandlerFunc (f : Handler) : Handler :=
  fun w r => call ServeHTTPFrame (f w r).

(** A method of the writer behind [w]. *)
Definition method (w : ptr) (f : ResponseRecorder -> result ResponseRecorder) : M unit :=
  fun σ =>
    match resps σ !! w with
    | Some rw =>
        match f rw with
        | Ok rw' => (Ok tt, set_resps (<[w := rw']> (resps σ)) σ)
        | Panic v => (Panic v, σ)
        end
    | None => (Panic nilDeref, σ)
    end.

(** [w.Header().Set(key, v)] and [w.Header().Del(key)], on the live map. *)
Definition Header_Set (w : ptr) (key v : string) : M unit :=
  method w (fun rw =>
    Ok (mkRecorder (StatusCode rw) (<[key := v]> (HeaderMap rw)) (wroteHeader rw)
          (snapHeader rw) (Body rw))).

Definition Header_Del (w : ptr) (key : string) : M unit :=
  method w (fun rw =>
    Ok (mkRecorder (StatusCode rw) (delete key (HeaderMap rw)) (wroteHeader rw)
          (snapHeader rw) (Body rw))).

(** [WriteHeader(code)]: the first call fixes the status and takes the
    snapshot of the header map that is sent; later calls are superfluous
    and change nothing.  A code outside 100..999 panics. *)
Definition writeHeader (code : Z) (rw : ResponseRecorder) : result ResponseRecorder :=
  if wroteHeader rw then Ok rw
  else if ((code <? 100) || (999 <? code))%Z then Panic (VString "invalid WriteHeader code")
  else Ok (mkRecorder code (HeaderMap rw) true (HeaderMap rw) (Body rw)).

Definition WriteHeader (w : ptr) (code : Z) : M unit := method w (writeHeader code).

(** [Write]: commits status 200 first when no header was written.  (A
    writer whose header map has no content type at that moment detects
    one from the bytes written; that detection is left out: this package
    sets the content type before each of its writes.) *)
Definition write (c : chunk) (rw : ResponseRecorder) : result ResponseRecorder :=
  match writeHeader StatusOK rw with
  | Ok rw =>
      Ok (mkRecorder (StatusCode rw) (HeaderMap rw) (wroteHeader rw) (snapHeader rw)
            (Body rw ++ [c]))
  | Panic v => Panic v
  end.

Definition Write (w : ptr) (c : chunk) : M unit := method w (write c).

(** [http.Error(w, error, code)]. *)
Definition Error (w : ptr) (error : string) (code : Z) : M unit :=
  _ ← Header_Del w "Content-Length";
  _ ← Header_Set w "Content-Type" "text/plain; charset=utf-8";
  _ ← Header_Set w "X-Content-Type-Options" "nosniff";
  _ ← WriteHeader w code;
  Write w (TextLine error).

End http.

(** [json.NewEncoder(w).Encode(v)], given the outcome of marshalling [v]:
    on failure nothing is written and the error is returned; otherwise
    the document and a newline go out in one [Write], which on this
    writer does not fail.  [true] stands for a non-nil error. *)
Definition Encode (w : ptr) (doc : option jvalue) : M bool :=
  match doc with
  | None => mret true
  | Some j => _ ← http.Write w (JsonLine j); mret false
  end.

(** ** http.go *)

Definition getHTTPStatusCode (code : ErrorCode) : Z :=
  if String.eqb code ErrCodeNotFound then http.StatusNotFound
  else if String.eqb code ErrCodeValidation || String.eqb code ErrCodeBadRequest
  then http.StatusBadRequest
  else if String.eqb code ErrCodeUnauthorized then http.StatusUnauthorized
  else if String.eqb code ErrCodeForbidden then http.StatusForbidden
  else if String.eqb code ErrCodeConflict then http.StatusConflict
  else if String.eqb code ErrCodeTooManyRequests then http.StatusTooManyRequests
  else if String.eqb code ErrCodeServiceUnavailable then http.StatusServiceUnavailable
  else if String.eqb code ErrCodeInternal then http.StatusInternalServerError
  else http.StatusInternalServerError.

(** [*err]. *)
Definition load (err : ptr) : M AppError := fun σ =>
  match errs σ !! err with
  | Some rec => (Ok rec, σ)
  | None => (Panic nilDeref, σ)
  end.

Definition heap : M (list AppError) := fun σ => (Ok (errs σ), σ).

Definition WriteErrorResponse (w : ptr) (err : ptr) : M unit :=
  call (ownFrame "http.go" "WriteErrorResponse" 12)
    (_ ← http.Header_Set w "Content-Type" "application/json";
     rec ← load err;
     _ ← http.WriteHeader w (getHTTPStatusCode (Code rec));
     let response := {| er_Success := false; er_Error := err |} in
     records ← heap;
     encodeErr ← Encode w (json.marshalErrorResponse records response);
     if encodeErr : bool
     then http.Error w "Internal server error" http.StatusInternalServerError
     else mret tt).

Definition WriteSuccessResponse (w : ptr) (data : value) : M unit :=
  call (ownFrame "http.go" "WriteSuccessResponse" 28)
    (_ ← http.Header_Set w "Content-Type" "application/json";
     _ ← http.WriteHeader w http.StatusOK;
     let response := {| sr_Success := true; sr_Data := data |} in
     _ ← Encode w (json.marshalSuccessResponse response);
     mret tt).

(** The call passes a code and a message; the four later parameters of
    [NewAppError] as it stands in errors.go get the zero value. *)
Definition ErrorRecoveryMiddleware `{Labels} (next : http.Handler) : http.Handler :=
  http.HandlerFunc (fun w r =>
    call (ownFrame "http.go" "ErrorRecoveryMiddleware.func1" 66)
      (deferRecover (ownFrame "http.go" "ErrorRecoveryMiddleware.func1.1" 67)
         (fun err =>
            appErr ← NewAppError ErrCodeInternal "Internal server error" "" "" "" "";
            appErr ← IsCritical appErr;
            appErr ← WithErrorCode "FS001" appErr;
            appErr ← IsSystemError appErr;
            appErr ← WithUserID "system" appErr;
            appErr ← WithDetails (VString ("Panic recovered: " +:+ fmt.Sprint err)) appErr;
            appErr ← WithModule "middleware" appErr;
            WriteErrorResponse w appErr)
         (next w r))).

Definition RequestIDMiddleware (next : http.Handler) : http.Handler :=
  http.HandlerFunc (fun w r =>
    call (ownFrame "http.go" "RequestIDMiddleware.func1" 83)
      (now ← time.Now;
       let requestID := strconv.Itoa (time.UnixNano now) in
       ctx ← context.WithValue (http.Context r) (VString "request_id") (VString requestID);
       let r := http.WithContext r ctx in
       next w r)).

Definition GetRequestID (ctx : context.Context) : string :=
  match context.Value ctx (VString "request_id") with
  | VString requestID => requestID
  | _ => ""
  end.

(** ** errors.go: the [error] interface *)

(** [func (e *AppError) Error() string]:
    [fmt.Sprintf("[%s] %s", e.Code, e.Message)]. *)
Definition Error (e : ptr) : M string :=
  call (ownFrame "errors.go" "(*AppError).Error" 418)
    (rec ← load e;
     mret ("[" +:+ Code rec +:+ "] " +:+ Message rec)).

(** ** encoding/json: decoding the envelopes *)

Definition decodeBool (j : jvalue) (old : bool) : option bool :=
  match j with
  | JBool b => Some b
  | JNull => Some old
  | _ => None
  end.

Inductive envelopeField : Type :=
| FSuccess | FError | FData.

(** The field of an envelope that a member name selects among [tags],
    by the rule of [json.findField]. *)
Definition findEnvelopeField (tags : list (string * envelopeField)) (key : string)
  : option envelopeField :=
  match find (fun nf => String.eqb (fst nf) key) tags with
  | Some nf => Some (snd nf)
  | None => snd <$> find (fun nf => String.eqb (fst nf) (json.lower key)) tags
  end.

(** [json.Unmarshal(data, &response)] with [response] a zero
    [ErrorResponse], as the tests decode a recorded body: the flag and the
    record behind [response.Error], [None] for a nil pointer.  An object
    under [error] is decoded into the record that the pointer holds, a new
    zero record when the pointer is nil; [null] makes the pointer nil. *)
Definition decodeErrorMember (r : bool * option AppError) (kj : string * jvalue)
  : option (bool * option AppError) :=
  let '(key, j) := kj in
  match findEnvelopeField [("success", FSuccess); ("error", FError)] key with
  | Some FSuccess => b ← decodeBool j (fst r); Some (b, snd r)
  | Some FError =>
      match j with
      | JNull => Some (fst r, None)
      | JObj members =>
          e ← json.decodeMembers (default json.zeroAppError (snd r)) members;
          Some (fst r, Some e)
      | _ => None
      end
  | _ => Some r
  end.

Fixpoint decodeErrorMembers (r : bool * option AppError) (members : list (string * jvalue))
  : option (bool * option AppError) :=
  match members with
  | [] => Some r
  | kj :: rest => r ← decodeErrorMember r kj; decodeErrorMembers r rest
  end.

Definition unmarshalErrorResponse (j : jvalue) : option (bool * option AppError) :=
  match j with
  | JObj members => decodeErrorMembers (false, None) members
  | JNull => Some (false, None)
  | _ => None
  end.

(** The same for a zero [SuccessResponse]: the flag and the payload, an
    [interface{}]. *)
Definition decodeSuccessMember (r : SuccessResponse) (kj : string * jvalue)
  : option SuccessResponse :=
  let '(key, j) := kj in
  match findEnvelopeField [("success", FSuccess); ("data", FData)] key with
  | Some FSuccess => b ← decodeBool j (sr_Success r); Some (mkSuccessResponse b (sr_Data r))
  | Some FData => Some (mkSuccessResponse (sr_Success r) (json.unmarshalValue j))
  | _ => Some r
  end.

Fixpoint decodeSuccessMembers (r : SuccessResponse) (members : list (string * jvalue))
  : option SuccessResponse :=
  match members with
  | [] => Some r
  | kj :: rest => r ← decodeSuccessMember r kj; decodeSuccessMembers r rest
  end.

Definition unmarshalSuccessResponse (j : jvalue) : option SuccessResponse :=
  match j with
  | JObj members => decodeSuccessMembers (mkSuccessResponse false VNil) members
  | JNull => Some (mkSuccessResponse false VNil)
  | _ => None
  end.

(** ** Specifications, claims as worded, and sample inputs *)

(** The table of §4.2, row by row. *)
Definition StatusTable : list (ErrorCode * Z) :=
  [(ErrCodeNotFound, 404%Z); (ErrCodeValidation, 400%Z); (ErrCodeBadRequest, 400%Z);
   (ErrCodeUnauthorized, 401%Z); (ErrCodeForbidden, 403%Z); (ErrCodeConflict, 409%Z);
   (ErrCodeTooManyRequests, 429%Z); (ErrCodeServiceUnavailable, 503%Z);
   (ErrCodeInternal, 500%Z)].

Definition StatusMapping (kind : string) : Z :=
  match find (fun row => String.eqb (fst row) kind) StatusTable with
  | Some row => snd row
  | None => 500%Z
  end.

(** The fields that none of the three builders assigns. *)
Definition keptByBuilders (r r' : AppError) : Prop :=
  Code r' = Code r /\ Message r' = Message r /\ Timestamp r' = Timestamp r
  /\ Trace r' = Trace r /\ HumanReadableTime r' = HumanReadableTime r
  /\ Priority r' = Priority r /\ ErrorCode_ r' = ErrorCode_ r
  /\ ErrorType r' = ErrorType r /\ UserID r' = UserID r.

(** What a builder call does to the record: its own field takes the
    argument, every other field is kept. *)
Definition builderEffect (c : builderCall) (r r' : AppError) : Prop :=
  keptByBuilders r r'
  /\ match c with
     | CallWithModule module =>
         Module_ r' = module /\ Details r' = Details r /\ RequestID r' = RequestID r
     | CallWithDetails details =>
         Module_ r' = Module_ r /\ Details r' = details /\ RequestID r' = RequestID r
     | CallWithRequestID requestID =>
         Module_ r' = Module_ r /\ Details r' = Details r /\ RequestID r' = requestID
     end.

(** The rest of the world after a call on the record behind [e]. *)
Definition onlyRecordChanged (e : ptr) (σ σ' : World) : Prop :=
  clock σ' = clock σ /\ ticks σ' = ticks σ /\ stack σ' = stack σ /\ resps σ' = resps σ
  /\ length (errs σ') = length (errs σ)
  /\ forall e', e' <> e -> errs σ' !! e' = errs σ !! e'.

(** A frame that the trace keeps. *)
Definition informative (f : Frame) : bool := negb (isSystemFrame (Function f)).

(** The trace read off the frames that [runtime.Callers] returned. *)
Definition traceOf (window : list Frame) : list string :=
  match window with
  | [] => [formatFrame zeroFrame]
  | _ :: _ => take 10 (map formatFrame (List.filter informative window))
  end.

(** C6 as the claim words it: every frame above the constructor is
    walked until ten are kept, and a frame is dropped when its function
    name starts with a listed prefix. *)
Definition startsWithSystemPrefix (function : string) : bool :=
  existsb (fun p => String.prefix p function) systemPrefixes.

Definition getStackTrace_as_stated (σ : World) : Prop :=
  getStackTrace σ =
    (Ok (map formatFrame
           (take 10 (List.filter (fun f => negb (startsWithSystemPrefix (Function f)))
                       (drop 1 (stack σ))))), σ).

(** A deep stack: a handler under ten middlewares, each entered through
    [http.HandlerFunc.ServeHTTP], under the server. *)
Definition middlewareFrames (n : nat) : list Frame :=
  flat_map
    (fun i => [http.ServeHTTPFrame;
               mkFrame ("main.middleware" +:+ strconv.Itoa (Z.of_nat i) +:+ ".func1")
                 "main.go" (100 + Z.of_nat i)])
    (seq 1 n).

Definition deepStack : list Frame :=
  ownFrame "errors.go" "NewAppError" 423
  :: mkFrame "main.handler" "main.go" 42
  :: middlewareFrames 10
  ++ [http.ServeHTTPFrame;
      mkFrame "net/http.serverHandler.ServeHTTP" "net/http/server.go" 0;
      mkFrame "net/http.(*conn).serve" "net/http/server.go" 0;
      mkFrame "runtime.goexit" "runtime/asm_amd64.s" 0].

Definition deepWorld : World :=
  mkWorld 1703123456789123456 [] 0 deepStack [] [].

(** The stack inside the constructor when a handler calls it. *)
Definition handlerStack : list Frame :=
  [ownFrame "errors.go" "NewAppError" 423;
   mkFrame "main.(*Handler).GetUser" "path/to/file.go" 42;
   mkFrame "net/http.HandlerFunc.ServeHTTP" "net/http/server.go" 0;
   mkFrame "main.main" "path/to/file.go" 28;
   mkFrame "runtime.main" "runtime/proc.go" 0;
   mkFrame "runtime.goexit" "runtime/asm_amd64.s" 0].

Definition handlerWorld : World :=
  mkWorld 1703123456789123456 [] 0 handlerStack [] [].

(** The pieces of a name between the separators of [extractModuleName],
    and the last of them that the function accepts. *)
Fixpoint splitOn (s : string) : list string :=
  match s with
  | "" => [""]
  | String c rest =>
      if isSeparator c then "" :: splitOn rest
      else match splitOn rest with
           | [] => [String c ""]
           | piece :: pieces => String c piece :: pieces
           end
  end.

Definition moduleOf (function : string) : string :=
  default "unknown" (last (List.filter meaningful (splitOn function))).

(** Module inference in the words of the spec: the separators, the
    generic wrapper names, the segments of a name, and the last segment
    that is not empty and not a wrapper name. *)
Definition separators : list ascii := ["/"; "."]%char.

Definition wrapperNames : list string := ["internal"; "pkg"].

Fixpoint segments (name : string) : list string :=
  match name with
  | "" => [""]
  | String c rest =>
      if existsb (Ascii.eqb c) separators then "" :: segments rest
      else match segments rest with
           | [] => [String c ""]
           | segment :: more => String c segment :: more
           end
  end.

Definition usable (segment : string) : bool :=
  negb (String.eqb segment "") && negb (existsb (String.eqb segment) wrapperNames).

Definition lastUsable (name : string) : string :=
  default "unknown" (last (List.filter usable (segments name))).

(** C7 as the claim words it.  The spec calls skipped the frames that the
    capture drops because a prefix of the deny-list begins their function
    name; the first frame above the constructor that is not skipped
    decides, and "unknown" is the answer when its name has no usable
    segment or when there is no such frame. *)
Definition firstNonSkipped (above : list Frame) : option Frame :=
  head (List.filter (fun f => negb (startsWithSystemPrefix (Function f))) above).

Definition getCurrentModule_as_stated (σ : World) : Prop :=
  getCurrentModule σ =
    (Ok (match firstNonSkipped (drop 1 (stack σ)) with
         | Some f => lastUsable (Function f)
         | None => "unknown"
         end), σ).

(** [current != ""]. *)
Definition nonEmpty (s : string) : bool := negb (String.eqb s "").

(** The stack inside the constructor when a function [register] of the
    program calls it through reflection,
    [reflect.ValueOf(blerrors.NewAppError).Call(args)]: the frames of
    package [reflect] lie between the constructor's and the frame of
    [register]. *)
Definition reflectedStack : list Frame :=
  [ownFrame "errors.go" "NewAppError" 423;
   mkFrame "reflect.Value.call" "reflect/value.go" 0;
   mkFrame "reflect.Value.Call" "reflect/value.go" 0;
   mkFrame "main.register" "main.go" 12;
   mkFrame "main.main" "main.go" 20;
   mkFrame "runtime.main" "runtime/proc.go" 0;
   mkFrame "runtime.goexit" "runtime/asm_amd64.s" 0].

Definition reflectedWorld : World :=
  mkWorld 1703123456789123456 [] 0 reflectedStack [] [].

(** C4 as the claim words it, on the trace: whenever the runtime has
    frames to report for the caller, the record's trace is not empty. *)
Definition NewAppError_as_stated (σ : World) : Prop :=
  forall code message priority errorCode errorType userID,
  exists err σ' rec,
    NewAppError code message priority errorCode errorType userID σ = (Ok err, σ')
    /\ errs σ' !! err = Some rec
    /\ (stack σ <> [] -> Trace rec <> []).

(** The world of a call that starts a goroutine,
    [go blerrors.NewAppError(...)]: the only frame under the constructor
    is the runtime's [goexit], with which every goroutine's stack ends. *)
Definition goroutineEntry : World :=
  mkWorld 1703123456789123456 [] 0
    [mkFrame "runtime.goexit" "runtime/asm_amd64.s" 0] [] [].

(** How a frame is written in a trace: [file:line function], the line in
    decimal. *)
Definition rendered (f : Frame) : string :=
  File f +:+ ":" +:+ strconv.Itoa (Line f) +:+ " " +:+ Function f.

(** A timestamp that fits the int64 field it is decoded into. *)
Definition int64 (n : Z) : Prop := (- 2 ^ 63 <= n < 2 ^ 63)%Z.

(** C5 as the claim words it, for one record. *)
Definition roundtrip_as_stated (e : AppError) : Prop :=
  exists j e',
    json.marshalAppError e = Some j
    /\ json.unmarshalAppError j = Some e'
    /\ Code e' = Code e /\ Message e' = Message e /\ Module_ e' = Module_ e
    /\ Details e' = Details e /\ RequestID e' = RequestID e.

(** The record of TestJSONEncoding. *)
Definition invalidInput : AppError :=
  {| Code := ErrCodeValidation;
     Message := "Invalid input";
     Timestamp := 1703123456;
     Module_ := "user-service";
     Trace := ["path/to/file.go:42 main.Handler.GetUser"];
     Details := VStringMap [("field", "email")];
     RequestID := "req-123";
     HumanReadableTime := "2023-12-21 01:50:56";
     Priority := "";
     ErrorCode_ := "FS001";
     ErrorType := "";
     UserID := "user123" |}.

(** The two nested loops of [marshalValue], by name. *)
Definition marshalAll (l : list value) : option (list jvalue) :=
  (fix each (l : list value) : option (list jvalue) :=
     match l with
     | [] => Some []
     | x :: rest =>
         match json.marshalValue x, each rest with
         | Some j, Some js => Some (j :: js)
         | _, _ => None
         end
     end) l.

Definition marshalEntries (m : list (string * value)) : option (list (string * jvalue)) :=
  (fix each (m : list (string * value)) : option (list (string * jvalue)) :=
     match m with
     | [] => Some []
     | kv :: rest =>
         match json.marshalValue (snd kv), each rest with
         | Some j, Some js => Some ((utf8.ToValid (fst kv), j) :: js)
         | _, _ => None
         end
     end) m.

(** Keys in strictly ascending order. *)
Fixpoint ascending {A} (m : list (string * A)) : Prop :=
  match m with
  | [] => True
  | kv :: rest =>
      forallb (fun kv' => String.ltb (fst kv) (fst kv')) rest = true /\ ascending rest
  end.

(** The condition of [isGeneric] on the entries of a map, by name. *)
Definition genericEntries (m : list (string * value)) : bool :=
  (fix ascending (m : list (string * value)) : bool :=
     match m with
     | [] => true
     | kv :: rest =>
         utf8.ValidString (fst kv) && json.isGeneric (snd kv)
         && forallb (fun kv' => String.ltb (fst kv) (fst kv')) rest
         && ascending rest
     end) m.

(** A record with generic details: [WithDetails("Insufficient
    permissions")] of TestAppError_Chaining. *)
Definition accessDenied : AppError :=
  {| Code := ErrCodeForbidden;
     Message := "Access denied";
     Timestamp := 1703123456;
     Module_ := "auth-service";
     Trace := ["path/to/file.go:42 main.Handler.GetUser"];
     Details := VString "Insufficient permissions";
     RequestID := "req-abc";
     HumanReadableTime := "2023-12-21 01:50:56";
     Priority := "";
     ErrorCode_ := "FS001";
     ErrorType := "";
     UserID := "user123" |}.

(** The body of TestTimestampIsRecent: a reading of the clock before the
    construction and one after it. *)
Definition TimestampIsRecent (code : ErrorCode)
  (message priority errorCode errorType userID : string) : M (Z * ptr * Z) :=
  before ← time.Now;
  err ← NewAppError code message priority errorCode errorType userID;
  after ← time.Now;
  mret (time.Unix before, err, time.Unix after).

(** The next reading of the clock, and the world after it. *)
Definition reading (σ : World) : Z :=
  match ticks σ with
  | [] => clock σ
  | d :: _ => (clock σ + Z.of_N d)%Z
  end.

Definition afterNow (σ : World) : World :=
  match ticks σ with
  | [] => σ
  | d :: later => set_clock (clock σ + Z.of_N d)%Z later σ
  end.

(** The record that [NewAppError] builds in the world [σ] of its caller. *)
Definition newRecord (σ : World) (code : ErrorCode)
  (message priority errorCode errorType userID : string) : AppError :=
  {| Code := code;
     Message := message;
     Timestamp := time.Unix (reading σ);
     HumanReadableTime := time.Format (zoneOffset σ) (reading σ);
     Trace := traceOf (take 15 (stack σ));
     Module_ := match stack σ with
                | f :: _ :: _ => extractModuleName (Function f)
                | _ => "unknown"
                end;
     Priority := priority;
     ErrorCode_ := errorCode;
     ErrorType := errorType;
     UserID := userID;
     Details := VNil;
     RequestID := "" |}.

(** The world with the writer behind [w] replaced. *)
Definition putResp (w : ptr) (rw : ResponseRecorder) (σ : World) : World :=
  set_resps (<[w := rw]> (resps σ)) σ.

(** What a status and the JSON content type committed on [rw] leave:
    nothing new when the header of [rw] was already written. *)
Definition statusAfter (code : Z) (rw : ResponseRecorder) : Z :=
  if wroteHeader rw then StatusCode rw else code.

Definition sentHeaderAfter (rw : ResponseRecorder) : gmap string string :=
  if wroteHeader rw then snapHeader rw
  else <["Content-Type" := "application/json"]> (HeaderMap rw).

(** The writer after [WriteErrorResponse] for the record [rec]. *)
Definition errorResponseWritten (rec : AppError) (rw : ResponseRecorder) : ResponseRecorder :=
  {| StatusCode := statusAfter (getHTTPStatusCode (Code rec)) rw;
     wroteHeader := true;
     snapHeader := sentHeaderAfter rw;
     HeaderMap :=
       match json.marshalAppError rec with
       | Some _ => <["Content-Type" := "application/json"]> (HeaderMap rw)
       | None =>
           <["X-Content-Type-Options" := "nosniff"]>
             (<["Content-Type" := "text/plain; charset=utf-8"]>
                (delete "Content-Length"
                   (<["Content-Type" := "application/json"]> (HeaderMap rw))))
       end;
     Body :=
       Body rw ++
       [match json.marshalAppError rec with
        | Some j => JsonLine (JObj [("success", JBool false); ("error", j)])
        | None => TextLine "Internal server error"
        end] |}.

(** The writer after [WriteSuccessResponse] for the payload [data]. *)
Definition successResponseWritten (data : value) (rw : ResponseRecorder) : ResponseRecorder :=
  {| StatusCode := statusAfter http.StatusOK rw;
     wroteHeader := true;
     snapHeader := sentHeaderAfter rw;
     HeaderMap := <["Content-Type" := "application/json"]> (HeaderMap rw);
     Body :=
       Body rw ++
       match json.marshalSuccessResponse {| sr_Success := true; sr_Data := data |} with
       | Some j => [JsonLine j]
       | None => []
       end |}.

(** The first [WriteHeader(code)], for a code in range. *)
Definition commit (code : Z) (rw : ResponseRecorder) : ResponseRecorder :=
  if wroteHeader rw then rw
  else mkRecorder code (HeaderMap rw) true (HeaderMap rw) (Body rw).

(** A [Write] of [c]. *)
Definition appended (c : chunk) (rw : ResponseRecorder) : ResponseRecorder :=
  let rw := commit 200 rw in
  mkRecorder (StatusCode rw) (HeaderMap rw) (wroteHeader rw) (snapHeader rw) (Body rw ++ [c]).

(** A live record whose details cannot be serialized: a channel. *)
Definition notFoundChan : AppError :=
  {| Code := ErrCodeNotFound;
     Message := "Resource not found";
     Timestamp := 1703123456;
     Module_ := "test-service";
     Trace := [];
     Details := VChan 824633802912;
     RequestID := "";
     HumanReadableTime := "2023-12-21 01:50:56";
     Priority := "";
     ErrorCode_ := "";
     ErrorType := "";
     UserID := "" |}.

(** A request being served in December 2023: a fresh recorder at
    pointer 0, handler frames under the server's. *)
Definition serving (records : list AppError) : World :=
  mkWorld 1703123456789123456 [250%N; 1000%N] 0
    [mkFrame "main.(*Handler).GetUser" "path/to/file.go" 42;
     mkFrame "net/http.HandlerFunc.ServeHTTP" "net/http/server.go" 0;
     mkFrame "net/http.serverHandler.ServeHTTP" "net/http/server.go" 0;
     mkFrame "net/http.(*conn).serve" "net/http/server.go" 0;
     mkFrame "runtime.goexit" "runtime/asm_amd64.s" 0]
    records [NewRecorder].

(** A call seen from its caller: on a normal return the caller's stack is
    back; a panic leaves the frames where they are. *)
Definition returning {A} (s : list Frame) (out : result A * World) : result A * World :=
  match out with
  | (Ok a, σ') => (Ok a, set_stack s σ')
  | (Panic v, σ') => (Panic v, σ')
  end.

(** The request that the request-id wrapper hands to the inner handler
    when its reading of the clock is [now]. *)
Definition withRequestID (r : http.Request) (now : Z) : http.Request :=
  http.WithContext r
    (context.valueCtx (http.Context r) (VString "request_id")
       (VString (strconv.Itoa (time.UnixNano now)))).

Definition testRequest : http.Request :=
  http.mkRequest "GET" "/test" context.Background.

Definition requestIDFrames : list Frame :=
  [ownFrame "http.go" "RequestIDMiddleware.func1" 83; http.ServeHTTPFrame].

(** A handler that answers with the request id it observes. *)
Definition echoRequestID : http.Handler :=
  fun w r =>
    _ ← http.Header_Set w "Content-Type" "text/plain; charset=utf-8";
    http.Write w (TextLine (GetRequestID (http.Context r))).

(** The stack on which the recovery wrapper runs the inner handler. *)
Definition recoveryFrames : list Frame :=
  [ownFrame "http.go" "ErrorRecoveryMiddleware.func1" 66; http.ServeHTTPFrame].

(** C1 as the claim words it, for a handler that panics: whatever the
    handler did before, the response carries status 500. *)
Definition recovery_as_stated (next : http.Handler) (w : ptr) (r : http.Request)
  (σ : World) : Prop :=
  forall L : Labels,
  exists σ' rw',
    @ErrorRecoveryMiddleware L next w r σ = (Ok tt, σ')
    /\ resps σ' !! w = Some rw'
    /\ StatusCode rw' = 500%Z.

(** A handler that starts its answer and then panics. *)
Definition startsThenPanics : http.Handler :=
  fun w r =>
    _ ← http.Header_Set w "Content-Type" "text/plain; charset=utf-8";
    _ ← http.Write w (TextLine "partial answer");
    panic (VString "Test panic").

(** The handler of TestErrorRecoveryMiddleware. *)
Definition panicHandler : http.Handler :=
  fun w r => panic (VString "Test panic").

(** A handler that panics with any other value: [panic(v)]. *)
Definition panicsWith (v : value) : http.Handler :=
  fun w r => panic v.

Definition testLabels : Labels :=
  {| PriorityCritical := "critical"; ErrorTypeSystem := "system" |}.

(** The record that the deferred call of the wrapper builds, from the
    record [rec0] that [NewAppError] returned. *)
Definition recovered `{Labels} (v : value) (rec0 : AppError) : AppError :=
  set_Module "middleware"
    (set_Details (VString ("Panic recovered: " +:+ fmt.Sprint v))
       (set_UserID "system"
          (set_ErrorType ErrorTypeSystem
             (set_ErrorCode "FS001" (set_Priority PriorityCritical rec0))))).

(** The chain of TestAppError_Chaining. *)
Definition chaining : list builderCall :=
  [CallWithModule "auth-service";
   CallWithDetails (VString "Insufficient permissions");
   CallWithRequestID "req-abc"].

(** ** Further specifications *)

(** *** Chains over the four builders of errors.go *)

Inductive fluentCall : Type :=
| Build (c : builderCall)
| CallWithoutTrace.

Definition fluent (c : fluentCall) : ptr -> M ptr :=
  match c with
  | Build c => builder c
  | CallWithoutTrace => WithoutTrace
  end.

Fixpoint fluentChain (cs : list fluentCall) (e : ptr) : M ptr :=
  match cs with
  | [] => mret e
  | c :: cs => e ← fluent c e; fluentChain cs e
  end.

(** The argument of the last call of a chain on each field. *)
Definition lastModule (cs : list fluentCall) : option string :=
  last (omap (fun c => match c with Build (CallWithModule m) => Some m | _ => None end) cs).

Definition lastDetails (cs : list fluentCall) : option value :=
  last (omap (fun c => match c with Build (CallWithDetails d) => Some d | _ => None end) cs).

Definition lastRequestID (cs : list fluentCall) : option string :=
  last (omap (fun c => match c with Build (CallWithRequestID i) => Some i | _ => None end) cs).

Definition clearsTrace (cs : list fluentCall) : bool :=
  existsb (fun c => match c with CallWithoutTrace => true | _ => false end) cs.

(** The record that a chain leaves: in each field the argument of the
    last call on it, the former value where the chain has none. *)
Definition configured (cs : list fluentCall) (r : AppError) : AppError :=
  {| Code := Code r;
     Message := Message r;
     Timestamp := Timestamp r;
     Module_ := default (Module_ r) (lastModule cs);
     Trace := if clearsTrace cs then [] else Trace r;
     Details := default (Details r) (lastDetails cs);
     RequestID := default (RequestID r) (lastRequestID cs);
     HumanReadableTime := HumanReadableTime r;
     Priority := Priority r;
     ErrorCode_ := ErrorCode_ r;
     ErrorType := ErrorType r;
     UserID := UserID r |}.

(** *** Segments of a function name *)

(** Whether a name holds one of the two separators of
    [extractModuleName]. *)
Fixpoint hasSeparator (s : string) : bool :=
  match s with
  | "" => false
  | String r rest => isSeparator r || hasSeparator rest
  end.

(** *** The recovery wrapper at work *)

(** The function of the deferred call of the recovery wrapper. *)
Definition deferredFunction : string := pkg +:+ ".ErrorRecoveryMiddleware.func1.1".

(** The stack on which that deferred call runs: above the frames of the
    panic, which are those of [σp]. *)
Definition recoveringStack (σp : World) : list Frame :=
  ownFrame "http.go" "ErrorRecoveryMiddleware.func1.1" 67 :: gopanicFrame :: stack σp.

(** The record that the wrapper builds for the panic value [v] raised in
    the world [σp]. *)
Definition recoveredRecord `{Labels} (v : value) (σp : World) : AppError :=
  recovered v
    (newRecord (set_stack (recoveringStack σp) σp)
       ErrCodeInternal "Internal server error" "" "" "" "").

(** The world that the wrapper leaves to a caller whose stack is [s],
    when [rw] was the writer at the time of the panic. *)
Definition afterRecovery `{Labels} (s : list Frame) (w : ptr) (v : value) (σp : World)
  (rw : ResponseRecorder) : World :=
  set_stack s
    (putResp w (errorResponseWritten (recoveredRecord v σp) rw)
       (set_errs (errs σp ++ [recoveredRecord v σp]) (afterNow σp))).

(** A handler that passes a nil record to [WriteErrorResponse]. *)
Definition writesNilError (err : ptr) : http.Handler :=
  fun w r => WriteErrorResponse w err.

(** *** Decimal notation read back *)

Definition isDigit (c : ascii) : bool :=
  (48 <=? N_of_ascii c)%N && (N_of_ascii c <=? 57)%N.

Fixpoint allDigits (s : string) : bool :=
  match s with
  | "" => true
  | String c rest => isDigit c && allDigits rest
  end.

(** The number that a string of decimal digits denotes, after the digits
    already read have given [acc]. *)
Fixpoint parseDigits (acc : N) (s : string) : N :=
  match s with
  | "" => acc
  | String c rest => parseDigits (acc * 10 + (N_of_ascii c - 48)) rest
  end.

(** *** Responses, chunk by chunk *)

(** The members of a record's document other than its trace. *)
Definition withoutTraceMember (members : list (string * jvalue)) : list (string * jvalue) :=
  List.filter (fun kj => negb (String.eqb (fst kj) "trace")) members.

(** The chunk that [WriteErrorResponse] adds to the body for a record. *)
Definition errorChunk (rec : AppError) : chunk :=
  match json.marshalAppError rec with
  | Some j => JsonLine (JObj [("success", JBool false); ("error", j)])
  | None => TextLine "Internal server error"
  end.

(** The chunks that [WriteSuccessResponse] adds to the body for a payload:
    none when the payload does not serialize. *)
Definition successChunks (data : value) : list chunk :=
  match json.marshalSuccessResponse {| sr_Success := true; sr_Data := data |} with
  | Some j => [JsonLine j]
  | None => []
  end.

(** The writer after [w.Header().Set("Content-Type", "application/json")]. *)
Definition contentTypeSet (rw : ResponseRecorder) : ResponseRecorder :=
  mkRecorder (StatusCode rw) (<["Content-Type" := "application/json"]> (HeaderMap rw))
    (wroteHeader rw) (snapHeader rw) (Body rw).

(** *** The handler of the README *)

(** The frame of the handler [GetUser] of the README. *)
Definition GetUserFrame : Frame := mkFrame "main.(*Handler).GetUser" "main.go" 64.

(** The error branch of [GetUser] in the README: a NOT_FOUND record with
    the module "user-service", written as the response.  With [withID]
    the handler also passes the request id of its context to
    [WithRequestID], as the API section of the README shows for a literal
    id. *)
Definition GetUserNotFound (message : string) (withID : bool) : http.Handler :=
  fun w r =>
    call GetUserFrame
      (appErr ← NewAppError ErrCodeNotFound message "" "" "" "";
       appErr ← WithModule "user-service" appErr;
       appErr ← (if withID then WithRequestID (GetRequestID (http.Context r)) appErr
                 else mret appErr);
       WriteErrorResponse w appErr).

(** The record that this handler builds in the world [σh] in which it is
    called, for a request whose id is [requestID]. *)
Definition userNotFound (σh : World) (message : string) (withID : bool)
  (requestID : string) : AppError :=
  let rec0 :=
    set_Module "user-service"
      (newRecord (set_stack (GetUserFrame :: stack σh) σh)
         ErrCodeNotFound message "" "" "" "") in
  if withID then set_RequestID requestID rec0 else rec0.

(** * Proofs *)

(** ** The monad *)

Lemma bind_ok {A B} (m : M A) (f : A -> M B) σ a σ' :
  m σ = (Ok a, σ') -> (m ≫= f) σ = f a σ'.
Proof. intros Hm. unfold mbind, M_bind. by rewrite Hm. Qed.

Lemma bind_panic {A B} (m : M A) (f : A -> M B) σ v σ' :
  m σ = (Panic v, σ') -> (m ≫= f) σ = (Panic v, σ').
Proof. intros Hm. unfold mbind, M_bind. by rewrite Hm. Qed.

Lemma call_ok {A} (f : Frame) (body : M A) σ a σ' :
  body (set_stack (f :: stack σ) σ) = (Ok a, σ') ->
  call f body σ = (Ok a, set_stack (stack σ) σ').
Proof. intros Hb. unfold call. by rewrite Hb. Qed.

Lemma call_panic {A} (f : Frame) (body : M A) σ v σ' :
  body (set_stack (f :: stack σ) σ) = (Panic v, σ') ->
  call f body σ = (Panic v, σ').
Proof. intros Hb. unfold call. by rewrite Hb. Qed.

Lemma set_stack_id σ : set_stack (stack σ) σ = σ.
Proof. by destruct σ. Qed.

(** ** Status mapping *)

Lemma getHTTPStatusCode_unknown code :
  ~ In code (map fst StatusTable) -> getHTTPStatusCode code = 500%Z.
Proof.
  intros Hnot. unfold getHTTPStatusCode.
  repeat match goal with
  | |- context [String.eqb code ?c] =>
      destruct (String.eqb_spec code c) as [-> | _];
      [exfalso; apply Hnot; simpl; tauto |]
  end.
  reflexivity.
Qed.

(** C2. [getHTTPStatusCode] is a total function that returns, for each of
    the nine error kinds, the status of the table of §4.2 (404, 400, 400,
    401, 403, 409, 429, 503, 500), and 500 for every other kind string;
    it agrees everywhere with the table lookup [StatusMapping]. *)
Theorem getHTTPStatusCode_table :
  Forall (fun row => getHTTPStatusCode (fst row) = snd row) StatusTable
  /\ (forall code, ~ In code (map fst StatusTable) -> getHTTPStatusCode code = 500%Z)
  /\ (forall code, getHTTPStatusCode code = StatusMapping code).
Proof.
  split; [| split].
  - repeat constructor.
  - apply getHTTPStatusCode_unknown.
  - intros code. unfold getHTTPStatusCode, StatusMapping, StatusTable, find, fst, snd.
    repeat match goal with
    | |- context [String.eqb code ?c] =>
        rewrite (String.eqb_sym code c); destruct (String.eqb c code)
    end; reflexivity.
Qed.

(** C2, at a kind that the table does not list. *)
Lemma getHTTPStatusCode_table_witness :
  getHTTPStatusCode "UNKNOWN" = 500%Z.
Proof.
  apply (proj1 (proj2 getHTTPStatusCode_table)).
  simpl. intros H. repeat (destruct H as [H | H]; [discriminate H |]). exact H.
Defined.

(** ** Builders *)

Lemma assign_ok name line f e σ rec :
  errs σ !! e = Some rec ->
  assign name line f e σ = (Ok e, set_errs (<[e := f rec]> (errs σ)) σ).
Proof.
  intros He. unfold assign, call. cbn. rewrite He.
  by destruct σ.
Qed.

Lemma onlyRecordChanged_insert e r σ :
  onlyRecordChanged e σ (set_errs (<[e := r]> (errs σ)) σ).
Proof.
  repeat split; cbn; [apply length_insert |].
  intros e' Hne. by apply list_lookup_insert_ne.
Qed.

Lemma onlyRecordChanged_trans e σ1 σ2 σ3 :
  onlyRecordChanged e σ1 σ2 -> onlyRecordChanged e σ2 σ3 -> onlyRecordChanged e σ1 σ3.
Proof.
  intros (?&?&?&?&?&Hfar1) (?&?&?&?&?&Hfar2).
  repeat split; try congruence.
  intros e' Hne. rewrite Hfar2, Hfar1; done.
Qed.

Lemma builder_frame c e σ r :
  errs σ !! e = Some r ->
  exists r', builder c e σ = (Ok e, set_errs (<[e := r']> (errs σ)) σ)
             /\ builderEffect c r r'.
Proof.
  intros He. destruct c; cbn [builder];
    unfold WithModule, WithDetails, WithRequestID;
    rewrite (assign_ok _ _ _ _ _ _ He);
    eexists; (split; [reflexivity |]); repeat split.
Qed.

Lemma lookup_after_insert (l : list AppError) e r r' :
  l !! e = Some r -> <[e := r']> l !! e = Some r'.
Proof.
  intros He. apply list_lookup_insert_eq. by eapply lookup_lt_Some.
Qed.

Lemma chain_keeps cs : forall e σ r,
  errs σ !! e = Some r ->
  exists σ' r', chain cs e σ = (Ok e, σ') /\ errs σ' !! e = Some r'
                /\ keptByBuilders r r' /\ onlyRecordChanged e σ σ'.
Proof.
  induction cs as [| c cs IH]; intros e σ r He.
  - exists σ, r. repeat split; done.
  - destruct (builder_frame c e σ r He) as (r1 & Hc & Hkept & _).
    destruct (IH e (set_errs (<[e := r1]> (errs σ)) σ) r1) as (σ' & r' & Hch & He' & Hk' & Hw).
    { cbn. by eapply lookup_after_insert. }
    exists σ', r'. cbn [chain]. rewrite (bind_ok _ _ _ _ _ Hc).
    split; [exact Hch |]. split; [exact He' |]. split.
    + unfold keptByBuilders in *. intuition congruence.
    + eapply onlyRecordChanged_trans; [apply onlyRecordChanged_insert | exact Hw].
Qed.

(** C8. On a record behind a live pointer, [WithoutTrace] returns the
    receiver and leaves the record with an empty trace and every other
    field as it was; any later chain of [WithModule], [WithDetails] and
    [WithRequestID] calls returns the same receiver with the trace still
    empty; and each such call changes its own field only (trace and all
    other fields of the record are kept, and so is the rest of the
    world). *)
Theorem WithoutTrace_stays_cleared (σ : World) (e : ptr) (rec : AppError)
  (cs : list builderCall) :
  errs σ !! e = Some rec ->
  (exists σ1 σ2 rec2,
      WithoutTrace e σ = (Ok e, σ1)
      /\ errs σ1 !! e = Some (set_Trace [] rec)
      /\ onlyRecordChanged e σ σ1
      /\ chain cs e σ1 = (Ok e, σ2)
      /\ errs σ2 !! e = Some rec2
      /\ Trace rec2 = []
      /\ Code rec2 = Code rec /\ Message rec2 = Message rec
      /\ Timestamp rec2 = Timestamp rec
      /\ onlyRecordChanged e σ σ2)
  /\ (forall c σ' r, errs σ' !! e = Some r ->
        exists r', builder c e σ' = (Ok e, set_errs (<[e := r']> (errs σ')) σ')
                   /\ builderEffect c r r').
Proof.
  intros He. split; [| intros c σ' r; apply builder_frame].
  pose proof (assign_ok "(*AppError).WithoutTrace" 458 (set_Trace []) e σ rec He) as Hwt.
  set (σ1 := set_errs (<[e := set_Trace [] rec]> (errs σ)) σ) in *.
  assert (He1 : errs σ1 !! e = Some (set_Trace [] rec)).
  { subst σ1. cbn. by eapply lookup_after_insert. }
  destruct (chain_keeps cs e σ1 _ He1) as (σ2 & rec2 & Hch & He2 & Hk & Hw).
  exists σ1, σ2, rec2.
  assert (Hw1 : onlyRecordChanged e σ σ1) by apply onlyRecordChanged_insert.
  destruct Hk as (Hc & Hm & Ht & Htr & _).
  pose proof (onlyRecordChanged_trans _ _ _ _ Hw1 Hw) as Hw2.
  split; [exact Hwt |]. split; [exact He1 |]. split; [exact Hw1 |].
  split; [exact Hch |]. split; [exact He2 |].
  split; [by rewrite Htr |]. by rewrite Hc, Hm, Ht.
Qed.

(** ** The deny-list *)

Lemma hasPrefixIn_spec prefixes function :
  hasPrefixIn prefixes function = true <->
  exists p, In p prefixes /\ String.prefix p function = true
            /\ String.length p < String.length function.
Proof.
  induction prefixes as [| p rest IH]; cbn [hasPrefixIn].
  - split; [discriminate | intros (p & [] & _)].
  - destruct (String.length p <? String.length function)%nat eqn:Hlen; cbn [andb].
    + destruct (String.eqb_spec (substring 0 (String.length p) function) p) as [Heq | Hne].
      * split; [intros _ | done]. exists p. split; [by left |].
        split; [by apply prefix_correct | by apply Nat.ltb_lt].
      * rewrite IH. split.
        -- intros (q & Hin & Hq). exists q. split; [by right | done].
        -- intros (q & [<- | Hin] & Hpre & Hl).
           ++ exfalso. apply Hne. by apply prefix_correct.
           ++ exists q. done.
    + rewrite IH. split.
      * intros (q & Hin & Hq). exists q. split; [by right | done].
      * intros (q & [<- | Hin] & Hpre & Hl).
        -- apply Nat.ltb_ge in Hlen. lia.
        -- exists q. done.
Qed.

(** ** The loop of getStackTrace *)

Lemma traceLoop_cons frames : forall f fuel trace,
  length (f :: frames) <= fuel ->
  length trace < 10 ->
  traceLoop fuel (f :: frames) trace =
    Some (take 10 (trace ++ map formatFrame (List.filter informative (f :: frames)))).
Proof.
  induction frames as [| g rest IH]; intros f fuel trace Hfuel Hlen;
    (destruct fuel as [| fuel]; [cbn in Hfuel; lia |]).
  - cbn [traceLoop runtime.Next List.filter]. unfold informative.
    destruct (negb (isSystemFrame (Function f))); cbn [negb orb map].
    + f_equal. symmetry. apply take_ge. rewrite length_app. cbn. lia.
    + f_equal. symmetry. rewrite app_nil_r. apply take_ge. lia.
  - cbn [traceLoop runtime.Next negb orb].
    change (List.filter informative (f :: g :: rest))
      with (if informative f then f :: List.filter informative (g :: rest)
            else List.filter informative (g :: rest)).
    unfold informative at 1.
    destruct (negb (isSystemFrame (Function f))).
    + destruct (10 <=? length (trace ++ [formatFrame f]))%nat eqn:Hten.
      * apply Nat.leb_le in Hten. rewrite length_app in Hten. cbn in Hten.
        f_equal. cbn [map].
        set (more := map formatFrame (List.filter informative (g :: rest))).
        replace (trace ++ formatFrame f :: more)
          with ((trace ++ [formatFrame f]) ++ more) by (by rewrite <- app_assoc).
        symmetry. apply take_app_length'. rewrite length_app. cbn. lia.
      * apply Nat.leb_gt in Hten.
        rewrite IH by (cbn in *; lia || done).
        cbn [map]. by rewrite <- app_assoc.
    + destruct (10 <=? length trace)%nat eqn:Hten.
      * apply Nat.leb_le in Hten. lia.
      * apply IH; cbn in *; lia.
Qed.

Lemma traceLoop_enough window :
  traceLoop (S (length window)) window [] = Some (traceOf window).
Proof.
  destruct window as [| f frames]; [reflexivity |].
  rewrite traceLoop_cons by (cbn; lia). cbn [app traceOf]. done.
Qed.

Lemma Callers_eq skip size σ :
  runtime.Callers skip size σ =
    (Ok (take size (drop skip (runtime.CallersFrame :: stack σ))), σ).
Proof. unfold runtime.Callers, call. cbn [stack set_stack]. by destruct σ. Qed.

Lemma stack_set_stack s σ : stack (set_stack s σ) = s.
Proof. reflexivity. Qed.

Lemma set_stack_twice s s' σ : set_stack s (set_stack s' σ) = set_stack s σ.
Proof. reflexivity. Qed.

Lemma getStackTrace_eq σ :
  getStackTrace σ = (Ok (traceOf (take 15 (drop 1 (stack σ)))), σ).
Proof.
  unfold getStackTrace.
  erewrite call_ok.
  2:{ erewrite bind_ok by apply Callers_eq.
      rewrite stack_set_stack.
      change (drop 3 (?a :: ?b :: ?s)) with (drop 1 s).
      rewrite traceLoop_enough. reflexivity. }
  by rewrite set_stack_twice, set_stack_id.
Qed.

Lemma In_take {A} (n : nat) (l : list A) (x : A) : In x (take n l) -> In x l.
Proof.
  revert n. induction l as [| y l IH]; intros [| n]; cbn; try tauto.
  intros [-> | Hin]; [by left | right; eauto].
Qed.

Lemma informative_spec f :
  informative f = true <->
  forall p, In p systemPrefixes -> String.prefix p (Function f) = true ->
            String.length (Function f) <= String.length p.
Proof.
  unfold informative, isSystemFrame. rewrite negb_true_iff.
  split.
  - intros Hno p Hin Hpre.
    destruct (Nat.le_gt_cases (String.length (Function f)) (String.length p)) as [| Hlt];
      [done |].
    assert (hasPrefixIn systemPrefixes (Function f) = true) as Hyes
      by (apply hasPrefixIn_spec; eauto).
    congruence.
  - intros Hall. apply not_true_is_false. intros Hyes.
    apply hasPrefixIn_spec in Hyes as (p & Hin & Hpre & Hlt).
    specialize (Hall p Hin Hpre). lia.
Qed.

(** C6, counterexample.  Under ten middlewares the fifteen frames that
    [runtime.Callers] returns hold eight frames to keep; the trace has
    eight entries, although the stack above the constructor holds eleven
    such frames and the walk described by the claim would keep ten. *)
Lemma getStackTrace_counterexample : ~ getStackTrace_as_stated deepWorld.
Proof.
  unfold getStackTrace_as_stated. rewrite getStackTrace_eq.
  vm_compute. intros H. discriminate H.
Qed.

(** C6, amended.  When frames lie above the constructor, [getStackTrace]
    returns without changing the world; its trace renders, in order and as
    [file:line function], the first ten kept frames among the first
    fifteen frames above the constructor, a frame being kept unless its
    function name is strictly longer than a listed prefix that it starts
    with; so the trace has at most ten entries, each the rendering of a
    frame above the constructor that no listed prefix properly begins. *)
Theorem getStackTrace_window (σ : World) :
  drop 1 (stack σ) <> [] ->
  exists trace,
    getStackTrace σ = (Ok trace, σ)
    /\ trace = map formatFrame
                 (take 10 (List.filter informative (take 15 (drop 1 (stack σ)))))
    /\ length trace <= 10
    /\ Forall (fun line =>
                 exists f, In f (drop 1 (stack σ))
                           /\ line = formatFrame f
                           /\ forall p, In p systemPrefixes ->
                                String.prefix p (Function f) = true ->
                                String.length (Function f) <= String.length p)
              trace.
Proof.
  intros Habove. eexists. split; [apply getStackTrace_eq |].
  assert (traceOf (take 15 (drop 1 (stack σ))) =
          map formatFrame (take 10 (List.filter informative (take 15 (drop 1 (stack σ))))))
    as ->.
  { destruct (drop 1 (stack σ)) as [| f above]; [done |].
    cbn [take traceOf]. by rewrite firstn_map. }
  split; [done |]. split.
  - rewrite length_map, length_take. lia.
  - apply List.Forall_forall. intros line Hin.
    apply in_map_iff in Hin as (f & <- & Hf).
    apply In_take, filter_In in Hf as (Hf & Hinf).
    exists f. split; [by eapply In_take | split; [done |]].
    by apply informative_spec.
Qed.

(** C6, at the stack of a handler called by the server. *)
Lemma getStackTrace_window_witness :
  exists trace,
    getStackTrace handlerWorld = (Ok trace, handlerWorld)
    /\ trace = ["path/to/file.go:42 main.(*Handler).GetUser"; "path/to/file.go:28 main.main"].
Proof.
  destruct (getStackTrace_window handlerWorld) as (trace & Hrun & Htrace & _).
  - vm_compute. discriminate.
  - exists trace. split; [exact Hrun |]. rewrite Htrace. vm_compute. reflexivity.
Defined.

(** ** Module inference *)

Lemma append_nil_l s : "" +:+ s = s.
Proof. reflexivity. Qed.

Lemma append_cons c s t : String c s +:+ t = String c (s +:+ t).
Proof. reflexivity. Qed.

Lemma append_nil_r s : s +:+ "" = s.
Proof.
  induction s as [| c s IH]; [done |]. by rewrite append_cons, IH.
Qed.

Lemma append_assoc s t u : (s +:+ t) +:+ u = s +:+ (t +:+ u).
Proof.
  induction s as [| c s IH]; [done |]. by rewrite !append_cons, IH.
Qed.

Lemma splitLoop_spec s : forall parts current,
  exists piece pieces,
    splitOn s = piece :: pieces
    /\ splitLoop s parts current =
         (parts ++ List.filter nonEmpty (removelast ((current +:+ piece) :: pieces)),
          List.last ((current +:+ piece) :: pieces) "").
Proof.
  induction s as [| c rest IH]; intros parts current.
  - exists "", []. split; [done |]. cbn. by rewrite append_nil_r, app_nil_r.
  - cbn [splitOn splitLoop]. destruct (isSeparator c).
    + destruct (String.eqb current "") eqn:Hcur; cbn [negb].
      * apply String.eqb_eq in Hcur as ->.
        destruct (IH parts "") as (q & qs & Hsplit & Hloop).
        exists "", (splitOn rest). split; [done |].
        rewrite Hloop, Hsplit. cbn. done.
      * destruct (IH (parts ++ [current]) "") as (q & qs & Hsplit & Hloop).
        exists "", (splitOn rest). split; [done |].
        rewrite Hloop, Hsplit, append_nil_r.
        cbn [append removelast List.filter List.last]. unfold nonEmpty at 2.
        rewrite Hcur. cbn [negb]. by rewrite <- app_assoc.
    + destruct (IH parts (current +:+ String c "")) as (q & qs & Hsplit & Hloop).
      rewrite Hsplit. exists (String c q), qs. split; [done |].
      rewrite Hloop. by rewrite append_assoc.
Qed.

Lemma filter_removelast_last (l : list string) :
  l <> [] ->
  List.filter nonEmpty (removelast l)
    ++ (if nonEmpty (List.last l "") then [List.last l ""] else [])
  = List.filter nonEmpty l.
Proof.
  intros Hl. pose proof (app_removelast_last "" Hl) as Heq.
  remember (removelast l) as r eqn:Hr. remember (List.last l "") as x eqn:Hx.
  clear Hr Hx. subst l.
  rewrite List.filter_app. cbn. by destruct (nonEmpty x).
Qed.

Lemma lastMeaningful_take parts : forall n,
  n <= length parts ->
  lastMeaningful parts n = default "unknown" (last (List.filter meaningful (take n parts))).
Proof.
  induction n as [| i IH]; intros Hn; [done |].
  cbn [lastMeaningful].
  destruct (lookup_lt_is_Some_2 parts i) as [part Hpart]; [lia |].
  rewrite Hpart, (take_S_r _ _ _ Hpart), List.filter_app. cbn [List.filter].
  destruct (meaningful part).
  - by rewrite last_snoc.
  - rewrite app_nil_r. apply IH. lia.
Qed.

Lemma meaningful_nonEmpty part : meaningful part = true -> nonEmpty part = true.
Proof.
  unfold meaningful, nonEmpty. destruct part; cbn; [discriminate | done].
Qed.

Lemma filter_meaningful_nonEmpty l :
  List.filter meaningful (List.filter nonEmpty l) = List.filter meaningful l.
Proof.
  induction l as [| part l IH]; [done |]. cbn.
  destruct (nonEmpty part) eqn:Hne; cbn.
  - by rewrite IH.
  - destruct (meaningful part) eqn:Hm; [| done].
    apply meaningful_nonEmpty in Hm. congruence.
Qed.

Lemma extractModuleName_spec function :
  extractModuleName function = moduleOf (utf8.ToValid function).
Proof.
  unfold extractModuleName, moduleOf.
  destruct (splitLoop_spec (utf8.ToValid function) [] "") as (p & ps & Hsplit & Hloop).
  rewrite Hloop, Hsplit. cbn [app]. change ("" +:+ p) with p.
  set (all := p :: ps).
  assert (Hparts :
    (if negb (String.eqb (List.last all "") "")
     then List.filter nonEmpty (removelast all) ++ [List.last all ""]
     else List.filter nonEmpty (removelast all)) = List.filter nonEmpty all).
  { rewrite <- (filter_removelast_last all) by done.
    change (nonEmpty (List.last all "")) with (negb (String.eqb (List.last all "") "")).
    destruct (negb (String.eqb (List.last all "") "")); [done |].
    by rewrite app_nil_r. }
  rewrite Hparts, lastMeaningful_take by done.
  by rewrite firstn_all, filter_meaningful_nonEmpty.
Qed.

Lemma getCurrentModule_eq σ :
  getCurrentModule σ =
    (Ok (match drop 1 (stack σ) with
         | f :: _ :: _ => extractModuleName (Function f)
         | _ => "unknown"
         end), σ).
Proof.
  unfold getCurrentModule.
  set (frame := ownFrame "errors.go" "getCurrentModule" 484).
  set (answer := match drop 1 (stack σ) with
                 | f :: _ :: _ => extractModuleName (Function f)
                 | _ => "unknown"
                 end).
  rewrite (call_ok frame _ σ answer (set_stack (frame :: stack σ) σ)).
  - by rewrite set_stack_twice, set_stack_id.
  - erewrite bind_ok by apply Callers_eq.
    rewrite stack_set_stack.
    change (drop 3 (?a :: ?b :: ?s)) with (drop 1 s).
    subst answer. destruct (drop 1 (stack σ)) as [| f [| g above]]; reflexivity.
Qed.

Lemma isSeparator_separators c : isSeparator c = existsb (Ascii.eqb c) separators.
Proof. unfold isSeparator. cbn [existsb separators]. by rewrite orb_false_r. Qed.

Lemma segments_splitOn name : segments name = splitOn name.
Proof.
  induction name as [| c rest IH]; [reflexivity |].
  cbn [segments splitOn]. by rewrite <- isSeparator_separators, IH.
Qed.

Lemma usable_meaningful segment : usable segment = meaningful segment.
Proof.
  unfold usable, meaningful. destruct segment as [| c rest]; [reflexivity |].
  cbn [existsb wrapperNames].
  change (String.eqb (String c rest) "") with false.
  change (0 <? String.length (String c rest))%nat with true.
  cbn [negb andb]. by rewrite orb_false_r, negb_orb.
Qed.

Lemma lastUsable_moduleOf name : lastUsable name = moduleOf name.
Proof.
  unfold lastUsable, moduleOf. rewrite segments_splitOn. do 2 f_equal.
  apply filter_ext. intros segment. apply usable_meaningful.
Qed.

(** C7, counterexample.  Called through reflection, the constructor has
    the frame of [reflect.Value.call] directly above its own.  The capture
    skips that frame, and the first frame that is not skipped is the one
    of [main.register], whose last segment is "register"; the code names
    the module after the skipped frame: "call". *)
Lemma getCurrentModule_counterexample : ~ getCurrentModule_as_stated reflectedWorld.
Proof.
  unfold getCurrentModule_as_stated. rewrite getCurrentModule_eq.
  vm_compute. intros H. discriminate H.
Qed.

(** C7, amended.  [getCurrentModule] never fails and leaves the world as
    it was.  When at least two frames lie above the constructor it takes
    the first of them, whether or not the deny-list names it, splits its
    function name, coerced to valid UTF-8, at every '/' and '.', and
    returns the last segment that is not empty, not "internal" and not
    "pkg", or "unknown" when no segment qualifies; with fewer than two
    frames above the constructor it returns "unknown". *)
Theorem getCurrentModule_two_frames (σ : World) (caller outer : Frame) (rest : list Frame) :
  drop 1 (stack σ) = caller :: outer :: rest ->
  getCurrentModule σ = (Ok (lastUsable (utf8.ToValid (Function caller))), σ)
  /\ (forall σ0, length (drop 1 (stack σ0)) <= 1 -> getCurrentModule σ0 = (Ok "unknown", σ0))
  /\ (forall function, extractModuleName function = lastUsable (utf8.ToValid function)).
Proof.
  intros Habove.
  assert (Hname : forall function,
             extractModuleName function = lastUsable (utf8.ToValid function)).
  { intros function. by rewrite extractModuleName_spec, lastUsable_moduleOf. }
  split; [| split; [| exact Hname]].
  - by rewrite getCurrentModule_eq, Habove, Hname.
  - intros σ0 Hshort. rewrite getCurrentModule_eq.
    destruct (drop 1 (stack σ0)) as [| f [| g above]]; [done | done |].
    cbn in Hshort. lia.
Qed.

(** C7, at the stack of a handler called by the server, and at the stack
    of a call through reflection. *)
Lemma getCurrentModule_two_frames_witness :
  getCurrentModule handlerWorld = (Ok "GetUser", handlerWorld)
  /\ getCurrentModule reflectedWorld = (Ok "call", reflectedWorld).
Proof.
  split.
  - exact (proj1 (getCurrentModule_two_frames handlerWorld _ _ _ eq_refl)).
  - exact (proj1 (getCurrentModule_two_frames reflectedWorld _ _ _ eq_refl)).
Defined.

(** ** JSON: maps *)

Lemma ltb_asym k k' : String.ltb k' k = true -> String.eqb k k' = false /\ String.ltb k k' = false.
Proof.
  unfold String.ltb. intros Hlt.
  destruct (String.compare k' k) eqn:Hcmp; try discriminate.
  split.
  - apply String.eqb_neq. intros ->.
    pose proof (String.compare_antisym k' k') as Hanti.
    rewrite Hcmp in Hanti. discriminate Hanti.
  - rewrite String.compare_antisym, Hcmp. reflexivity.
Qed.

Lemma mapSet_snoc {A} k (v : A) m :
  Forall (fun kv => String.ltb (fst kv) k = true) m ->
  json.mapSet k v m = m ++ [(k, v)].
Proof.
  induction 1 as [| [k' v'] m Hk _ IH]; [done |].
  cbn [json.mapSet fst] in *. destruct (ltb_asym _ _ Hk) as [-> ->].
  by rewrite IH.
Qed.

Lemma fold_mapSet_sorted {A} (l : list (string * A)) : forall acc,
  (forall kv kv', In kv acc -> In kv' l -> String.ltb (fst kv) (fst kv') = true) ->
  ascending l ->
  fold_left (fun m kv => json.mapSet (fst kv) (snd kv) m) l acc = acc ++ l.
Proof.
  induction l as [| [k v] l IH]; intros acc Hacc Hasc.
  - by rewrite app_nil_r.
  - destruct Hasc as [Hk Hrest]. cbn [fold_left fst snd].
    rewrite mapSet_snoc.
    + rewrite IH; [by rewrite <- app_assoc | | exact Hrest].
      intros kv kv' Hin Hin'. apply in_app_or in Hin as [Hin | [<- | []]].
      * apply Hacc; [done | by right].
      * cbn [fst]. rewrite forallb_forall in Hk. by apply Hk.
    + apply List.Forall_forall. intros kv Hin. apply (Hacc kv (k, v)); [done | by left].
Qed.

Lemma mapOf_ascending {A} (m : list (string * A)) : ascending m -> json.mapOf m = m.
Proof.
  intros Hasc. unfold json.mapOf. rewrite fold_mapSet_sorted; [done | | done].
  intros kv kv' [].
Qed.

(** ** JSON: values *)

Lemma genericEntries_cons kv rest :
  genericEntries (kv :: rest) = true ->
  utf8.ValidString (fst kv) = true /\ json.isGeneric (snd kv) = true
  /\ forallb (fun kv' => String.ltb (fst kv) (fst kv')) rest = true
  /\ genericEntries rest = true.
Proof.
  change (genericEntries (kv :: rest))
    with (utf8.ValidString (fst kv) && json.isGeneric (snd kv)
          && forallb (fun kv' => String.ltb (fst kv) (fst kv')) rest
          && genericEntries rest).
  rewrite !andb_true_iff. tauto.
Qed.

Lemma genericEntries_ascending m : genericEntries m = true -> ascending m.
Proof.
  induction m as [| kv rest IH]; [done |].
  intros (_ & _ & Hk & Hrest)%genericEntries_cons. split; [done | by apply IH].
Qed.

Lemma ValidString_eq s : utf8.ValidString s = true -> utf8.ToValid s = s.
Proof. apply String.eqb_eq. Qed.

Lemma sgn_abs n : (Z.sgn n * Z.abs n)%Z = n.
Proof. destruct n; reflexivity. Qed.

Lemma roundToMantissa_small a : (0 <= a <= 2 ^ 53)%Z -> strconv.roundToMantissa a = a.
Proof.
  intros [Hlo Hhi]. destruct (Z.eq_dec a (2 ^ 53)%Z) as [-> | Hne]; [reflexivity |].
  assert (Hlog : (Z.log2 a < 53)%Z).
  { destruct (Z.eq_dec a 0%Z) as [-> | Hpos]; [reflexivity |].
    apply Z.log2_lt_pow2; lia. }
  unfold strconv.roundToMantissa.
  destruct (Z.leb_spec (Z.log2 a + 1 - 53)%Z 0%Z); [reflexivity | lia].
Qed.

Lemma ParseFloat_small n : (Z.abs n <= 2 ^ 53)%Z -> strconv.ParseFloat n = n.
Proof.
  intros Hn. unfold strconv.ParseFloat.
  rewrite roundToMantissa_small by lia. apply sgn_abs.
Qed.

Lemma shortestDecimal_small n : (Z.abs n <= 2 ^ 53)%Z -> strconv.shortestDecimal n = n.
Proof.
  intros Hn. unfold strconv.shortestDecimal, strconv.shortest.
  destruct (Z.leb_spec (Z.abs n) (2 ^ 53)%Z); [apply sgn_abs | lia].
Qed.

Lemma unmarshal_marshal_generic v :
  json.isGeneric v = true ->
  exists j, json.marshalValue v = Some j /\ json.unmarshalValue j = v.
Proof.
  induction v as [| b | n | n | s | msg | l | l IHl | m | m IHm | addr]
    using value_ind; intros Hgen; try discriminate Hgen.
  - by exists JNull.
  - by exists (JBool b).
  - cbn [json.isGeneric] in Hgen. apply Z.leb_le in Hgen.
    exists (JNum n). cbn [json.marshalValue json.unmarshalValue].
    by rewrite shortestDecimal_small, ParseFloat_small.
  - exists (JStr s). cbn. unfold json.str. by rewrite (ValidString_eq s Hgen).
  - change (json.marshalValue (VSlice l)) with (JArr <$> marshalAll l).
    change (json.isGeneric (VSlice l)) with (forallb json.isGeneric l) in Hgen.
    assert (exists js, marshalAll l = Some js /\ map json.unmarshalValue js = l)
      as (js & -> & Hback).
    { induction IHl as [| v Hv l _ IH]; [by exists [] |].
      cbn [forallb] in Hgen. apply andb_true_iff in Hgen as [Hgv Hgl].
      destruct (Hv Hgv) as (j & Hj & Hjv). destruct (IH Hgl) as (js & Hjs & Hback).
      exists (j :: js). split; [| cbn; congruence].
      change (marshalAll (v :: l))
        with (match json.marshalValue v, marshalAll l with
              | Some j, Some js => Some (j :: js)
              | _, _ => None
              end).
      by rewrite Hj, Hjs. }
    exists (JArr js). split; [done |]. cbn [json.unmarshalValue]. by rewrite Hback.
  - change (json.marshalValue (VMap m)) with (JObj <$> marshalEntries m).
    change (json.isGeneric (VMap m)) with (genericEntries m) in Hgen.
    assert (exists js, marshalEntries m = Some js
                       /\ map (fun kj => (fst kj, json.unmarshalValue (snd kj))) js = m)
      as (js & -> & Hback).
    { clear -IHm Hgen. induction IHm as [| [k v] Hkv m _ IH]; [by exists [] |].
      apply genericEntries_cons in Hgen as (Hk & Hgv & _ & Hgm). cbn [fst snd] in *.
      inversion Hkv as [? _ ? Hv]; subst.
      destruct (Hv Hgv) as (j & Hj & Hjv). destruct (IH Hgm) as (js & Hjs & Hback).
      exists ((k, j) :: js). split; [| cbn; congruence].
      change (marshalEntries ((k, v) :: m))
        with (match json.marshalValue v, marshalEntries m with
              | Some j, Some js => Some ((utf8.ToValid k, j) :: js)
              | _, _ => None
              end).
      by rewrite Hj, Hjs, (ValidString_eq k Hk). }
    exists (JObj js). split; [done |]. cbn [json.unmarshalValue].
    rewrite Hback, mapOf_ascending; [done | by apply genericEntries_ascending].
Qed.

(** ** JSON: records *)

Lemma omitNil_spec name d ms :
  json.omitNil name d = Some ms ->
  (d = VNil /\ ms = [])
  \/ (exists jd, json.marshalValue d = Some jd /\ ms = [(name, jd)]).
Proof.
  destruct d; cbn [json.omitNil]; intros Hms;
    try (left; split; [done | congruence]);
    right; destruct (json.marshalValue _) as [jd |] eqn:Hjd; try discriminate Hms;
    exists jd; cbn in Hms; split; congruence.
Qed.

Lemma decodeStrings_str trace :
  json.decodeStrings (JArr (map json.str trace)) = Some (map utf8.ToValid trace).
Proof.
  cbn [json.decodeStrings].
  induction trace as [| s trace IH]; [done |].
  cbn [map mapM json.decodeString json.str]. rewrite IH. reflexivity.
Qed.

Lemma decodeInt64_ok n old : int64 n -> json.decodeInt64 (JNum n) old = Some n.
Proof.
  intros [Hlo Hhi]. cbn [json.decodeInt64].
  destruct (Z.leb_spec (- 2 ^ 63) n); [| lia].
  destruct (Z.ltb_spec n (2 ^ 63)); [done | lia].
Qed.

(** Serializing a record and decoding the result, field by field: text
    comes back coerced to valid UTF-8 and the details come back as the
    decoder builds them for an [interface{}]. *)
Lemma decodeMembers_cons e kj rest :
  json.decodeMembers e (kj :: rest)
  = json.decodeMember e kj ≫= fun e' => json.decodeMembers e' rest.
Proof. reflexivity. Qed.

Lemma decode_code e c :
  json.decodeMember e ("code", JStr c)
  = Some (mkAppError c (Message e) (Timestamp e) (Module_ e) (Trace e) (Details e)
            (RequestID e) (HumanReadableTime e) (Priority e) (ErrorCode_ e)
            (ErrorType e) (UserID e)).
Proof. reflexivity. Qed.

Lemma decode_message e m :
  json.decodeMember e ("message", JStr m)
  = Some (mkAppError (Code e) m (Timestamp e) (Module_ e) (Trace e) (Details e)
            (RequestID e) (HumanReadableTime e) (Priority e) (ErrorCode_ e)
            (ErrorType e) (UserID e)).
Proof. reflexivity. Qed.

Lemma decode_timestamp e t :
  int64 t ->
  json.decodeMember e ("timestamp", JNum t)
  = Some (mkAppError (Code e) (Message e) t (Module_ e) (Trace e) (Details e)
            (RequestID e) (HumanReadableTime e) (Priority e) (ErrorCode_ e)
            (ErrorType e) (UserID e)).
Proof.
  intros Ht.
  change (json.decodeMember e ("timestamp", JNum t))
    with (n ← json.decodeInt64 (JNum t) (Timestamp e);
          Some (mkAppError (Code e) (Message e) n (Module_ e) (Trace e) (Details e)
                  (RequestID e) (HumanReadableTime e) (Priority e) (ErrorCode_ e)
                  (ErrorType e) (UserID e))).
  by rewrite decodeInt64_ok.
Qed.

Lemma decode_module e s :
  json.decodeMember e ("module", JStr s) = Some (set_Module s e).
Proof. reflexivity. Qed.

Lemma decode_trace e trace :
  json.decodeMember e ("trace", JArr (map json.str trace))
  = Some (set_Trace (map utf8.ToValid trace) e).
Proof.
  change (json.decodeMember e ("trace", JArr (map json.str trace)))
    with (l ← json.decodeStrings (JArr (map json.str trace)); Some (set_Trace l e)).
  by rewrite decodeStrings_str.
Qed.

Lemma decode_details e j :
  json.decodeMember e ("details", j) = Some (set_Details (json.unmarshalValue j) e).
Proof. reflexivity. Qed.

Lemma decode_request_id e s :
  json.decodeMember e ("request_id", JStr s) = Some (set_RequestID s e).
Proof. reflexivity. Qed.

Lemma marshal_unmarshal e j :
  int64 (Timestamp e) ->
  json.marshalAppError e = Some j ->
  exists e',
    json.unmarshalAppError j = Some e'
    /\ Code e' = utf8.ToValid (Code e)
    /\ Message e' = utf8.ToValid (Message e)
    /\ Timestamp e' = Timestamp e
    /\ Module_ e' = utf8.ToValid (Module_ e)
    /\ Trace e' = map utf8.ToValid (Trace e)
    /\ RequestID e' = utf8.ToValid (RequestID e)
    /\ ((Details e = VNil /\ Details e' = VNil)
        \/ exists jd, json.marshalValue (Details e) = Some jd
                      /\ Details e' = json.unmarshalValue jd).
Proof.
  intros Hts. unfold json.marshalAppError.
  cbv beta iota delta [mbind option_bind].
  destruct (json.omitNil "details" (Details e)) as [ms |] eqn:Hms; [| discriminate].
  intros [= <-].
  unfold json.unmarshalAppError, json.omitEmptyString, json.omitEmptyStrings.
  destruct (omitNil_spec _ _ _ Hms) as [[Hd ->] | (jd & Hjd & ->)];
    destruct (String.eqb_spec (Module_ e) "") as [Hm | Hm];
    destruct (Trace e) as [| line trace] eqn:Ht;
    destruct (String.eqb_spec (RequestID e) "") as [Hr | Hr];
    cbn [app];
    repeat match goal with
    | |- context [json.str ?x] => change (json.str x) with (JStr (utf8.ToValid x))
    end;
    rewrite ?decodeMembers_cons, ?decode_code;
    cbv beta iota delta [mbind option_bind];
    rewrite ?decodeMembers_cons, ?decode_message;
    cbv beta iota delta [mbind option_bind];
    rewrite ?decodeMembers_cons, ?(decode_timestamp _ _ Hts);
    cbv beta iota delta [mbind option_bind];
    rewrite ?decodeMembers_cons, ?decode_module;
    cbv beta iota delta [mbind option_bind];
    rewrite ?decodeMembers_cons, ?decode_trace;
    cbv beta iota delta [mbind option_bind];
    rewrite ?decodeMembers_cons, ?decode_details;
    cbv beta iota delta [mbind option_bind];
    rewrite ?decodeMembers_cons, ?decode_request_id;
    cbv beta iota delta [mbind option_bind]; cbn [json.decodeMembers];
    (eexists; split; [reflexivity |]);
    cbn; rewrite ?Hm, ?Hr; repeat split; eauto.
Qed.

(** C5, counterexample.  The record of TestJSONEncoding carries details
    of type map[string]string; they come back as a
    map[string]interface{}, which is a different value. *)
Lemma roundtrip_counterexample : ~ roundtrip_as_stated invalidInput.
Proof.
  intros (j & e' & Hj & He' & _ & _ & _ & Hd & _).
  vm_compute in Hj. injection Hj as <-.
  vm_compute in He'. injection He' as <-.
  discriminate Hd.
Qed.

(** C5, amended.  For every record whose timestamp is an int64, whose
    code, message, module and request id are valid UTF-8 and whose details
    are nil or of the shape the decoder produces (booleans, float64
    numbers, valid strings, []interface{} and map[string]interface{} of
    such), serializing succeeds, deserializing the result succeeds, and
    code, message, module, details and request id (and the timestamp) of
    the decoded record equal the originals.  An object that carries only
    code, message and timestamp decodes without error to a record whose
    module and request id are empty, whose trace is empty and whose
    details are nil. *)
Theorem roundtrip_generic (e : AppError) :
  int64 (Timestamp e) ->
  utf8.ValidString (Code e) = true ->
  utf8.ValidString (Message e) = true ->
  utf8.ValidString (Module_ e) = true ->
  utf8.ValidString (RequestID e) = true ->
  json.isGeneric (Details e) = true ->
  (exists j e',
      json.marshalAppError e = Some j
      /\ json.unmarshalAppError j = Some e'
      /\ Code e' = Code e /\ Message e' = Message e /\ Module_ e' = Module_ e
      /\ Details e' = Details e /\ RequestID e' = RequestID e
      /\ Timestamp e' = Timestamp e)
  /\ (forall code message timestamp,
        int64 timestamp ->
        exists e0,
          json.unmarshalAppError
            (JObj [("code", JStr code); ("message", JStr message);
                   ("timestamp", JNum timestamp)]) = Some e0
          /\ Code e0 = code /\ Message e0 = message /\ Timestamp e0 = timestamp
          /\ Module_ e0 = "" /\ Trace e0 = [] /\ Details e0 = VNil /\ RequestID e0 = "").
Proof.
  intros Hts Hcode Hmsg Hmod Hreq Hgen. split.
  - destruct (unmarshal_marshal_generic _ Hgen) as (jd & Hjd & Hback).
    assert (exists j, json.marshalAppError e = Some j) as [j Hj].
    { unfold json.marshalAppError.
      assert (exists ms, json.omitNil "details" (Details e) = Some ms) as [ms ->];
        [| by eexists].
      destruct (Details e); try discriminate Hgen;
        cbn [json.omitNil]; rewrite ?Hjd; by eexists. }
    destruct (marshal_unmarshal e j Hts Hj)
      as (e' & He' & Hc & Hm & Ht & Hmo & _ & Hr & Hd).
    exists j, e'. rewrite Hc, Hm, Hmo, Hr, Ht.
    rewrite !ValidString_eq by done.
    repeat split; try done.
    destruct Hd as [[-> ->] | (jd' & Hjd' & ->)]; [done |]. congruence.
  - intros code message timestamp Hts'. unfold json.unmarshalAppError.
    rewrite !decodeMembers_cons, decode_code. cbv beta iota delta [mbind option_bind].
    rewrite !decodeMembers_cons, decode_message. cbv beta iota delta [mbind option_bind].
    rewrite !decodeMembers_cons, (decode_timestamp _ _ Hts').
    cbv beta iota delta [mbind option_bind]. cbn [json.decodeMembers].
    eexists. split; [reflexivity |]. repeat split.
Qed.

(** C5, at the record of TestAppError_Chaining. *)
Lemma roundtrip_generic_witness :
  exists j e',
    json.marshalAppError accessDenied = Some j
    /\ json.unmarshalAppError j = Some e'
    /\ Code e' = Code accessDenied /\ Message e' = Message accessDenied
    /\ Module_ e' = Module_ accessDenied /\ Details e' = Details accessDenied
    /\ RequestID e' = RequestID accessDenied /\ Timestamp e' = Timestamp accessDenied.
Proof.
  apply (roundtrip_generic accessDenied); try reflexivity.
  unfold int64. cbn. lia.
Defined.

(** ** The clock *)

Lemma Now_eq σ : time.Now σ = (Ok (reading σ), afterNow σ).
Proof. unfold time.Now, reading, afterNow. by destruct (ticks σ). Qed.

Lemma reading_ge σ : (clock σ <= reading σ)%Z.
Proof. unfold reading. destruct (ticks σ); lia. Qed.

Lemma clock_afterNow σ : clock (afterNow σ) = reading σ.
Proof. unfold afterNow, reading. by destruct (ticks σ). Qed.

Lemma afterNow_rest σ :
  zoneOffset (afterNow σ) = zoneOffset σ /\ stack (afterNow σ) = stack σ
  /\ errs (afterNow σ) = errs σ /\ resps (afterNow σ) = resps σ.
Proof. unfold afterNow. by destruct (ticks σ). Qed.

Lemma Unix_mono t t' : (t <= t')%Z -> (time.Unix t <= time.Unix t')%Z.
Proof. intros Hle. unfold time.Unix. apply Z.div_le_mono; lia. Qed.

(** ** NewAppError *)

Lemma afterNow_set_stack s σ : afterNow (set_stack s σ) = set_stack s (afterNow σ).
Proof. unfold afterNow. cbn. by destruct (ticks σ). Qed.

Lemma NewAppError_eq σ code message priority errorCode errorType userID :
  NewAppError code message priority errorCode errorType userID σ =
    (Ok (length (errs σ)),
     set_errs (errs σ ++ [newRecord σ code message priority errorCode errorType userID])
       (afterNow σ)).
Proof.
  unfold NewAppError.
  set (frame := ownFrame "errors.go" "NewAppError" 423).
  destruct (afterNow_rest σ) as (Hz & Hs & He & _).
  erewrite call_ok.
  2:{ erewrite bind_ok by apply Now_eq.
      erewrite bind_ok by reflexivity.
      erewrite bind_ok by apply getStackTrace_eq.
      erewrite bind_ok by apply getCurrentModule_eq.
      unfold new. reflexivity. }
  rewrite !afterNow_set_stack.
  change (reading (set_stack (frame :: stack σ) σ)) with (reading σ).
  unfold newRecord, set_errs, set_stack.
  cbn [stack errs zoneOffset drop clock ticks resps].
  by rewrite Hz, He, Hs.
Qed.

Lemma last_filter (keep : string -> bool) (l : list string) x :
  last l = Some x -> keep x = true -> last (List.filter keep l) = Some x.
Proof.
  intros Hlast Hkeep.
  destruct (last_Some l x) as [[l' ->] _]; [done |].
  rewrite List.filter_app. cbn [List.filter]. rewrite Hkeep. apply last_snoc.
Qed.

Lemma moduleOf_last function name :
  last (splitOn function) = Some name -> meaningful name = true ->
  moduleOf function = name.
Proof.
  intros Hlast Hm. unfold moduleOf. by rewrite (last_filter _ _ _ Hlast Hm).
Qed.

Lemma traceOf_head caller above :
  isSystemFrame (Function caller) = false ->
  exists more, traceOf (take 15 (caller :: above)) = formatFrame caller :: more
               /\ length more < 10.
Proof.
  intros Hsys. cbn [take traceOf List.filter]. unfold informative at 1.
  rewrite Hsys. cbn [negb map take]. eexists. split; [reflexivity |].
  rewrite length_take. lia.
Qed.

Lemma trace_nonempty (window : list Frame) :
  map rendered (take 10 (List.filter informative window)) <> [] <->
  exists f, In f window /\ informative f = true.
Proof.
  destruct (List.filter informative window) as [| g kept] eqn:Hkept.
  - split; [done |]. intros (f & Hin & Hf).
    assert (In f (List.filter informative window)) as Hin' by (by apply filter_In).
    rewrite Hkept in Hin'. destruct Hin'.
  - split; [| done]. intros _.
    assert (In g (List.filter informative window)) as Hin by (rewrite Hkept; by left).
    apply filter_In in Hin. by exists g.
Qed.

(** C4, counterexample.  Started as a goroutine, the constructor has one
    frame under it, the runtime's [goexit].  The runtime reports that
    frame, the deny-list drops it, and the record comes back with an empty
    trace (and the module "unknown"). *)
Lemma NewAppError_counterexample : ~ NewAppError_as_stated goroutineEntry.
Proof.
  intros Hstated.
  destruct (Hstated ErrCodeInternal "Test" "" "" "" "")
    as (err & σ' & rec & Hrun & Hrec & Htrace).
  rewrite NewAppError_eq in Hrun. injection Hrun as <- <-.
  vm_compute in Hrec. injection Hrec as <-.
  apply Htrace; [discriminate | reflexivity].
Qed.

(** C4, amended.  For every code and message (and the four further
    arguments of the constructor as it stands), and a clock that does not
    run backwards, the construction bracketed by two readings of the clock
    returns a pointer to one fresh record: its code and message are the
    arguments, its timestamp is the second of the clock reading that the
    constructor took and lies between the readings before and after, and
    its details and request id are empty.  Its trace is the capture of the
    call stack: the first ten kept frames among the first fifteen frames
    of the caller's stack, each written [file:line function], a frame
    being kept unless its function name is strictly longer than a prefix
    of the deny-list that it starts with.  So the trace is not empty
    exactly when one of those fifteen frames is kept; with no frame at all
    it is the single entry ":0 ".  In a normal call context (the caller's
    frame is followed by at least one further frame, it is kept, and its
    function name is valid UTF-8 and ends in a segment [name] that is not
    empty, not "internal", not "pkg" and not the word "unknown") the trace
    is not empty, starts with the caller's frame and has at most ten
    entries, and the module is [name], so not "unknown". *)
Theorem NewAppError_fully_formed (σ : World) (code : ErrorCode)
  (message priority errorCode errorType userID : string) :
  exists before err after σ' rec,
    TimestampIsRecent code message priority errorCode errorType userID σ
      = (Ok (before, err, after), σ')
    /\ err = length (errs σ)
    /\ errs σ' = errs σ ++ [rec]
    /\ Code rec = code /\ Message rec = message
    /\ (exists now, Timestamp rec = time.Unix now /\ (clock σ <= now <= clock σ')%Z)
    /\ (before <= Timestamp rec <= after)%Z
    /\ Details rec = VNil /\ RequestID rec = ""
    /\ (stack σ = [] -> Trace rec = [":0 "] /\ Module_ rec = "unknown")
    /\ (stack σ <> [] ->
          Trace rec = map rendered (take 10 (List.filter informative (take 15 (stack σ))))
          /\ (Trace rec <> [] <->
              exists f, In f (take 15 (stack σ))
                        /\ forall p, In p systemPrefixes ->
                             String.prefix p (Function f) = true ->
                             String.length (Function f) <= String.length p))
    /\ (forall caller outer rest name,
          stack σ = caller :: outer :: rest ->
          (forall p, In p systemPrefixes ->
             String.prefix p (Function caller) = true ->
             String.length (Function caller) <= String.length p) ->
          utf8.ValidString (Function caller) = true ->
          last (segments (Function caller)) = Some name ->
          usable name = true ->
          name <> "unknown" ->
          Trace rec <> [] /\ head (Trace rec) = Some (rendered caller)
          /\ length (Trace rec) <= 10
          /\ Module_ rec = name /\ Module_ rec <> "unknown").
Proof.
  set (σ1 := afterNow σ).
  set (rec := newRecord σ1 code message priority errorCode errorType userID).
  set (σ2 := set_errs (errs σ1 ++ [rec]) (afterNow σ1)).
  destruct (afterNow_rest σ) as (_ & Hs1 & He1 & _).
  exists (time.Unix (reading σ)), (length (errs σ)), (time.Unix (reading σ2)),
    (afterNow σ2), rec.
  assert (Hrun : TimestampIsRecent code message priority errorCode errorType userID σ
                 = (Ok (time.Unix (reading σ), length (errs σ), time.Unix (reading σ2)),
                    afterNow σ2)).
  { unfold TimestampIsRecent.
    erewrite bind_ok by apply Now_eq.
    erewrite bind_ok by apply NewAppError_eq.
    erewrite bind_ok by apply Now_eq.
    fold σ1 rec σ2. subst σ1. by rewrite He1. }
  assert (Hc1 : (reading σ <= reading σ1)%Z).
  { rewrite <- (clock_afterNow σ). apply reading_ge. }
  assert (Hc2 : (reading σ1 <= reading σ2)%Z).
  { rewrite <- (clock_afterNow σ1). apply (reading_ge σ2). }
  assert (Hstack1 : stack σ1 = stack σ) by done.
  assert (Htrace : stack σ <> [] ->
            Trace rec = map rendered (take 10 (List.filter informative (take 15 (stack σ))))).
  { intros Hne. subst rec. cbn [Trace newRecord]. rewrite Hstack1.
    destruct (stack σ) as [| f above]; [done |].
    cbn [take traceOf]. by rewrite firstn_map. }
  split; [exact Hrun |]. split; [done |]. split.
  { destruct (afterNow_rest σ2) as (_ & _ & -> & _). subst σ2 σ1. cbn. by rewrite He1. }
  split; [done |]. split; [done |]. split.
  { exists (reading σ1). split; [done |].
    rewrite clock_afterNow. pose proof (reading_ge σ). lia. }
  split.
  { cbn [Timestamp rec newRecord]. split; by apply Unix_mono. }
  split; [done |]. split; [done |]. split.
  { intros Hnil. subst rec. cbn [Trace Module_ newRecord]. by rewrite Hstack1, Hnil. }
  split.
  { intros Hne. split; [by apply Htrace |].
    rewrite (Htrace Hne), trace_nonempty.
    split; intros (f & Hin & Hf); exists f; (split; [exact Hin |]);
      by apply informative_spec. }
  intros caller outer rest name Hstack Hkept Hvalid Hlast Hmeaning Hname.
  assert (Hsys : isSystemFrame (Function caller) = false).
  { apply informative_spec in Hkept. unfold informative in Hkept.
    by apply negb_true_iff in Hkept. }
  destruct (traceOf_head caller (outer :: rest) Hsys) as (more & Htr & Hmore).
  assert (Hmodule : Module_ rec = name).
  { subst rec. cbn [Module_ newRecord]. rewrite Hstack1, Hstack.
    rewrite extractModuleName_spec, (proj1 (String.eqb_eq _ _) Hvalid).
    apply moduleOf_last; [by rewrite <- segments_splitOn | by rewrite <- usable_meaningful]. }
  subst rec. cbn [Trace newRecord] in *. rewrite Hstack1, Hstack, Htr.
  repeat split; try done; try (cbn; lia). congruence.
Qed.

(** C4, at the stack of a handler called by the server. *)
Lemma NewAppError_fully_formed_witness :
  exists before err after σ' rec,
    TimestampIsRecent ErrCodeInternal "Test" "" "" "" ""
      (mkWorld 1703123456789123456 [250%N; 1000000000%N] 0 (tail handlerStack) [] [])
      = (Ok (before, err, after), σ')
    /\ errs σ' = [rec]
    /\ (before <= Timestamp rec <= after)%Z
    /\ Trace rec = ["path/to/file.go:42 main.(*Handler).GetUser"; "path/to/file.go:28 main.main"]
    /\ Module_ rec = "GetUser".
Proof.
  destruct (NewAppError_fully_formed
              (mkWorld 1703123456789123456 [250%N; 1000000000%N] 0 (tail handlerStack) [] [])
              ErrCodeInternal "Test" "" "" "" "")
    as (before & err & after & σ' & rec & Hrun & _ & Herrs & _ & _ & _ & Hts & _ & _ & _
        & Htrace & Hnormal).
  destruct Htrace as [Htrace _]; [discriminate |].
  destruct (Hnormal (mkFrame "main.(*Handler).GetUser" "path/to/file.go" 42)
              (mkFrame "net/http.HandlerFunc.ServeHTTP" "net/http/server.go" 0)
              [mkFrame "main.main" "path/to/file.go" 28;
               mkFrame "runtime.main" "runtime/proc.go" 0;
               mkFrame "runtime.goexit" "runtime/asm_amd64.s" 0]
              "GetUser")
    as (_ & _ & _ & Hmod & _); try reflexivity; [| discriminate |].
  { intros p Hin Hpre.
    repeat (destruct Hin as [<- | Hin]; [discriminate Hpre |]). destruct Hin. }
  exists before, err, after, σ', rec.
  split; [exact Hrun |]. split; [exact Herrs |]. split; [exact Hts |].
  split; [exact Htrace | exact Hmod].
Defined.

(** ** The response writer *)

Lemma putResp_lookup w rw rw0 σ :
  resps σ !! w = Some rw0 -> resps (putResp w rw σ) !! w = Some rw.
Proof.
  intros Hw. unfold putResp. cbn. apply list_lookup_insert_eq. by eapply lookup_lt_Some.
Qed.

Lemma putResp_putResp w a b σ : putResp w b (putResp w a σ) = putResp w b σ.
Proof. unfold putResp. cbn. unfold set_resps. cbn. by rewrite list_insert_insert_eq. Qed.

Lemma method_ok w f σ rw rw' :
  resps σ !! w = Some rw -> f rw = Ok rw' ->
  http.method w f σ = (Ok tt, putResp w rw' σ).
Proof. intros Hw Hf. unfold http.method. by rewrite Hw, Hf. Qed.

Lemma getHTTPStatusCode_range code :
  ((getHTTPStatusCode code <? 100) || (999 <? getHTTPStatusCode code))%Z = false.
Proof.
  unfold getHTTPStatusCode.
  repeat match goal with
  | |- context [String.eqb code ?c] => destruct (String.eqb code c)
  end; reflexivity.
Qed.

Lemma load_ok err rec σ : errs σ !! err = Some rec -> load err σ = (Ok rec, σ).
Proof. intros He. unfold load. by rewrite He. Qed.

Lemma writeHeader_ok code rw :
  ((code <? 100) || (999 <? code))%Z = false ->
  http.writeHeader code rw = Ok (commit code rw).
Proof.
  intros Hcode. unfold http.writeHeader, commit. rewrite Hcode.
  by destruct (wroteHeader rw).
Qed.

Lemma write_ok c rw : http.write c rw = Ok (appended c rw).
Proof. unfold http.write. by rewrite writeHeader_ok. Qed.

Lemma set_stack_putResp s w rw σ :
  set_stack s (putResp w rw σ) = putResp w rw (set_stack s σ).
Proof. reflexivity. Qed.

(** One more method call on the writer behind [w], which [Hw] says is
    live. *)
Ltac method_step Hw :=
  erewrite bind_ok;
  [| eapply method_ok;
     [first [exact Hw | eapply putResp_lookup; exact Hw]
     | first [reflexivity
             | apply writeHeader_ok; first [apply getHTTPStatusCode_range | reflexivity]
             | apply write_ok]]];
  rewrite ?putResp_putResp.

(** Two recorders built from the fields of [rw] are the same once it is
    known whether the header of [rw] was written. *)
Ltac same_recorder rw :=
  f_equal; f_equal; unfold appended, commit; cbn;
  let Hwh := fresh "Hwh" in
  destruct (wroteHeader rw) eqn:Hwh; cbn; rewrite ?Hwh, ?app_nil_r; reflexivity.

Lemma Encode_some w j σ rw0 rw :
  resps σ !! w = Some rw0 ->
  Encode w (Some j) (putResp w rw σ) = (Ok false, putResp w (appended (JsonLine j) rw) σ).
Proof.
  intros Hw. unfold Encode, http.Write. by method_step Hw.
Qed.

Lemma WriteErrorResponse_eq σ w err rec rw :
  errs σ !! err = Some rec ->
  resps σ !! w = Some rw ->
  WriteErrorResponse w err σ = (Ok tt, putResp w (errorResponseWritten rec rw) σ).
Proof.
  intros He Hw. unfold WriteErrorResponse.
  set (frame := ownFrame "http.go" "WriteErrorResponse" 12).
  set (σ0 := set_stack (frame :: stack σ) σ).
  assert (Hw0 : resps σ0 !! w = Some rw) by exact Hw.
  rewrite (call_ok frame _ σ tt (putResp w (errorResponseWritten rec rw) σ0)).
  { subst σ0. by rewrite set_stack_putResp, set_stack_twice, set_stack_id. }
  fold σ0. unfold http.Header_Set, http.WriteHeader.
  method_step Hw0.
  erewrite bind_ok by (apply load_ok; exact He).
  method_step Hw0.
  erewrite bind_ok by reflexivity.
  unfold json.marshalErrorResponse. cbn [errs putResp set_resps er_Error er_Success].
  change (errs σ0) with (errs σ). rewrite He.
  cbv beta iota delta [mbind option_bind].
  unfold errorResponseWritten, statusAfter, sentHeaderAfter.
  destruct (json.marshalAppError rec) as [j |].
  - erewrite bind_ok by (eapply Encode_some; exact Hw0).
    unfold mret, M_ret. same_recorder rw.
  - erewrite bind_ok by reflexivity.
    unfold http.Error, http.Header_Del, http.Header_Set, http.WriteHeader, http.Write.
    do 4 method_step Hw0.
    erewrite method_ok; [| eapply putResp_lookup; exact Hw0 | apply write_ok].
    rewrite putResp_putResp. same_recorder rw.
Qed.

Lemma WriteSuccessResponse_eq σ w data rw :
  resps σ !! w = Some rw ->
  WriteSuccessResponse w data σ = (Ok tt, putResp w (successResponseWritten data rw) σ).
Proof.
  intros Hw. unfold WriteSuccessResponse.
  set (frame := ownFrame "http.go" "WriteSuccessResponse" 28).
  set (σ0 := set_stack (frame :: stack σ) σ).
  assert (Hw0 : resps σ0 !! w = Some rw) by exact Hw.
  rewrite (call_ok frame _ σ tt (putResp w (successResponseWritten data rw) σ0)).
  { subst σ0. by rewrite set_stack_putResp, set_stack_twice, set_stack_id. }
  fold σ0. unfold http.Header_Set, http.WriteHeader.
  do 2 method_step Hw0.
  unfold successResponseWritten, statusAfter, sentHeaderAfter.
  destruct (json.marshalSuccessResponse _) as [j |].
  - erewrite bind_ok by (eapply Encode_some; exact Hw0).
    unfold mret, M_ret. same_recorder rw.
  - erewrite bind_ok by reflexivity.
    unfold mret, M_ret. same_recorder rw.
Qed.

(** C3.  What [WriteErrorResponse] does to a live writer for a live
    record.  It never panics.  On a writer whose header is not yet
    written it commits the status of the record's kind with the content
    type application/json and, when the record serializes, writes the
    envelope with [success = false] and the record under [error] (for a
    not-found record: status 404 and [error.code] NOT_FOUND).  When the
    record does not serialize, the fallback [http.Error] comes after that
    commit: it writes the line "Internal server error", but the status
    sent stays the one of the record's kind and the content type sent
    stays application/json; the response is a plain-text 500 response
    only in the live header map, which is no longer sent. *)
Theorem WriteErrorResponse_effect (σ : World) (w err : ptr)
  (rec : AppError) (rw : ResponseRecorder) :
  errs σ !! err = Some rec ->
  resps σ !! w = Some rw ->
  wroteHeader rw = false ->
  exists rw',
    WriteErrorResponse w err σ = (Ok tt, set_resps (<[w := rw']> (resps σ)) σ)
    /\ StatusCode rw' = getHTTPStatusCode (Code rec)
    /\ snapHeader rw' !! "Content-Type" = Some "application/json"
    /\ (forall j, json.marshalAppError rec = Some j ->
          Body rw' = Body rw ++ [JsonLine (JObj [("success", JBool false); ("error", j)])]
          /\ exists members, j = JObj members
                             /\ In ("code", JStr (utf8.ToValid (Code rec))) members)
    /\ (json.marshalAppError rec = None ->
          Body rw' = Body rw ++ [TextLine "Internal server error"]
          /\ HeaderMap rw' !! "Content-Type" = Some "text/plain; charset=utf-8").
Proof.
  intros He Hw Hfresh. exists (errorResponseWritten rec rw).
  split; [by apply WriteErrorResponse_eq |].
  unfold errorResponseWritten, statusAfter, sentHeaderAfter. cbn. rewrite Hfresh.
  split; [done |]. split; [apply lookup_insert_eq |]. split.
  - intros j Hj. rewrite Hj. split; [done |].
    unfold json.marshalAppError in Hj. cbv beta iota delta [mbind option_bind] in Hj.
    destruct (json.omitNil "details" (Details rec)); [| discriminate].
    injection Hj as <-. eexists. split; [reflexivity |]. by left.
  - intros ->. split; [done |]. by rewrite lookup_insert_ne, lookup_insert_eq.
Qed.

(** C3, at a not-found record whose details are a channel: the fallback
    runs, and the status sent is 404. *)
Lemma WriteErrorResponse_effect_witness :
  exists rw',
    WriteErrorResponse 0 0 (serving [notFoundChan])
      = (Ok tt, set_resps [rw'] (serving [notFoundChan]))
    /\ StatusCode rw' = 404%Z
    /\ snapHeader rw' !! "Content-Type" = Some "application/json"
    /\ Body rw' = [TextLine "Internal server error"].
Proof.
  destruct (WriteErrorResponse_effect (serving [notFoundChan]) 0 0 notFoundChan NewRecorder)
    as (rw' & Hrun & Hstatus & Hsent & _ & Hfallback); try reflexivity.
  exists rw'. split; [exact Hrun |]. split; [exact Hstatus |]. split; [exact Hsent |].
  apply Hfallback. reflexivity.
Defined.



(** ** Decimal notation *)

Lemma formatBits_grows fuel : forall base n acc,
  String.length acc <= String.length (strconv.formatBits fuel base n acc).
Proof.
  induction fuel as [| fuel IH]; intros base n acc; [done |].
  cbn [strconv.formatBits]. destruct (n <? base)%N.
  - cbn. lia.
  - etransitivity; [| apply IH]. cbn. lia.
Qed.


Lemma Itoa_nonempty z : strconv.Itoa z <> "".
Proof.
  unfold strconv.Itoa. destruct (z <? 0)%Z; [done |].
  unfold strconv.FormatUint. cbn [strconv.formatBits].
  destruct (_ <? _)%N; [done |].
  intros Hempty.
  pose proof (formatBits_grows (N.to_nat (N.log2 (Z.to_N z))) 10 (Z.to_N z / 10)
                (String (strconv.digitChar (Z.to_N z mod 10)) "")) as Hlen.
  rewrite Hempty in Hlen. cbn in Hlen. lia.
Qed.


Lemma UnixNano_small t : (- 2 ^ 63 <= t < 2 ^ 63)%Z -> time.UnixNano t = t.
Proof.
  intros Ht. unfold time.UnixNano, time.wrap64. rewrite Z.mod_small; lia.
Qed.

(** ** The request-id wrapper *)

Lemma call_returning {A} f (body : M A) σ :
  call f body σ = returning (stack σ) (body (set_stack (f :: stack σ) σ)).
Proof. unfold call, returning. by destruct (body _) as [[a | v] σ']. Qed.

Lemma returning_returning {A} s s' (out : result A * World) :
  returning s (returning s' out) = returning s out.
Proof. by destruct out as [[a | v] σ']. Qed.




(** ** The recovery wrapper *)

Lemma assign_last name line f σ l rec :
  errs σ = l ++ [rec] ->
  assign name line f (length l) σ = (Ok (length l), set_errs (l ++ [f rec]) σ).
Proof.
  intros He. rewrite (assign_ok name line f (length l) σ rec).
  - rewrite He, insert_app_r_alt, Nat.sub_diag by done. reflexivity.
  - rewrite He. apply list_lookup_middle. done.
Qed.

Lemma set_errs_twice h h' σ : set_errs h (set_errs h' σ) = set_errs h σ.
Proof. reflexivity. Qed.

Lemma recover_value v : v <> VNil -> recover v = v.
Proof. by destruct v. Qed.

Lemma deferRecover_recovers deferred handler body σ v σp :
  body σ = (Panic v, σp) ->
  deferRecover deferred handler body σ =
    match call gopanicFrame (call deferred (handler (recover v))) σp with
    | (Ok tt, σ'') => (Ok tt, set_stack (stack σ) σ'')
    | (Panic v', σ'') => (Panic v', σ'')
    end.
Proof.
  intros Hbody. unfold deferRecover. by rewrite Hbody.
Qed.

Lemma deferRecover_panic deferred handler body σ v σp :
  body σ = (Panic v, σp) -> v <> VNil ->
  deferRecover deferred handler body σ =
    match call gopanicFrame (call deferred (handler v)) σp with
    | (Ok tt, σ'') => (Ok tt, set_stack (stack σ) σ'')
    | (Panic v', σ'') => (Panic v', σ'')
    end.
Proof.
  intros Hbody Hv. by rewrite (deferRecover_recovers _ _ _ _ _ _ Hbody), recover_value.
Qed.

Lemma recovery_handler_eq `{Labels} (w : ptr) (v : value) (σ : World) (rw : ResponseRecorder) :
  resps σ !! w = Some rw ->
  let rec0 := newRecord σ ErrCodeInternal "Internal server error" "" "" "" "" in
  (appErr ← NewAppError ErrCodeInternal "Internal server error" "" "" "" "";
   appErr ← IsCritical appErr;
   appErr ← WithErrorCode "FS001" appErr;
   appErr ← IsSystemError appErr;
   appErr ← WithUserID "system" appErr;
   appErr ← WithDetails (VString ("Panic recovered: " +:+ fmt.Sprint v)) appErr;
   appErr ← WithModule "middleware" appErr;
   WriteErrorResponse w appErr) σ
  = (Ok tt,
     putResp w (errorResponseWritten (recovered v rec0) rw)
       (set_errs (errs σ ++ [recovered v rec0]) (afterNow σ))).
Proof.
  intros Hw rec0.
  destruct (afterNow_rest σ) as (_ & _ & _ & Hr).
  erewrite bind_ok by apply NewAppError_eq. fold rec0.
  unfold IsCritical, WithErrorCode, IsSystemError, WithUserID, WithDetails, WithModule.
  do 6 (erewrite bind_ok by (apply assign_last; reflexivity);
        cbn [errs set_errs]; rewrite ?set_errs_twice).
  rewrite (WriteErrorResponse_eq _ w (length (errs σ)) (recovered v rec0) rw).
  - reflexivity.
  - cbn [errs set_errs]. apply list_lookup_middle. done.
  - cbn [resps set_errs]. by rewrite Hr.
Qed.

Lemma marshal_recovered `{Labels} v rec0 :
  exists members,
    json.marshalAppError (recovered v rec0) = Some (JObj members)
    /\ In ("code", JStr (utf8.ToValid (Code rec0))) members
    /\ In ("message", JStr (utf8.ToValid (Message rec0))) members
    /\ In ("module", JStr "middleware") members
    /\ In ("details", JStr (utf8.ToValid ("Panic recovered: " +:+ fmt.Sprint v))) members.
Proof.
  exists ([("code", json.str (Code rec0)); ("message", json.str (Message rec0));
           ("timestamp", JNum (Timestamp rec0)); ("module", JStr "middleware")]
          ++ json.omitEmptyStrings "trace" (Trace rec0)
          ++ [("details", json.str ("Panic recovered: " +:+ fmt.Sprint v))]
          ++ json.omitEmptyString "request_id" (RequestID rec0)).
  split; [reflexivity |].
  repeat split; apply in_or_app.
  - left. by left.
  - left. right. by left.
  - left. right. right. right. by left.
  - right. apply in_or_app. right. apply in_or_app. left. by left.
Qed.

(** C1, counterexample.  A handler that has written part of its answer
    has committed status 200; after its panic the wrapper's status 500
    comes too late and the response keeps 200. *)
Lemma ErrorRecoveryMiddleware_counterexample :
  ~ recovery_as_stated startsThenPanics 0 testRequest (serving []).
Proof.
  intros Hstated. destruct (Hstated testLabels) as (σ' & rw' & Hrun & Hw & Hstatus).
  vm_compute in Hrun. injection Hrun as <-.
  vm_compute in Hw. injection Hw as <-.
  discriminate Hstatus.
Qed.

(** C1, amended.  When the inner handler panics, whatever the value, and
    the writer is live, the wrapper returns normally: the panic does not
    escape and the caller's stack is back.  It has built exactly one
    record: code INTERNAL_ERROR, message "Internal server error", details
    the string "Panic recovered: " followed by the [%v] rendering of the
    recovered value (the payload text itself for a string, the message for
    an error, the message of the runtime's PanicNilError for [panic(nil)],
    [%g] for a float64), module "middleware"; and it has passed the record
    once to [WriteErrorResponse], which appends the failure envelope of
    that record to the body.  The status is 500, with content type
    application/json, when the handler had not committed the header before
    it panicked; a header that the handler had committed stays as sent. *)
Theorem ErrorRecoveryMiddleware_contains `{Labels} (next : http.Handler) (w : ptr)
  (r : http.Request) (σ σp : World) (v : value) (rw : ResponseRecorder) :
  next w r (set_stack (recoveryFrames ++ stack σ) σ) = (Panic v, σp) ->
  resps σp !! w = Some rw ->
  exists σ' appErr members rw',
    ErrorRecoveryMiddleware next w r σ = (Ok tt, σ')
    /\ stack σ' = stack σ
    /\ errs σ' = errs σp ++ [appErr]
    /\ Code appErr = ErrCodeInternal
    /\ Message appErr = "Internal server error"
    /\ Details appErr = VString ("Panic recovered: " +:+ fmt.Sprint (recover v))
    /\ (forall s, v = VString s -> Details appErr = VString ("Panic recovered: " +:+ s))
    /\ (forall msg, v = VError msg -> Details appErr = VString ("Panic recovered: " +:+ msg))
    /\ (v = VNil ->
        Details appErr = VString "Panic recovered: panic called with nil argument")
    /\ (v = VFloat64 1000000 -> Details appErr = VString "Panic recovered: 1e+06")
    /\ Module_ appErr = "middleware"
    /\ json.marshalAppError appErr = Some (JObj members)
    /\ In ("code", JStr "INTERNAL_ERROR") members
    /\ In ("module", JStr "middleware") members
    /\ In ("details", JStr (utf8.ToValid ("Panic recovered: " +:+ fmt.Sprint (recover v))))
         members
    /\ resps σ' = <[w := rw']> (resps σp)
    /\ Body rw' = Body rw ++ [JsonLine (JObj [("success", JBool false);
                                               ("error", JObj members)])]
    /\ (wroteHeader rw = false ->
          StatusCode rw' = 500%Z
          /\ snapHeader rw' !! "Content-Type" = Some "application/json")
    /\ (wroteHeader rw = true ->
          StatusCode rw' = StatusCode rw /\ snapHeader rw' = snapHeader rw).
Proof.
  intros Hpanic Hw.
  set (σh := set_stack (ownFrame "http.go" "ErrorRecoveryMiddleware.func1.1" 67
                        :: gopanicFrame :: stack σp) σp).
  set (rec0 := newRecord σh ErrCodeInternal "Internal server error" "" "" "" "").
  set (u := recover v).
  destruct (marshal_recovered u rec0) as (members & Hj & Hcode & _ & Hmod & Hdet).
  exists (set_stack (stack σ)
            (putResp w (errorResponseWritten (recovered u rec0) rw)
               (set_errs (errs σp ++ [recovered u rec0]) (afterNow σp)))),
    (recovered u rec0), members, (errorResponseWritten (recovered u rec0) rw).
  split.
  { unfold ErrorRecoveryMiddleware, http.HandlerFunc.
    rewrite !call_returning, returning_returning.
    erewrite deferRecover_recovers by exact Hpanic.
    rewrite !call_returning, returning_returning.
    fold u. rewrite (recovery_handler_eq w u _ rw) by exact Hw.
    cbn [returning]. rewrite !afterNow_set_stack. reflexivity. }
  split; [reflexivity |]. split; [reflexivity |]. split; [reflexivity |].
  split; [reflexivity |]. split; [reflexivity |].
  split; [subst u; by intros s -> |].
  split; [subst u; by intros msg -> |].
  split; [subst u; by intros -> |].
  split; [subst u; by intros -> |].
  split; [reflexivity |]. split; [exact Hj |]. split; [exact Hcode |].
  split; [exact Hmod |]. split; [exact Hdet |].
  split.
  { cbn [resps set_stack putResp set_resps set_errs].
    by destruct (afterNow_rest σp) as (_ & _ & _ & ->). }
  unfold errorResponseWritten, statusAfter, sentHeaderAfter.
  cbn [Body StatusCode snapHeader]. rewrite Hj.
  split; [reflexivity |]. split; intros ->.
  - split; [reflexivity | apply lookup_insert_eq].
  - done.
Qed.

(** C1, at the handler of TestErrorRecoveryMiddleware, at a handler that
    panics with the float64 1500000, and at [panic(nil)]. *)
Lemma ErrorRecoveryMiddleware_contains_witness :
  (exists σ' appErr rw',
      @ErrorRecoveryMiddleware testLabels panicHandler 0 testRequest (serving []) = (Ok tt, σ')
      /\ errs σ' = [appErr]
      /\ Details appErr = VString "Panic recovered: Test panic"
      /\ resps σ' = [rw']
      /\ StatusCode rw' = 500%Z)
  /\ (exists σ' appErr,
        @ErrorRecoveryMiddleware testLabels (panicsWith (VFloat64 1500000)) 0 testRequest
          (serving []) = (Ok tt, σ')
        /\ errs σ' = [appErr]
        /\ Details appErr = VString "Panic recovered: 1.5e+06")
  /\ (exists σ' appErr,
        @ErrorRecoveryMiddleware testLabels (panicsWith VNil) 0 testRequest
          (serving []) = (Ok tt, σ')
        /\ errs σ' = [appErr]
        /\ Details appErr = VString "Panic recovered: panic called with nil argument").
Proof.
  split; [| split].
  - destruct (@ErrorRecoveryMiddleware_contains testLabels panicHandler 0 testRequest
                (serving []) (set_stack (recoveryFrames ++ stack (serving [])) (serving []))
                (VString "Test panic") NewRecorder eq_refl eq_refl)
      as (σ' & appErr & members & rw' & Hrun & _ & Herrs & _ & _ & Hdet & _ & _ & _ & _ & _
          & _ & _ & _ & _ & Hresps & _ & Hfresh & _).
    exists σ', appErr, rw'.
    split; [exact Hrun |]. split; [exact Herrs |]. split; [exact Hdet |].
    split; [exact Hresps |]. apply Hfresh. reflexivity.
  - destruct (@ErrorRecoveryMiddleware_contains testLabels (panicsWith (VFloat64 1500000)) 0
                testRequest (serving [])
                (set_stack (recoveryFrames ++ stack (serving [])) (serving []))
                (VFloat64 1500000) NewRecorder eq_refl eq_refl)
      as (σ' & appErr & members & rw' & Hrun & _ & Herrs & _ & _ & Hdet & _).
    exists σ', appErr.
    split; [exact Hrun |]. split; [exact Herrs | exact Hdet].
  - destruct (@ErrorRecoveryMiddleware_contains testLabels (panicsWith VNil) 0
                testRequest (serving [])
                (set_stack (recoveryFrames ++ stack (serving [])) (serving []))
                VNil NewRecorder eq_refl eq_refl)
      as (σ' & appErr & members & rw' & Hrun & _ & Herrs & _ & _ & Hdet & _).
    exists σ', appErr.
    split; [exact Hrun |]. split; [exact Herrs | exact Hdet].
Defined.

(** C8, at the chain of TestAppError_Chaining after [WithoutTrace]. *)
Lemma WithoutTrace_stays_cleared_witness :
  exists σ1 σ2 rec2,
    WithoutTrace 0 (serving [invalidInput]) = (Ok 0, σ1)
    /\ chain chaining 0 σ1 = (Ok 0, σ2)
    /\ errs σ2 !! 0 = Some rec2
    /\ Trace rec2 = [].
Proof.
  destruct (WithoutTrace_stays_cleared (serving [invalidInput]) 0 invalidInput chaining)
    as [(σ1 & σ2 & rec2 & Hwt & _ & _ & Hchain & Hrec & Htrace & _) _];
    [reflexivity |].
  exists σ1, σ2, rec2. split; [exact Hwt |]. split; [exact Hchain |].
  split; [exact Hrec | exact Htrace].
Defined.

(** * Further properties *)

(** ** Chains of builders *)

Lemma default_last_cons {A} (x y : A) (l : list A) :
  default x (last (y :: l)) = default y (last l).
Proof. rewrite last_cons. by destruct (last l). Qed.

Lemma set_errs_id σ : set_errs (errs σ) σ = σ.
Proof. by destruct σ. Qed.

Lemma configured_nil r : configured [] r = r.
Proof. by destruct r. Qed.

Lemma configured_cons c cs r : configured cs (configured [c] r) = configured (c :: cs) r.
Proof.
  unfold configured, lastModule, lastDetails, lastRequestID, clearsTrace.
  destruct c as [[m | d | i] |]; cbn; rewrite ?default_last_cons; try reflexivity.
  by destruct (existsb _ cs).
Qed.

Lemma fluent_ok c e σ r :
  errs σ !! e = Some r ->
  fluent c e σ = (Ok e, set_errs (<[e := configured [c] r]> (errs σ)) σ).
Proof.
  intros He.
  destruct c as [[m | d | i] |]; cbn [fluent builder];
    unfold WithModule, WithDetails, WithRequestID, WithoutTrace;
    by rewrite (assign_ok _ _ _ _ _ _ He).
Qed.

Lemma fluentChain_eq cs : forall e σ r,
  errs σ !! e = Some r ->
  fluentChain cs e σ = (Ok e, set_errs (<[e := configured cs r]> (errs σ)) σ).
Proof.
  induction cs as [| c cs IH]; intros e σ r He.
  - rewrite configured_nil, list_insert_id, set_errs_id by done. reflexivity.
  - cbn [fluentChain]. erewrite bind_ok by (by apply fluent_ok).
    erewrite IH by (cbn [errs set_errs]; by eapply lookup_after_insert).
    cbn [errs set_errs]. by rewrite list_insert_insert_eq, set_errs_twice, configured_cons.
Qed.

(** X1.  Builders compose by last write.  On a record behind a live
    pointer, any chain of [WithModule], [WithDetails], [WithRequestID] and
    [WithoutTrace] calls returns the receiver and changes nothing but that
    record, which ends with, in each of the three fields, the argument of
    the last call on it (the former value when the chain has no such
    call), with an empty trace when the chain holds a [WithoutTrace]
    anywhere, and with every other field as before.  Hence chains that
    agree on those last arguments have the same effect, in whatever order
    they make their calls. *)
Theorem fluentChain_last_wins (σ : World) (e : ptr) (rec : AppError)
  (cs : list fluentCall) :
  errs σ !! e = Some rec ->
  fluentChain cs e σ = (Ok e, set_errs (<[e := configured cs rec]> (errs σ)) σ)
  /\ (forall cs',
        lastModule cs' = lastModule cs ->
        lastDetails cs' = lastDetails cs ->
        lastRequestID cs' = lastRequestID cs ->
        clearsTrace cs' = clearsTrace cs ->
        fluentChain cs' e σ = fluentChain cs e σ).
Proof.
  intros He. split; [by apply fluentChain_eq |].
  intros cs' Hm Hd Hi Ht.
  rewrite !(fluentChain_eq _ _ _ _ He).
  unfold configured. by rewrite Hm, Hd, Hi, Ht.
Qed.

(** X1, at two chains on the record of TestJSONEncoding that end with the
    same module and both clear the trace. *)
Lemma fluentChain_last_wins_witness :
  fluentChain [Build (CallWithModule "a"); CallWithoutTrace; Build (CallWithModule "b")] 0
    (serving [invalidInput])
  = fluentChain [Build (CallWithModule "b"); CallWithoutTrace] 0 (serving [invalidInput]).
Proof.
  apply (proj2 (fluentChain_last_wins (serving [invalidInput]) 0 invalidInput
                  [Build (CallWithModule "b"); CallWithoutTrace] eq_refl));
    reflexivity.
Defined.

(** ** The rendering of a record *)

Lemma Error_eq σ e rec :
  errs σ !! e = Some rec ->
  Error e σ = (Ok ("[" +:+ Code rec +:+ "] " +:+ Message rec), σ).
Proof.
  intros He. unfold Error.
  erewrite call_ok.
  2:{ erewrite bind_ok by (by apply load_ok). reflexivity. }
  by rewrite set_stack_twice, set_stack_id.
Qed.

(** X2.  [Error()] renders the code and the message of the record and
    nothing else.  A record made by [NewAppError(code, message, ...)] and
    then configured by any chain of builder calls renders as "[code]
    message"; on any record behind a live pointer [Error()] returns "["
    code "] " message of that record and leaves the world as it was. *)
Theorem Error_renders_code_and_message (σ : World) (code : ErrorCode)
  (message priority errorCode errorType userID : string) (cs : list fluentCall) :
  (exists σ',
      (e ← NewAppError code message priority errorCode errorType userID;
       e ← fluentChain cs e;
       Error e) σ
      = (Ok ("[" +:+ code +:+ "] " +:+ message), σ'))
  /\ (forall σ0 e rec,
        errs σ0 !! e = Some rec ->
        Error e σ0 = (Ok ("[" +:+ Code rec +:+ "] " +:+ Message rec), σ0)).
Proof.
  split; [| intros σ0 e rec He; by apply Error_eq].
  set (r := newRecord σ code message priority errorCode errorType userID).
  eexists.
  erewrite bind_ok by apply NewAppError_eq. fold r.
  erewrite bind_ok.
  2:{ apply (fluentChain_eq _ _ _ r). cbn [errs set_errs]. by apply list_lookup_middle. }
  rewrite (Error_eq _ _ (configured cs r)); [reflexivity |].
  cbn [errs set_errs]. eapply lookup_after_insert. by apply list_lookup_middle.
Qed.

(** X2, at the record of TestJSONEncoding. *)
Lemma Error_renders_code_and_message_witness :
  Error 0 (serving [invalidInput])
  = (Ok "[VALIDATION_ERROR] Invalid input", serving [invalidInput]).
Proof.
  apply (proj2 (Error_renders_code_and_message (serving []) "" "" "" "" "" "" [])
           (serving [invalidInput]) 0 invalidInput).
  reflexivity.
Defined.

(** ** Nil receivers *)

Lemma assign_nil name line f e σ :
  errs σ !! e = None ->
  assign name line f e σ = (Panic nilDeref, set_stack (ownFrame "errors.go" name line :: stack σ) σ).
Proof.
  intros He. unfold assign.
  erewrite call_panic; [reflexivity |].
  cbn [errs set_stack]. by rewrite He.
Qed.

(** X3.  Through a nil pointer every method of the record panics with the
    runtime's nil-dereference error: each of the four builders, the first
    call of any chain of them, and [Error()]. No record and no response
    writer is touched. *)
Theorem nil_receiver_panics (σ : World) (e : ptr) :
  errs σ !! e = None ->
  (forall c cs, exists σ',
      fluentChain (c :: cs) e σ = (Panic nilDeref, σ')
      /\ fluent c e σ = (Panic nilDeref, σ')
      /\ errs σ' = errs σ /\ resps σ' = resps σ)
  /\ (exists σ', Error e σ = (Panic nilDeref, σ')
                 /\ errs σ' = errs σ /\ resps σ' = resps σ).
Proof.
  intros He. split.
  - intros c cs.
    assert (exists σ', fluent c e σ = (Panic nilDeref, σ')
                       /\ errs σ' = errs σ /\ resps σ' = resps σ) as (σ' & Hc & Herrs & Hresps).
    { destruct c as [[m | d | i] |]; cbn [fluent builder];
        unfold WithModule, WithDetails, WithRequestID, WithoutTrace;
        rewrite (assign_nil _ _ _ _ _ He); eexists; repeat split. }
    exists σ'. repeat split; try done.
    cbn [fluentChain]. by erewrite bind_panic.
  - unfold Error.
    set (frame := ownFrame "errors.go" "(*AppError).Error" 418).
    rewrite (call_panic frame _ σ nilDeref (set_stack (frame :: stack σ) σ)).
    + eexists. repeat split.
    + erewrite bind_panic; [reflexivity |]. unfold load. cbn [errs set_stack]. by rewrite He.
Qed.

(** X3, at [WithModule] through a pointer into an empty store. *)
Lemma nil_receiver_panics_witness :
  exists σ', fluent (Build (CallWithModule "test-service")) 0 (serving []) = (Panic nilDeref, σ').
Proof.
  destruct (proj1 (nil_receiver_panics (serving []) 0 eq_refl)
              (Build (CallWithModule "test-service")) []) as (σ' & _ & H & _).
  exists σ'. exact H.
Defined.

(** ** Fresh records *)

(** X4.  Every call of [NewAppError] makes a record of its own.  Two calls
    in a row return two different pointers; a chain of builder calls on
    the second record leaves the first exactly as its constructor made it,
    and the records that existed before are not touched by any of this. *)
Theorem NewAppError_fresh (σ : World) (code1 code2 : ErrorCode)
  (message1 message2 priority errorCode errorType userID : string)
  (cs : list fluentCall) :
  exists e1 e2 σ' r2,
    (e1 ← NewAppError code1 message1 priority errorCode errorType userID;
     e2 ← NewAppError code2 message2 priority errorCode errorType userID;
     _ ← fluentChain cs e2;
     mret (e1, e2)) σ = (Ok (e1, e2), σ')
    /\ e1 <> e2
    /\ errs σ' !! e1 = Some (newRecord σ code1 message1 priority errorCode errorType userID)
    /\ errs σ' !! e2 = Some r2
    /\ Code r2 = code2 /\ Message r2 = message2
    /\ length (errs σ') = S (S (length (errs σ)))
    /\ (forall e, e < length (errs σ) -> errs σ' !! e = errs σ !! e).
Proof.
  set (r1 := newRecord σ code1 message1 priority errorCode errorType userID).
  set (σ1 := set_errs (errs σ ++ [r1]) (afterNow σ)).
  set (r2 := newRecord σ1 code2 message2 priority errorCode errorType userID).
  set (σ2 := set_errs (errs σ1 ++ [r2]) (afterNow σ1)).
  assert (He : errs σ1 = errs σ ++ [r1]) by reflexivity.
  assert (H2 : errs σ2 !! length (errs σ1) = Some r2).
  { cbn [σ2 errs set_errs]. by apply list_lookup_middle. }
  exists (length (errs σ)), (length (errs σ1)), (set_errs (<[length (errs σ1) := configured cs r2]> (errs σ2)) σ2),
    (configured cs r2).
  assert (Hlen : length (errs σ1) = S (length (errs σ))).
  { rewrite He, length_app. cbn. lia. }
  split; [| split; [| split; [| split; [| split; [| split; [| split]]]]]].
  - erewrite bind_ok by apply NewAppError_eq. fold r1 σ1.
    erewrite bind_ok by apply NewAppError_eq. fold r2 σ2.
    erewrite bind_ok by (by apply fluentChain_eq). reflexivity.
  - lia.
  - cbn [errs set_errs σ2]. rewrite list_lookup_insert_ne by lia.
    rewrite He. rewrite lookup_app_l by (rewrite length_app; cbn; lia).
    by apply list_lookup_middle.
  - cbn [errs set_errs]. by eapply lookup_after_insert.
  - reflexivity.
  - reflexivity.
  - cbn [errs set_errs σ2]. rewrite length_insert, length_app, He, length_app. cbn. lia.
  - intros e Hlt. cbn [errs set_errs σ2]. rewrite list_lookup_insert_ne by lia.
    rewrite He. rewrite lookup_app_l by (rewrite length_app; cbn; lia).
    by rewrite lookup_app_l by lia.
Qed.

(** X4, at two constructions beside the record of TestJSONEncoding. *)
Lemma NewAppError_fresh_witness :
  exists e1 e2 σ',
    (e1 ← NewAppError ErrCodeNotFound "Resource not found" "" "" "" "";
     e2 ← NewAppError ErrCodeInternal "Internal error" "" "" "" "";
     _ ← fluentChain [Build (CallWithModule "test-service")] e2;
     mret (e1, e2)) (serving [invalidInput]) = (Ok (e1, e2), σ')
    /\ e1 <> e2
    /\ errs σ' !! 0 = Some invalidInput.
Proof.
  destruct (NewAppError_fresh (serving [invalidInput]) ErrCodeNotFound ErrCodeInternal
              "Resource not found" "Internal error" "" "" "" ""
              [Build (CallWithModule "test-service")])
    as (e1 & e2 & σ' & r2 & Hrun & Hne & _ & _ & _ & _ & _ & Hold).
  exists e1, e2, σ'. split; [exact Hrun |]. split; [exact Hne |].
  apply (Hold 0). cbn. lia.
Defined.

(** ** The deny-list and the package's own frames *)

Lemma isSystemFrame_own name : isSystemFrame (pkg +:+ "." +:+ name) = false.
Proof. vm_compute. reflexivity. Qed.

(** X5.  No function of this package is on the deny-list: the entry
    "blerrors."  is compared with the start of the function name, which
    for this package is its import path.  So when the function that calls
    [NewAppError] belongs to the package (its tests, the deferred call of
    the recovery middleware), [getStackTrace] keeps that frame and the
    trace starts with it. *)
Theorem own_frames_are_kept (file name : string) (line : Z) :
  isSystemFrame (Function (ownFrame file name line)) = false
  /\ (forall σ constructor above,
        stack σ = constructor :: ownFrame file name line :: above ->
        exists more,
          getStackTrace σ = (Ok (formatFrame (ownFrame file name line) :: more), σ)
          /\ length more < 10).
Proof.
  split; [apply isSystemFrame_own |].
  intros σ constructor above Hs.
  rewrite getStackTrace_eq, Hs. cbn [drop].
  destruct (traceOf_head (ownFrame file name line) above (isSystemFrame_own name))
    as (more & Hmore & Hlen).
  exists more. by rewrite Hmore.
Qed.

(** X5, at the stack of TestGetStackTrace. *)
Lemma own_frames_are_kept_witness :
  exists more,
    getStackTrace
      (mkWorld 0 [] 0
         [ownFrame "errors.go" "NewAppError" 423;
          ownFrame "errors_test.go" "TestGetStackTrace" 341;
          mkFrame "testing.tRunner" "testing/testing.go" 0;
          mkFrame "runtime.goexit" "runtime/asm_amd64.s" 0] [] [])
    = (Ok (formatFrame (ownFrame "errors_test.go" "TestGetStackTrace" 341) :: more),
       mkWorld 0 [] 0
         [ownFrame "errors.go" "NewAppError" 423;
          ownFrame "errors_test.go" "TestGetStackTrace" 341;
          mkFrame "testing.tRunner" "testing/testing.go" 0;
          mkFrame "runtime.goexit" "runtime/asm_amd64.s" 0] [] []).
Proof.
  destruct (proj2 (own_frames_are_kept "errors_test.go" "TestGetStackTrace" 341)
              (mkWorld 0 [] 0
                 [ownFrame "errors.go" "NewAppError" 423;
                  ownFrame "errors_test.go" "TestGetStackTrace" 341;
                  mkFrame "testing.tRunner" "testing/testing.go" 0;
                  mkFrame "runtime.goexit" "runtime/asm_amd64.s" 0] [] [])
              _ _ eq_refl) as (more & H & _).
  exists more. exact H.
Defined.

(** ** No frame at all *)

(** X6.  When [runtime.Callers] reports no frame above the constructor,
    the loop of [getStackTrace] still takes one turn: [frames.Next()]
    hands it the zero [Frame], whose empty function name is not on the
    deny-list.  The trace is then not empty: it is the single entry ":0 ".
    [NewAppError] called with no frame under it returns normally, with
    that trace and the module "unknown". *)
Theorem getStackTrace_zero_frame (σ : World) :
  drop 1 (stack σ) = [] ->
  getStackTrace σ = (Ok [":0 "], σ)
  /\ (stack σ = [] ->
      forall code message priority errorCode errorType userID,
      exists σ' rec,
        NewAppError code message priority errorCode errorType userID σ
          = (Ok (length (errs σ)), σ')
        /\ errs σ' = errs σ ++ [rec]
        /\ Trace rec = [":0 "] /\ Module_ rec = "unknown").
Proof.
  intros Hs. split.
  - by rewrite getStackTrace_eq, Hs.
  - intros Hnil code message priority errorCode errorType userID.
    rewrite NewAppError_eq. eexists _, _. split; [reflexivity |].
    split; [reflexivity |].
    cbn [newRecord Trace Module_]. by rewrite Hnil.
Qed.

(** X6, at a stack that holds the constructor alone. *)
Lemma getStackTrace_zero_frame_witness :
  getStackTrace (mkWorld 0 [] 0 [ownFrame "errors.go" "NewAppError" 423] [] [])
  = (Ok [":0 "], mkWorld 0 [] 0 [ownFrame "errors.go" "NewAppError" 423] [] []).
Proof.
  exact (proj1 (getStackTrace_zero_frame
                  (mkWorld 0 [] 0 [ownFrame "errors.go" "NewAppError" 423] [] []) eq_refl)).
Defined.

(** ** The inferred module *)

Lemma splitOn_nonempty s : splitOn s <> [].
Proof.
  destruct s as [| c s]; [done |].
  cbn [splitOn]. destruct (isSeparator c); [done |]. by destruct (splitOn s).
Qed.

Lemma splitOn_no_separator s : forall piece,
  In piece (splitOn s) -> hasSeparator piece = false.
Proof.
  induction s as [| c s IH]; intros piece Hin.
  - destruct Hin as [<- | []]. reflexivity.
  - cbn [splitOn] in Hin. destruct (isSeparator c) eqn:Hc.
    + destruct Hin as [<- | Hin]; [reflexivity | by apply IH].
    + destruct (splitOn s) as [| p ps] eqn:Hsplit.
      * destruct Hin as [<- | []]. cbn [hasSeparator]. by rewrite Hc.
      * destruct Hin as [<- | Hin].
        -- cbn [hasSeparator]. rewrite Hc. apply IH. by left.
        -- apply IH. by right.
Qed.

Lemma last_In {A} (l : list A) x : last l = Some x -> In x l.
Proof.
  intros Hl. apply last_Some in Hl as [l' ->]. apply in_or_app. right. by left.
Qed.

Lemma moduleOf_clean s :
  moduleOf s <> "" /\ moduleOf s <> "internal" /\ moduleOf s <> "pkg"
  /\ hasSeparator (moduleOf s) = false.
Proof.
  unfold moduleOf.
  destruct (last (List.filter meaningful (splitOn s))) as [m |] eqn:Hlast; cbn [default from_option id].
  - apply last_In, List.filter_In in Hlast as [Hin Hm].
    unfold meaningful in Hm. apply andb_prop in Hm as [Hm Hpkg].
    apply andb_prop in Hm as [Hlen Hint].
    repeat split.
    + intros Heq. subst m. discriminate Hlen.
    + intros Heq. subst m. discriminate Hint.
    + intros Heq. subst m. discriminate Hpkg.
    + by eapply splitOn_no_separator.
  - repeat split; discriminate.
Qed.

(** X7.  The module that [NewAppError] infers is always a usable label.
    [extractModuleName] never returns the empty string, "internal" or
    "pkg", and what it returns holds neither '/' nor '.'; so the module of
    every record that [NewAppError] makes, in whatever call context, is
    such a name (possibly "unknown"). *)
Theorem inferred_module_is_a_label (σ : World) (code : ErrorCode)
  (message priority errorCode errorType userID : string) :
  (forall function,
      extractModuleName function <> ""
      /\ extractModuleName function <> "internal"
      /\ extractModuleName function <> "pkg"
      /\ hasSeparator (extractModuleName function) = false)
  /\ exists σ' rec,
       NewAppError code message priority errorCode errorType userID σ
         = (Ok (length (errs σ)), σ')
       /\ errs σ' = errs σ ++ [rec]
       /\ Module_ rec <> "" /\ Module_ rec <> "internal" /\ Module_ rec <> "pkg"
       /\ hasSeparator (Module_ rec) = false.
Proof.
  assert (Hclean : forall function,
             extractModuleName function <> ""
             /\ extractModuleName function <> "internal"
             /\ extractModuleName function <> "pkg"
             /\ hasSeparator (extractModuleName function) = false).
  { intros function. rewrite extractModuleName_spec. apply moduleOf_clean. }
  split; [exact Hclean |].
  rewrite NewAppError_eq. eexists _, _. split; [reflexivity |].
  split; [reflexivity |].
  cbn [newRecord Module_].
  destruct (stack σ) as [| f [| g rest]]; try apply Hclean; repeat split; discriminate.
Qed.

Lemma splitOn_whole name : hasSeparator name = false -> splitOn name = [name].
Proof.
  induction name as [| c name IH]; intros Hn; [reflexivity |].
  cbn [hasSeparator] in Hn. apply orb_false_elim in Hn as [Hc Hn].
  cbn [splitOn]. by rewrite Hc, IH.
Qed.

Lemma splitOn_app a sep b :
  isSeparator sep = true ->
  splitOn (a +:+ String sep b) = splitOn a ++ splitOn b.
Proof.
  intros Hsep. induction a as [| c a IH].
  - rewrite append_nil_l. cbn [splitOn]. by rewrite Hsep.
  - rewrite append_cons. cbn [splitOn]. rewrite IH.
    destruct (isSeparator c); [reflexivity |].
    pose proof (splitOn_nonempty a) as Hne.
    by destruct (splitOn a).
Qed.

(** X8.  For a function name of the usual form, a path followed by a
    separator and a last segment, the inferred module is that last
    segment: the function (or method) name, whatever package path comes
    before it.  This holds when the name is valid UTF-8 and the last
    segment is not empty, not "internal" and not "pkg". *)
Theorem extractModuleName_last_segment (path name : string) (sep : ascii) :
  isSeparator sep = true ->
  hasSeparator name = false ->
  meaningful name = true ->
  utf8.ValidString (path +:+ String sep name) = true ->
  extractModuleName (path +:+ String sep name) = name.
Proof.
  intros Hsep Hname Hm Hvalid.
  rewrite extractModuleName_spec, (ValidString_eq _ Hvalid).
  apply moduleOf_last; [| exact Hm].
  rewrite (splitOn_app _ _ _ Hsep), (splitOn_whole _ Hname).
  apply last_snoc.
Qed.

(** X8, at the package path of the comment in [getCurrentModule], followed
    by a function name. *)
Lemma extractModuleName_last_segment_witness :
  extractModuleName "github.com/org/project/internal/handler.GetUser" = "GetUser".
Proof.
  apply (extractModuleName_last_segment "github.com/org/project/internal/handler" "GetUser" ".");
    reflexivity.
Defined.

(** ** The wire format: trace and envelopes *)

Lemma map_ToValid_valid (l : list string) :
  Forall (fun line => utf8.ValidString line = true) l -> map utf8.ToValid l = l.
Proof.
  induction 1 as [| x l Hx _ IH]; [reflexivity |].
  cbn [map]. by rewrite (ValidString_eq _ Hx), IH.
Qed.

(** X9.  The trace survives the wire.  A record that serializes comes back
    from [json.Unmarshal] with every entry of its trace coerced to valid
    UTF-8, in the same order; with a trace of valid entries, such as file
    and function names are, it comes back with the same trace, the empty
    trace included (the member is then absent). *)
Theorem roundtrip_keeps_trace (e : AppError) (j : jvalue) :
  int64 (Timestamp e) ->
  json.marshalAppError e = Some j ->
  exists e',
    json.unmarshalAppError j = Some e'
    /\ Trace e' = map utf8.ToValid (Trace e)
    /\ (Forall (fun line => utf8.ValidString line = true) (Trace e) -> Trace e' = Trace e).
Proof.
  intros Ht Hj.
  destruct (marshal_unmarshal e j Ht Hj) as (e' & He' & _ & _ & _ & _ & Htrace & _).
  exists e'. repeat split; try done.
  intros Hvalid. by rewrite Htrace, map_ToValid_valid.
Qed.

(** X9, at the record [accessDenied]. *)
Lemma roundtrip_keeps_trace_witness :
  exists j e',
    json.marshalAppError accessDenied = Some j
    /\ json.unmarshalAppError j = Some e'
    /\ Trace e' = ["path/to/file.go:42 main.Handler.GetUser"].
Proof.
  assert (Ht : int64 (Timestamp accessDenied)) by (unfold int64; cbn; lia).
  destruct (roundtrip_keeps_trace accessDenied _ Ht eq_refl) as (e' & He' & _ & Htrace).
  eexists _, e'. split; [reflexivity |]. split; [exact He' |].
  apply Htrace. repeat constructor.
Defined.

Lemma marshalAppError_object e j :
  json.marshalAppError e = Some j -> exists members, j = JObj members.
Proof.
  unfold json.marshalAppError. cbv beta iota delta [mbind option_bind].
  destruct (json.omitNil "details" (Details e)); [| discriminate].
  intros [= <-]. by eexists.
Qed.

Lemma unmarshalErrorResponse_envelope members :
  unmarshalErrorResponse (JObj [("success", JBool false); ("error", JObj members)])
  = e ← json.unmarshalAppError (JObj members); Some (false, Some e).
Proof.
  cbn. by destruct (json.decodeMembers json.zeroAppError members).
Qed.

(** X10.  The body that [WriteErrorResponse] writes decodes back, the way
    the tests read it.  For a record that serializes and whose timestamp
    is an int64, decoding the envelope written into a zero [ErrorResponse]
    succeeds and gives [Success = false] and a record with the code,
    message, module, request id and trace entries of the original, each
    coerced to valid UTF-8 (so equal to the original when it is valid),
    and with the same timestamp. *)
Theorem error_envelope_decodes_back (σ : World) (w err : ptr) (rec : AppError)
  (rw : ResponseRecorder) (j : jvalue) :
  errs σ !! err = Some rec ->
  resps σ !! w = Some rw ->
  int64 (Timestamp rec) ->
  json.marshalAppError rec = Some j ->
  exists rw' e',
    WriteErrorResponse w err σ = (Ok tt, set_resps (<[w := rw']> (resps σ)) σ)
    /\ Body rw' = Body rw ++ [JsonLine (JObj [("success", JBool false); ("error", j)])]
    /\ unmarshalErrorResponse (JObj [("success", JBool false); ("error", j)])
       = Some (false, Some e')
    /\ Code e' = utf8.ToValid (Code rec)
    /\ Message e' = utf8.ToValid (Message rec)
    /\ Timestamp e' = Timestamp rec
    /\ Module_ e' = utf8.ToValid (Module_ rec)
    /\ Trace e' = map utf8.ToValid (Trace rec)
    /\ RequestID e' = utf8.ToValid (RequestID rec).
Proof.
  intros He Hw Ht Hj.
  destruct (marshal_unmarshal rec j Ht Hj)
    as (e' & He' & Hcode & Hmsg & Hts & Hmod & Htrace & Hid & _).
  destruct (marshalAppError_object _ _ Hj) as [members ->].
  exists (errorResponseWritten rec rw), e'.
  split; [by apply WriteErrorResponse_eq |].
  split; [cbn [errorResponseWritten Body]; by rewrite Hj |].
  split; [by rewrite unmarshalErrorResponse_envelope, He' |].
  done.
Qed.

(** X10, at the record [accessDenied] written to a fresh recorder. *)
Lemma error_envelope_decodes_back_witness :
  exists rw' j e',
    WriteErrorResponse 0 0 (serving [accessDenied])
      = (Ok tt, set_resps [rw'] (serving [accessDenied]))
    /\ Body rw' = [JsonLine j]
    /\ unmarshalErrorResponse j = Some (false, Some e')
    /\ Code e' = "FORBIDDEN" /\ Module_ e' = "auth-service".
Proof.
  assert (Ht : int64 (Timestamp accessDenied)) by (unfold int64; cbn; lia).
  destruct (error_envelope_decodes_back (serving [accessDenied]) 0 0 accessDenied NewRecorder
              _ eq_refl eq_refl Ht eq_refl)
    as (rw' & e' & Hrun & Hbody & Hdec & Hcode & _ & _ & Hmod & _).
  exists rw'. eexists. exists e'.
  repeat split; [exact Hrun | exact Hbody | exact Hdec | exact Hcode | exact Hmod].
Defined.

Lemma unmarshalSuccessResponse_nil :
  unmarshalSuccessResponse (JObj [("success", JBool true)])
  = Some {| sr_Success := true; sr_Data := VNil |}.
Proof. reflexivity. Qed.

Lemma unmarshalSuccessResponse_data jd :
  unmarshalSuccessResponse (JObj [("success", JBool true); ("data", jd)])
  = Some {| sr_Success := true; sr_Data := json.unmarshalValue jd |}.
Proof. reflexivity. Qed.

Lemma marshalSuccessResponse_cases data jd :
  json.marshalValue data = Some jd ->
  (data = VNil /\ jd = JNull
   /\ json.marshalSuccessResponse {| sr_Success := true; sr_Data := data |}
      = Some (JObj [("success", JBool true)]))
  \/ (data <> VNil
      /\ json.marshalSuccessResponse {| sr_Success := true; sr_Data := data |}
         = Some (JObj [("success", JBool true); ("data", jd)])).
Proof.
  intros Hjd. unfold json.marshalSuccessResponse. cbn [sr_Data sr_Success].
  destruct data; try (right; split; [discriminate |];
                      unfold json.omitNil; rewrite Hjd; reflexivity).
  left. cbn in Hjd. injection Hjd as <-. done.
Qed.

(** X11.  The body that [WriteSuccessResponse] writes decodes back
    likewise.  For a payload that serializes to [jd], decoding the
    envelope written into a zero [SuccessResponse] gives [Success = true]
    and as [Data] what the decoder makes of [jd] for an [interface{}] (nil
    for a nil payload, whose member is absent; every number a float64, so
    an integer beyond 2^53 comes back rounded to the nearest float64);
    that is the payload itself when it already has the decoder's generic
    shape. *)
Theorem success_envelope_decodes_back (σ : World) (w : ptr) (rw : ResponseRecorder)
  (data : value) (jd : jvalue) :
  resps σ !! w = Some rw ->
  json.marshalValue data = Some jd ->
  exists rw' j,
    WriteSuccessResponse w data σ = (Ok tt, set_resps (<[w := rw']> (resps σ)) σ)
    /\ Body rw' = Body rw ++ [JsonLine j]
    /\ unmarshalSuccessResponse j
       = Some {| sr_Success := true; sr_Data := json.unmarshalValue jd |}
    /\ (forall n, data = VInt n ->
          json.unmarshalValue jd = VFloat64 (strconv.ParseFloat n)
          /\ ((Z.abs n <= 2 ^ 53)%Z -> json.unmarshalValue jd = VFloat64 n))
    /\ (json.isGeneric data = true -> json.unmarshalValue jd = data).
Proof.
  intros Hw Hjd.
  assert (Hgen : json.isGeneric data = true -> json.unmarshalValue jd = data).
  { intros Hg. destruct (unmarshal_marshal_generic data Hg) as (j' & Hj' & Hback).
    rewrite Hjd in Hj'. by injection Hj' as <-. }
  assert (Hint : forall n, data = VInt n ->
            json.unmarshalValue jd = VFloat64 (strconv.ParseFloat n)
            /\ ((Z.abs n <= 2 ^ 53)%Z -> json.unmarshalValue jd = VFloat64 n)).
  { intros n ->. cbn in Hjd. injection Hjd as <-. cbn [json.unmarshalValue].
    split; [reflexivity |]. intros Hn. by rewrite ParseFloat_small. }
  destruct (marshalSuccessResponse_cases data jd Hjd) as [(-> & -> & Hm) | (Hne & Hm)].
  - exists (successResponseWritten VNil rw), (JObj [("success", JBool true)]).
    split; [by apply WriteSuccessResponse_eq |].
    split; [cbn [successResponseWritten Body]; by rewrite Hm |].
    split; [apply unmarshalSuccessResponse_nil |]. split; [exact Hint | exact Hgen].
  - exists (successResponseWritten data rw), (JObj [("success", JBool true); ("data", jd)]).
    split; [by apply WriteSuccessResponse_eq |].
    split; [cbn [successResponseWritten Body]; by rewrite Hm |].
    split; [apply unmarshalSuccessResponse_data |]. split; [exact Hint | exact Hgen].
Qed.

(** X11, at the payload of TestWriteSuccessResponse, whose integer comes
    back as a float64, and at an identifier one above 2^53, which comes
    back as 2^53. *)
Lemma success_envelope_decodes_back_witness :
  (exists rw' j,
      WriteSuccessResponse 0 (VMap [("name", VString "John Doe"); ("user_id", VInt 123)])
        (serving [])
        = (Ok tt, set_resps [rw'] (serving []))
      /\ Body rw' = [JsonLine j]
      /\ unmarshalSuccessResponse j
         = Some {| sr_Success := true;
                   sr_Data := VMap [("name", VString "John Doe"); ("user_id", VFloat64 123)] |})
  /\ (exists rw' j,
        WriteSuccessResponse 0 (VInt 9007199254740993) (serving [])
          = (Ok tt, set_resps [rw'] (serving []))
        /\ Body rw' = [JsonLine j]
        /\ unmarshalSuccessResponse j
           = Some {| sr_Success := true; sr_Data := VFloat64 9007199254740992 |}).
Proof.
  split.
  - destruct (success_envelope_decodes_back (serving []) 0 NewRecorder
                (VMap [("name", VString "John Doe"); ("user_id", VInt 123)]) _ eq_refl eq_refl)
      as (rw' & j & Hrun & Hbody & Hdec & _).
    exists rw', j. repeat split; [exact Hrun | exact Hbody | exact Hdec].
  - destruct (success_envelope_decodes_back (serving []) 0 NewRecorder
                (VInt 9007199254740993) _ eq_refl eq_refl)
      as (rw' & j & Hrun & Hbody & Hdec & _).
    exists rw', j. repeat split; [exact Hrun | exact Hbody | exact Hdec].
Defined.

(** ** Status codes *)

Lemma getHTTPStatusCode_cases code :
  (code = ErrCodeNotFound /\ getHTTPStatusCode code = 404%Z)
  \/ ((code = ErrCodeValidation \/ code = ErrCodeBadRequest) /\ getHTTPStatusCode code = 400%Z)
  \/ (code = ErrCodeUnauthorized /\ getHTTPStatusCode code = 401%Z)
  \/ (code = ErrCodeForbidden /\ getHTTPStatusCode code = 403%Z)
  \/ (code = ErrCodeConflict /\ getHTTPStatusCode code = 409%Z)
  \/ (code = ErrCodeTooManyRequests /\ getHTTPStatusCode code = 429%Z)
  \/ (code = ErrCodeServiceUnavailable /\ getHTTPStatusCode code = 503%Z)
  \/ (code <> ErrCodeNotFound /\ code <> ErrCodeValidation /\ code <> ErrCodeBadRequest
      /\ code <> ErrCodeUnauthorized /\ code <> ErrCodeForbidden /\ code <> ErrCodeConflict
      /\ code <> ErrCodeTooManyRequests /\ code <> ErrCodeServiceUnavailable
      /\ getHTTPStatusCode code = 500%Z).
Proof.
  unfold getHTTPStatusCode.
  destruct (String.eqb_spec code ErrCodeNotFound) as [-> | H1]; [by left |].
  destruct (String.eqb_spec code ErrCodeValidation) as [-> | H2]; [right; left; by auto |].
  destruct (String.eqb_spec code ErrCodeBadRequest) as [-> | H3]; [right; left; by auto |].
  cbn [orb].
  destruct (String.eqb_spec code ErrCodeUnauthorized) as [-> | H4]; [do 2 right; by left |].
  destruct (String.eqb_spec code ErrCodeForbidden) as [-> | H5]; [do 3 right; by left |].
  destruct (String.eqb_spec code ErrCodeConflict) as [-> | H6]; [do 4 right; by left |].
  destruct (String.eqb_spec code ErrCodeTooManyRequests) as [-> | H7]; [do 5 right; by left |].
  destruct (String.eqb_spec code ErrCodeServiceUnavailable) as [-> | H8]; [do 6 right; by left |].
  do 7 right. repeat split; try done.
  by destruct (String.eqb code ErrCodeInternal).
Qed.

(** X12.  An error is never answered with a success status.  Whatever the
    code, [getHTTPStatusCode] returns one of 400, 401, 403, 404, 409, 429,
    500 and 503, and each status other than 500 is returned for its own
    kinds only: 404 for NOT_FOUND alone, 400 for VALIDATION_ERROR and
    BAD_REQUEST alone, and so on.  So [WriteErrorResponse] on a writer
    whose header is not yet written always commits a 4xx or 5xx status. *)
Theorem error_status_is_4xx_or_5xx (code : ErrorCode) :
  In (getHTTPStatusCode code) [400; 401; 403; 404; 409; 429; 500; 503]%Z
  /\ (getHTTPStatusCode code = 404%Z <-> code = ErrCodeNotFound)
  /\ (getHTTPStatusCode code = 400%Z <-> code = ErrCodeValidation \/ code = ErrCodeBadRequest)
  /\ (getHTTPStatusCode code = 401%Z <-> code = ErrCodeUnauthorized)
  /\ (getHTTPStatusCode code = 403%Z <-> code = ErrCodeForbidden)
  /\ (getHTTPStatusCode code = 409%Z <-> code = ErrCodeConflict)
  /\ (getHTTPStatusCode code = 429%Z <-> code = ErrCodeTooManyRequests)
  /\ (getHTTPStatusCode code = 503%Z <-> code = ErrCodeServiceUnavailable)
  /\ (forall σ w err rec rw,
        errs σ !! err = Some rec -> Code rec = code ->
        resps σ !! w = Some rw -> wroteHeader rw = false ->
        exists rw',
          WriteErrorResponse w err σ = (Ok tt, set_resps (<[w := rw']> (resps σ)) σ)
          /\ (400 <= StatusCode rw' < 600)%Z).
Proof.
  assert (Hin : In (getHTTPStatusCode code) [400; 401; 403; 404; 409; 429; 500; 503]%Z).
  { destruct (getHTTPStatusCode_cases code)
      as [[_ ->] | [[_ ->] | [[_ ->] | [[_ ->] | [[_ ->] | [[_ ->] | [[_ ->] | H]]]]]]];
      cbn; try tauto.
    destruct H as (_ & _ & _ & _ & _ & _ & _ & _ & ->). tauto. }
  split; [exact Hin |].
  repeat split.
  all: try (intros Hs;
            destruct (getHTTPStatusCode_cases code)
              as [[Hc Hv] | [[Hc Hv] | [[Hc Hv] | [[Hc Hv] | [[Hc Hv] | [[Hc Hv] | [[Hc Hv] | Hv]]]]]]];
            try (rewrite Hv in Hs; discriminate Hs); try assumption;
            destruct Hv as (_ & _ & _ & _ & _ & _ & _ & _ & Hv); rewrite Hv in Hs;
            discriminate Hs).
  all: try (intros Hc; first [subst code | destruct Hc; subst code]; reflexivity).
  intros σ w err rec rw He Hcode Hw Hfresh.
  exists (errorResponseWritten rec rw).
  split; [by apply WriteErrorResponse_eq |].
  cbn [errorResponseWritten StatusCode]. unfold statusAfter. rewrite Hfresh, Hcode.
  cbn in Hin. lia.
Qed.

(** X12, at a FORBIDDEN record written to a fresh recorder. *)
Lemma error_status_is_4xx_or_5xx_witness :
  exists rw',
    WriteErrorResponse 0 0 (serving [accessDenied])
      = (Ok tt, set_resps [rw'] (serving [accessDenied]))
    /\ (400 <= StatusCode rw' < 600)%Z.
Proof.
  destruct (error_status_is_4xx_or_5xx ErrCodeForbidden)
    as (_ & _ & _ & _ & _ & _ & _ & _ & H).
  destruct (H (serving [accessDenied]) 0 0 accessDenied NewRecorder
              eq_refl eq_refl eq_refl eq_refl) as (rw' & Hrun & Hstatus).
  exists rw'. split; [exact Hrun | exact Hstatus].
Defined.

(** ** When the fallback is taken *)

Lemma marshalAppError_none e :
  json.marshalAppError e = None <-> json.marshalValue (Details e) = None.
Proof.
  unfold json.marshalAppError, json.omitNil. cbv beta iota delta [mbind option_bind].
  destruct (Details e) eqn:Hd; cbn [json.marshalValue fmap option_fmap option_map];
    try (split; discriminate).
  - destruct (json.marshalValue (VSlice l)) eqn:Hm; cbn in *; rewrite Hm; cbn;
      split; (discriminate || reflexivity).
  - destruct (json.marshalValue (VMap m)) eqn:Hm; cbn in *; rewrite Hm; cbn;
      split; (discriminate || reflexivity).
  - split; reflexivity.
Qed.

(** X13.  [WriteErrorResponse] adds exactly one chunk to the body, on any
    live writer and for any live record: the failure envelope, or the line
    "Internal server error". The line is written when, and only when, the
    details of the record do not serialize; no other field can make the
    encoding fail. *)
Theorem fallback_only_for_details (σ : World) (w err : ptr) (rec : AppError)
  (rw : ResponseRecorder) :
  errs σ !! err = Some rec ->
  resps σ !! w = Some rw ->
  exists rw',
    WriteErrorResponse w err σ = (Ok tt, set_resps (<[w := rw']> (resps σ)) σ)
    /\ Body rw' = Body rw ++ [errorChunk rec]
    /\ (errorChunk rec = TextLine "Internal server error"
        <-> json.marshalValue (Details rec) = None)
    /\ (forall jd, json.marshalValue (Details rec) = Some jd ->
          exists members,
            json.marshalAppError rec = Some (JObj members)
            /\ errorChunk rec
               = JsonLine (JObj [("success", JBool false); ("error", JObj members)])).
Proof.
  intros He Hw.
  exists (errorResponseWritten rec rw).
  split; [by apply WriteErrorResponse_eq |].
  split; [reflexivity |].
  unfold errorChunk. split.
  - rewrite <- marshalAppError_none.
    destruct (json.marshalAppError rec); split; (discriminate || reflexivity).
  - intros jd Hjd.
    destruct (json.marshalAppError rec) as [j |] eqn:Hj.
    + destruct (marshalAppError_object _ _ Hj) as [members ->]. by exists members.
    + apply marshalAppError_none in Hj. rewrite Hj in Hjd. discriminate Hjd.
Qed.

(** X13, at a record whose details are a channel. *)
Lemma fallback_only_for_details_witness :
  exists rw',
    WriteErrorResponse 0 0 (serving [notFoundChan])
      = (Ok tt, set_resps [rw'] (serving [notFoundChan]))
    /\ Body rw' = [TextLine "Internal server error"].
Proof.
  destruct (fallback_only_for_details (serving [notFoundChan]) 0 0 notFoundChan NewRecorder
              eq_refl eq_refl) as (rw' & Hrun & Hbody & _).
  exists rw'. split; [exact Hrun | exact Hbody].
Defined.

(** ** Hiding the trace *)

Lemma withoutTraceMember_app a b :
  withoutTraceMember (a ++ b) = withoutTraceMember a ++ withoutTraceMember b.
Proof. apply List.filter_app. Qed.

Lemma withoutTraceMember_omitEmptyString name s :
  String.eqb name "trace" = false ->
  withoutTraceMember (json.omitEmptyString name s) = json.omitEmptyString name s.
Proof.
  intros Hn. unfold json.omitEmptyString, withoutTraceMember.
  destruct (String.eqb s ""); [reflexivity |]. cbn. by rewrite Hn.
Qed.

Lemma marshalAppError_without_trace e members :
  json.marshalAppError e = Some (JObj members) ->
  json.marshalAppError (set_Trace [] e) = Some (JObj (withoutTraceMember members)).
Proof.
  unfold json.marshalAppError. cbv beta iota delta [mbind option_bind].
  cbn [set_Trace Code Message Timestamp Module_ Trace Details RequestID].
  destruct (json.omitNil "details" (Details e)) as [ds |] eqn:Hd; [| discriminate].
  intros [= <-]. f_equal. f_equal.
  match goal with
  | |- _ = withoutTraceMember (?a :: ?b :: ?c :: ?rest) =>
      change (withoutTraceMember (a :: b :: c :: rest))
        with (withoutTraceMember ([a; b; c] ++ rest))
  end.
  rewrite !withoutTraceMember_app, !withoutTraceMember_omitEmptyString by reflexivity.
  assert (Hds : withoutTraceMember ds = ds).
  { destruct (omitNil_spec _ _ _ Hd) as [[_ ->] | (jd & _ & ->)]; reflexivity. }
  rewrite Hds.
  assert (Htr : withoutTraceMember (json.omitEmptyStrings "trace" (Trace e)) = []).
  { unfold json.omitEmptyStrings. by destruct (Trace e). }
  rewrite Htr. reflexivity.
Qed.

Lemma withoutTraceMember_hides members j : ~ In ("trace", j) (withoutTraceMember members).
Proof.
  unfold withoutTraceMember. intros Hin. apply List.filter_In in Hin as [_ Hin].
  discriminate Hin.
Qed.

(** X14.  [WithoutTrace] keeps the call stack out of the response.  For a
    live record that serializes, [WithoutTrace] followed by
    [WriteErrorResponse] writes the failure envelope of the record as it
    would have been written, less the member "trace": every other member
    is there, in the same order, and no member of the record written is
    named "trace". *)
Theorem WithoutTrace_hides_trace (σ : World) (w err : ptr) (rec : AppError)
  (rw : ResponseRecorder) (members : list (string * jvalue)) :
  errs σ !! err = Some rec ->
  resps σ !! w = Some rw ->
  json.marshalAppError rec = Some (JObj members) ->
  exists σ' rw',
    (e ← WithoutTrace err; WriteErrorResponse w e) σ = (Ok tt, σ')
    /\ resps σ' = <[w := rw']> (resps σ)
    /\ Body rw' = Body rw ++ [JsonLine (JObj [("success", JBool false);
                                               ("error", JObj (withoutTraceMember members))])]
    /\ (forall j, ~ In ("trace", j) (withoutTraceMember members))
    /\ (forall kj, In kj members -> fst kj <> "trace" -> In kj (withoutTraceMember members)).
Proof.
  intros He Hw Hj.
  set (σ1 := set_errs (<[err := set_Trace [] rec]> (errs σ)) σ).
  exists (putResp w (errorResponseWritten (set_Trace [] rec) rw) σ1),
    (errorResponseWritten (set_Trace [] rec) rw).
  split; [| split; [| split; [| split]]].
  - unfold WithoutTrace. erewrite bind_ok by (by apply assign_ok). fold σ1.
    apply WriteErrorResponse_eq; [| exact Hw].
    cbn [σ1 errs set_errs]. by eapply lookup_after_insert.
  - reflexivity.
  - cbn [errorResponseWritten Body]. by rewrite (marshalAppError_without_trace _ _ Hj).
  - intros j. apply withoutTraceMember_hides.
  - intros kj Hin Hne. unfold withoutTraceMember. apply List.filter_In. split; [exact Hin |].
    apply negb_true_iff. by apply String.eqb_neq.
Qed.

(** X14, at the record [accessDenied]: six members are written, none of
    them the trace. *)
Lemma WithoutTrace_hides_trace_witness :
  exists σ' rw' members,
    (e ← WithoutTrace 0; WriteErrorResponse 0 e) (serving [accessDenied]) = (Ok tt, σ')
    /\ resps σ' = [rw']
    /\ Body rw' = [JsonLine (JObj [("success", JBool false); ("error", JObj members)])]
    /\ map fst members = ["code"; "message"; "timestamp"; "module"; "details"; "request_id"].
Proof.
  destruct (WithoutTrace_hides_trace (serving [accessDenied]) 0 0 accessDenied NewRecorder
              _ eq_refl eq_refl eq_refl) as (σ' & rw' & Hrun & Hresps & Hbody & _).
  exists σ', rw'. eexists. repeat split; [exact Hrun | exact Hresps | exact Hbody | reflexivity].
Defined.

(** ** The write-once writer *)

Lemma putResp_eq w rw σ : putResp w rw σ = set_resps (<[w := rw]> (resps σ)) σ.
Proof. reflexivity. Qed.

(** X15.  On a writer whose header was already written, neither
    [WriteErrorResponse] nor [WriteSuccessResponse] changes the response
    that was begun: the status and the header sent stay as they were, and
    the envelope is appended to the body that is already there. *)
Theorem committed_writer_keeps_status (σ : World) (w err : ptr) (rec : AppError)
  (rw : ResponseRecorder) (data : value) :
  errs σ !! err = Some rec ->
  resps σ !! w = Some rw ->
  wroteHeader rw = true ->
  (exists rw',
      WriteErrorResponse w err σ = (Ok tt, set_resps (<[w := rw']> (resps σ)) σ)
      /\ StatusCode rw' = StatusCode rw /\ snapHeader rw' = snapHeader rw
      /\ Body rw' = Body rw ++ [errorChunk rec])
  /\ (exists rw',
        WriteSuccessResponse w data σ = (Ok tt, set_resps (<[w := rw']> (resps σ)) σ)
        /\ StatusCode rw' = StatusCode rw /\ snapHeader rw' = snapHeader rw
        /\ Body rw' = Body rw ++ successChunks data).
Proof.
  intros He Hw Hsent. split.
  - exists (errorResponseWritten rec rw).
    split; [by apply WriteErrorResponse_eq |].
    cbn [errorResponseWritten StatusCode snapHeader Body].
    unfold statusAfter, sentHeaderAfter. by rewrite Hsent.
  - exists (successResponseWritten data rw).
    split; [by apply WriteSuccessResponse_eq |].
    cbn [successResponseWritten StatusCode snapHeader Body].
    unfold statusAfter, sentHeaderAfter. by rewrite Hsent.
Qed.

(** X15, at a writer that has sent status 200 and part of an answer. *)
Lemma committed_writer_keeps_status_witness :
  exists rw',
    WriteErrorResponse 0 0
      (mkWorld 0 [] 0 [] [accessDenied] [mkRecorder 200 ∅ true ∅ [TextLine "partial answer"]])
    = (Ok tt,
       mkWorld 0 [] 0 [] [accessDenied] [rw'])
    /\ StatusCode rw' = 200%Z.
Proof.
  destruct (proj1 (committed_writer_keeps_status
                     (mkWorld 0 [] 0 [] [accessDenied]
                        [mkRecorder 200 ∅ true ∅ [TextLine "partial answer"]])
                     0 0 accessDenied _ VNil eq_refl eq_refl eq_refl))
    as (rw' & Hrun & Hstatus & _).
  exists rw'. split; [exact Hrun | exact Hstatus].
Defined.

(** X16.  The first response decides the status.  On a writer whose header
    is not yet written, a success response followed by an error response
    leaves status 200, and an error response followed by a success
    response leaves the status of the error's kind; in both orders the
    body holds both envelopes, in the order of the calls, and the content
    type sent is application/json. *)
Theorem first_response_wins (σ : World) (w err : ptr) (rec : AppError)
  (rw : ResponseRecorder) (data : value) :
  errs σ !! err = Some rec ->
  resps σ !! w = Some rw ->
  wroteHeader rw = false ->
  (exists rw',
      (_ ← WriteSuccessResponse w data; WriteErrorResponse w err) σ
      = (Ok tt, set_resps (<[w := rw']> (resps σ)) σ)
      /\ StatusCode rw' = 200%Z
      /\ snapHeader rw' !! "Content-Type" = Some "application/json"
      /\ Body rw' = Body rw ++ successChunks data ++ [errorChunk rec])
  /\ (exists rw',
        (_ ← WriteErrorResponse w err; WriteSuccessResponse w data) σ
        = (Ok tt, set_resps (<[w := rw']> (resps σ)) σ)
        /\ StatusCode rw' = getHTTPStatusCode (Code rec)
        /\ snapHeader rw' !! "Content-Type" = Some "application/json"
        /\ Body rw' = Body rw ++ [errorChunk rec] ++ successChunks data).
Proof.
  intros He Hw Hfresh. split.
  - exists (errorResponseWritten rec (successResponseWritten data rw)).
    split; [| split; [| split]].
    + erewrite bind_ok by (by apply WriteSuccessResponse_eq).
      erewrite WriteErrorResponse_eq;
        [by rewrite putResp_putResp | exact He | by eapply putResp_lookup].
    + cbn. unfold statusAfter. by rewrite Hfresh.
    + cbn. unfold sentHeaderAfter. rewrite Hfresh. apply lookup_insert_eq.
    + cbn [errorResponseWritten successResponseWritten Body]. by rewrite <- app_assoc.
  - exists (successResponseWritten data (errorResponseWritten rec rw)).
    split; [| split; [| split]].
    + erewrite bind_ok by (by apply WriteErrorResponse_eq).
      erewrite WriteSuccessResponse_eq;
        [by rewrite putResp_putResp | by eapply putResp_lookup].
    + cbn. unfold statusAfter. by rewrite Hfresh.
    + cbn. unfold sentHeaderAfter. rewrite Hfresh. apply lookup_insert_eq.
    + cbn [errorResponseWritten successResponseWritten Body]. by rewrite <- app_assoc.
Qed.

(** X16, at a success response and then an error response on a fresh
    recorder. *)
Lemma first_response_wins_witness :
  exists rw',
    (_ ← WriteSuccessResponse 0 VNil; WriteErrorResponse 0 0) (serving [accessDenied])
    = (Ok tt, set_resps [rw'] (serving [accessDenied]))
    /\ StatusCode rw' = 200%Z
    /\ length (Body rw') = 2.
Proof.
  destruct (proj1 (first_response_wins (serving [accessDenied]) 0 0 accessDenied NewRecorder
                     VNil eq_refl eq_refl eq_refl))
    as (rw' & Hrun & Hstatus & _ & Hbody).
  exists rw'. split; [exact Hrun |]. split; [exact Hstatus |]. by rewrite Hbody.
Defined.

(** ** A payload that does not serialize *)

(** X17.  [WriteSuccessResponse] has no fallback.  For a payload that the
    encoder refuses, on a live writer whose header is not yet written, it
    still returns normally, having committed status 200 with the content
    type application/json, and it writes nothing: the body is left as it
    was and the encoder's error is dropped. *)
Theorem WriteSuccessResponse_unserializable (σ : World) (w : ptr)
  (rw : ResponseRecorder) (data : value) :
  resps σ !! w = Some rw ->
  wroteHeader rw = false ->
  json.marshalValue data = None ->
  exists rw',
    WriteSuccessResponse w data σ = (Ok tt, set_resps (<[w := rw']> (resps σ)) σ)
    /\ StatusCode rw' = 200%Z
    /\ wroteHeader rw' = true
    /\ snapHeader rw' !! "Content-Type" = Some "application/json"
    /\ Body rw' = Body rw.
Proof.
  intros Hw Hfresh Hdata.
  exists (successResponseWritten data rw).
  split; [by apply WriteSuccessResponse_eq |].
  split; [cbn; unfold statusAfter; by rewrite Hfresh |].
  split; [reflexivity |].
  split; [cbn; unfold sentHeaderAfter; rewrite Hfresh; apply lookup_insert_eq |].
  cbn [successResponseWritten Body].
  assert (Hm : json.marshalSuccessResponse {| sr_Success := true; sr_Data := data |} = None).
  { unfold json.marshalSuccessResponse, json.omitNil. cbn [sr_Data].
    destruct data; try (by rewrite Hdata). discriminate Hdata. }
  by rewrite Hm, app_nil_r.
Qed.

(** X17, at a channel as payload. *)
Lemma WriteSuccessResponse_unserializable_witness :
  exists rw',
    WriteSuccessResponse 0 (VChan 824633802912) (serving [])
      = (Ok tt, set_resps [rw'] (serving []))
    /\ StatusCode rw' = 200%Z
    /\ Body rw' = [].
Proof.
  destruct (WriteSuccessResponse_unserializable (serving []) 0 NewRecorder (VChan 824633802912)
              eq_refl eq_refl eq_refl) as (rw' & Hrun & Hstatus & _ & _ & Hbody).
  exists rw'. split; [exact Hrun |]. split; [exact Hstatus | exact Hbody].
Defined.

(** ** A nil record *)

Lemma WriteErrorResponse_nil_eq σ w err rw :
  errs σ !! err = None ->
  resps σ !! w = Some rw ->
  WriteErrorResponse w err σ
  = (Panic nilDeref,
     putResp w (contentTypeSet rw)
       (set_stack (ownFrame "http.go" "WriteErrorResponse" 12 :: stack σ) σ)).
Proof.
  intros He Hw. unfold WriteErrorResponse.
  set (frame := ownFrame "http.go" "WriteErrorResponse" 12).
  set (σ0 := set_stack (frame :: stack σ) σ).
  apply call_panic. fold σ0.
  assert (Hw0 : resps σ0 !! w = Some rw) by exact Hw.
  unfold http.Header_Set.
  erewrite bind_ok by (eapply method_ok; [exact Hw0 | reflexivity]).
  apply bind_panic. unfold load. cbn [errs putResp set_resps σ0 set_stack]. by rewrite He.
Qed.

(** X18.  [WriteErrorResponse(w, nil)] panics.  The content type has been
    set in the live header map by then, but nothing is committed: the
    writer keeps its status, its sent header and its body, and its header
    is not marked as written.  The panic is the nil dereference of
    [err.Code]. *)
Theorem WriteErrorResponse_nil_record (σ : World) (w err : ptr) (rw : ResponseRecorder) :
  errs σ !! err = None ->
  resps σ !! w = Some rw ->
  exists σ' rw',
    WriteErrorResponse w err σ = (Panic nilDeref, σ')
    /\ errs σ' = errs σ
    /\ resps σ' = <[w := rw']> (resps σ)
    /\ HeaderMap rw' = <["Content-Type" := "application/json"]> (HeaderMap rw)
    /\ wroteHeader rw' = wroteHeader rw
    /\ StatusCode rw' = StatusCode rw
    /\ snapHeader rw' = snapHeader rw
    /\ Body rw' = Body rw.
Proof.
  intros He Hw. eexists _, (contentTypeSet rw).
  split; [by apply WriteErrorResponse_nil_eq |]. by repeat split.
Qed.

(** X18, at a fresh recorder and an empty store of records. *)
Lemma WriteErrorResponse_nil_record_witness :
  exists σ', WriteErrorResponse 0 0 (serving []) = (Panic nilDeref, σ').
Proof.
  destruct (WriteErrorResponse_nil_record (serving []) 0 0 NewRecorder eq_refl eq_refl)
    as (σ' & rw' & Hrun & _).
  exists σ'. exact Hrun.
Defined.

(** ** The recovery wrapper: both outcomes of the inner handler *)

Lemma recovery_passes `{Labels} next w r σ σ' :
  next w r (set_stack (recoveryFrames ++ stack σ) σ) = (Ok tt, σ') ->
  ErrorRecoveryMiddleware next w r σ = (Ok tt, set_stack (stack σ) σ').
Proof.
  intros Hnext. unfold ErrorRecoveryMiddleware, http.HandlerFunc.
  rewrite !call_returning, returning_returning.
  unfold deferRecover. rewrite set_stack_twice, stack_set_stack.
  change (ownFrame "http.go" "ErrorRecoveryMiddleware.func1" 66
          :: http.ServeHTTPFrame :: stack σ) with (recoveryFrames ++ stack σ).
  by rewrite Hnext.
Qed.

Lemma recovery_eq `{Labels} next w r σ σp v rw :
  next w r (set_stack (recoveryFrames ++ stack σ) σ) = (Panic v, σp) ->
  v <> VNil ->
  resps σp !! w = Some rw ->
  ErrorRecoveryMiddleware next w r σ = (Ok tt, afterRecovery (stack σ) w v σp rw).
Proof.
  intros Hpanic Hv Hw.
  unfold ErrorRecoveryMiddleware, http.HandlerFunc.
  rewrite !call_returning, returning_returning.
  erewrite deferRecover_panic by (exact Hpanic || exact Hv).
  rewrite !call_returning, returning_returning.
  rewrite (recovery_handler_eq w v _ rw) by exact Hw.
  cbn [returning]. rewrite !afterNow_set_stack. reflexivity.
Qed.

Lemma resps_afterRecovery `{Labels} s w v σp rw :
  resps (afterRecovery s w v σp rw)
  = <[w := errorResponseWritten (recoveredRecord v σp) rw]> (resps σp).
Proof.
  unfold afterRecovery. cbn [resps set_stack putResp set_resps set_errs].
  by destruct (afterNow_rest σp) as (_ & _ & _ & ->).
Qed.

Lemma errs_afterRecovery `{Labels} s w v σp rw :
  errs (afterRecovery s w v σp rw) = errs σp ++ [recoveredRecord v σp].
Proof. reflexivity. Qed.

(** X19.  When the inner handler returns normally, the recovery wrapper
    does nothing of its own: it returns normally, and the world it leaves
    is the one the handler left, with the caller's stack back.  No record
    is made, nothing is written to the response and the clock is not read. *)
Theorem ErrorRecoveryMiddleware_transparent `{Labels} (next : http.Handler) (w : ptr)
  (r : http.Request) (σ σ' : World) :
  next w r (set_stack (recoveryFrames ++ stack σ) σ) = (Ok tt, σ') ->
  ErrorRecoveryMiddleware next w r σ = (Ok tt, set_stack (stack σ) σ')
  /\ errs (set_stack (stack σ) σ') = errs σ'
  /\ resps (set_stack (stack σ) σ') = resps σ'
  /\ clock (set_stack (stack σ) σ') = clock σ'
  /\ ticks (set_stack (stack σ) σ') = ticks σ'.
Proof.
  intros Hnext. split; [by apply recovery_passes | by repeat split].
Qed.

(** X19, at a handler that answers and returns. *)
Lemma ErrorRecoveryMiddleware_transparent_witness :
  @ErrorRecoveryMiddleware testLabels echoRequestID 0 testRequest (serving [])
  = (Ok tt,
     set_resps
       [mkRecorder 200 {["Content-Type" := "text/plain; charset=utf-8"]} true
          {["Content-Type" := "text/plain; charset=utf-8"]} [TextLine ""]]
       (serving [])).
Proof.
  apply (proj1 (@ErrorRecoveryMiddleware_transparent testLabels echoRequestID 0 testRequest
                  (serving []) _ eq_refl)).
Defined.

(** ** What the recovery response discloses *)

Lemma recoveredRecord_trace `{Labels} v σp :
  exists more,
    Trace (recoveredRecord v σp)
    = formatFrame (ownFrame "http.go" "ErrorRecoveryMiddleware.func1.1" 67) :: more.
Proof.
  unfold recoveredRecord, recovered.
  cbn [Trace set_Module set_Details set_UserID set_ErrorType set_ErrorCode set_Priority
       newRecord stack set_stack recoveringStack].
  destruct (traceOf_head (ownFrame "http.go" "ErrorRecoveryMiddleware.func1.1" 67)
              (gopanicFrame :: stack σp) (isSystemFrame_own _)) as (more & Hmore & _).
  exists more. exact Hmore.
Qed.

(** X20.  The recovery wrapper never calls [WithoutTrace], and its own
    deferred function is not on the deny-list.  So the record it builds
    for a panic always has a trace, whose first entry is the frame of that
    deferred function, and the response written always carries the member
    "trace" with that entry first. *)
Theorem recovery_response_discloses_trace `{Labels} (next : http.Handler) (w : ptr)
  (r : http.Request) (σ σp : World) (v : value) (rw : ResponseRecorder) :
  next w r (set_stack (recoveryFrames ++ stack σ) σ) = (Panic v, σp) ->
  v <> VNil ->
  resps σp !! w = Some rw ->
  exists σ' appErr f more members rw',
    ErrorRecoveryMiddleware next w r σ = (Ok tt, σ')
    /\ errs σ' = errs σp ++ [appErr]
    /\ Function f = deferredFunction
    /\ Trace appErr = formatFrame f :: more
    /\ json.marshalAppError appErr = Some (JObj members)
    /\ In ("trace", JArr (map json.str (formatFrame f :: more))) members
    /\ resps σ' = <[w := rw']> (resps σp)
    /\ Body rw' = Body rw ++ [JsonLine (JObj [("success", JBool false);
                                               ("error", JObj members)])].
Proof.
  intros Hpanic Hv Hw.
  destruct (recoveredRecord_trace v σp) as (more & Htrace).
  set (f := ownFrame "http.go" "ErrorRecoveryMiddleware.func1.1" 67) in *.
  set (appErr := recoveredRecord v σp) in *.
  assert (Hj : exists members,
             json.marshalAppError appErr = Some (JObj members)
             /\ In ("trace", JArr (map json.str (formatFrame f :: more))) members).
  { eexists. split.
    - unfold json.marshalAppError. rewrite Htrace. reflexivity.
    - cbn [json.omitEmptyStrings]. apply in_or_app. right. apply in_or_app. right.
      apply in_or_app. left. by left. }
  destruct Hj as (members & Hj & Hin).
  exists (afterRecovery (stack σ) w v σp rw), appErr, f, more, members,
    (errorResponseWritten appErr rw).
  split; [by apply recovery_eq |].
  split; [reflexivity |]. split; [reflexivity |]. split; [exact Htrace |].
  split; [exact Hj |]. split; [exact Hin |].
  split; [apply resps_afterRecovery |].
  cbn [errorResponseWritten Body]. by rewrite Hj.
Qed.

(** X20, at the handler of TestErrorRecoveryMiddleware. *)
Lemma recovery_response_discloses_trace_witness :
  exists σ' appErr f more,
    @ErrorRecoveryMiddleware testLabels panicHandler 0 testRequest (serving []) = (Ok tt, σ')
    /\ errs σ' = [appErr]
    /\ Function f = "github.com/blackboxai/blerrors.ErrorRecoveryMiddleware.func1.1"
    /\ Trace appErr = formatFrame f :: more.
Proof.
  destruct (@recovery_response_discloses_trace testLabels panicHandler 0 testRequest
              (serving []) (set_stack (recoveryFrames ++ stack (serving [])) (serving []))
              (VString "Test panic") NewRecorder eq_refl)
    as (σ' & appErr & f & more & members & rw' & Hrun & Herrs & Hf & Htrace & _);
    [discriminate | reflexivity |].
  exists σ', appErr, f, more.
  split; [exact Hrun |]. split; [exact Herrs |]. split; [exact Hf | exact Htrace].
Defined.

(** ** A handler that passes a nil record *)

(** X21.  The recovery wrapper turns the misuse [WriteErrorResponse(w,
    nil)] into a proper answer.  A handler that makes that call on a
    writer whose header is not yet written panics with the nil
    dereference; the wrapper recovers it, builds one record whose details
    are "Panic recovered: " followed by the text of the runtime error, and
    answers with status 500, content type application/json and the failure
    envelope of that record. *)
Theorem recovery_of_nil_record `{Labels} (w err : ptr) (r : http.Request) (σ : World)
  (rw : ResponseRecorder) :
  errs σ !! err = None ->
  resps σ !! w = Some rw ->
  wroteHeader rw = false ->
  exists σ' appErr rw',
    ErrorRecoveryMiddleware (writesNilError err) w r σ = (Ok tt, σ')
    /\ stack σ' = stack σ
    /\ errs σ' = errs σ ++ [appErr]
    /\ Code appErr = ErrCodeInternal
    /\ Details appErr
       = VString "Panic recovered: runtime error: invalid memory address or nil pointer dereference"
    /\ resps σ' = <[w := rw']> (resps σ)
    /\ StatusCode rw' = 500%Z
    /\ snapHeader rw' !! "Content-Type" = Some "application/json"
    /\ Body rw' = Body rw ++ [errorChunk appErr].
Proof.
  intros He Hw Hfresh.
  set (σ1 := set_stack (recoveryFrames ++ stack σ) σ).
  set (σp := putResp w (contentTypeSet rw)
               (set_stack (ownFrame "http.go" "WriteErrorResponse" 12 :: stack σ1) σ1)).
  assert (Hpanic : writesNilError err w r σ1 = (Panic nilDeref, σp)).
  { unfold writesNilError. by apply WriteErrorResponse_nil_eq. }
  assert (Hwp : resps σp !! w = Some (contentTypeSet rw)).
  { unfold σp. eapply putResp_lookup. exact Hw. }
  exists (afterRecovery (stack σ) w nilDeref σp (contentTypeSet rw)),
    (recoveredRecord nilDeref σp),
    (errorResponseWritten (recoveredRecord nilDeref σp) (contentTypeSet rw)).
  split; [apply recovery_eq; [exact Hpanic | discriminate | exact Hwp] |].
  split; [reflexivity |]. split; [reflexivity |]. split; [reflexivity |].
  split; [reflexivity |].
  split.
  { rewrite resps_afterRecovery. unfold σp.
    cbn [resps putResp set_resps set_stack σ1]. apply list_insert_insert_eq. }
  split; [cbn; unfold statusAfter; cbn; by rewrite Hfresh |].
  split; [cbn; unfold sentHeaderAfter; cbn; rewrite Hfresh; apply lookup_insert_eq |].
  reflexivity.
Qed.

(** X21, at a fresh recorder and an empty store of records. *)
Lemma recovery_of_nil_record_witness :
  exists σ' rw',
    @ErrorRecoveryMiddleware testLabels (writesNilError 0) 0 testRequest (serving [])
    = (Ok tt, σ')
    /\ resps σ' = [rw']
    /\ StatusCode rw' = 500%Z.
Proof.
  destruct (@recovery_of_nil_record testLabels 0 0 testRequest (serving []) NewRecorder
              eq_refl eq_refl eq_refl)
    as (σ' & appErr & rw' & Hrun & _ & _ & _ & _ & Hresps & Hstatus & _).
  exists σ', rw'. split; [exact Hrun |]. split; [exact Hresps | exact Hstatus].
Defined.

(** ** Wrappers around wrappers *)

(** X22.  A recovery wrapper around a recovery wrapper changes nothing:
    when the handler panics, the inner wrapper recovers, builds the one
    record and writes the one envelope, and the outer wrapper sees a
    normal return. *)
Theorem nested_recovery_acts_once `{Labels} (next : http.Handler) (w : ptr)
  (r : http.Request) (σ σp : World) (v : value) (rw : ResponseRecorder) :
  next w r (set_stack (recoveryFrames ++ recoveryFrames ++ stack σ) σ) = (Panic v, σp) ->
  v <> VNil ->
  resps σp !! w = Some rw ->
  exists σ' appErr rw',
    ErrorRecoveryMiddleware (ErrorRecoveryMiddleware next) w r σ = (Ok tt, σ')
    /\ stack σ' = stack σ
    /\ errs σ' = errs σp ++ [appErr]
    /\ Code appErr = ErrCodeInternal /\ Module_ appErr = "middleware"
    /\ resps σ' = <[w := rw']> (resps σp)
    /\ Body rw' = Body rw ++ [errorChunk appErr].
Proof.
  intros Hpanic Hv Hw.
  set (σ1 := set_stack (recoveryFrames ++ stack σ) σ).
  assert (Hinner : ErrorRecoveryMiddleware next w r σ1
                   = (Ok tt, afterRecovery (stack σ1) w v σp rw)).
  { apply recovery_eq; [| exact Hv | exact Hw].
    unfold σ1. by rewrite stack_set_stack, set_stack_twice. }
  exists (afterRecovery (stack σ) w v σp rw), (recoveredRecord v σp),
    (errorResponseWritten (recoveredRecord v σp) rw).
  split.
  { rewrite (recovery_passes _ w r σ _ Hinner).
    unfold afterRecovery. by rewrite set_stack_twice. }
  split; [reflexivity |]. split; [reflexivity |]. split; [reflexivity |].
  split; [reflexivity |]. split; [apply resps_afterRecovery | reflexivity].
Qed.

(** X22, at the handler of TestErrorRecoveryMiddleware under two wrappers. *)
Lemma nested_recovery_acts_once_witness :
  exists σ' appErr rw',
    @ErrorRecoveryMiddleware testLabels (@ErrorRecoveryMiddleware testLabels panicHandler)
      0 testRequest (serving []) = (Ok tt, σ')
    /\ errs σ' = [appErr]
    /\ resps σ' = [rw']
    /\ length (Body rw') = 1.
Proof.
  destruct (@nested_recovery_acts_once testLabels panicHandler 0 testRequest (serving [])
              (set_stack (recoveryFrames ++ recoveryFrames ++ stack (serving [])) (serving []))
              (VString "Test panic") NewRecorder eq_refl)
    as (σ' & appErr & rw' & Hrun & _ & Herrs & _ & _ & Hresps & Hbody);
    [discriminate | reflexivity |].
  exists σ', appErr, rw'.
  split; [exact Hrun |]. split; [exact Herrs |]. split; [exact Hresps |]. by rewrite Hbody.
Defined.

(** ** The request-id wrapper and the request *)

Lemma RequestIDMiddleware_eq next w r σ :
  RequestIDMiddleware next w r σ =
    returning (stack σ)
      (next w (withRequestID r (reading σ))
         (set_stack (requestIDFrames ++ stack σ) (afterNow σ))).
Proof.
  unfold RequestIDMiddleware, http.HandlerFunc.
  rewrite !call_returning, returning_returning. f_equal.
  erewrite bind_ok by apply Now_eq.
  erewrite bind_ok by reflexivity.
  rewrite set_stack_twice, afterNow_set_stack, stack_set_stack.
  reflexivity.
Qed.

Lemma iface_eq_string s key : iface_eq (VString s) key = true <-> key = VString s.
Proof.
  destruct key; cbn; try (split; discriminate).
  rewrite String.eqb_eq. split; [by intros -> | by intros [= ->]].
Qed.

Lemma iface_eq_string_r s key : iface_eq key (VString s) = true <-> key = VString s.
Proof.
  destruct key; cbn; try (split; discriminate).
  rewrite String.eqb_eq. split; [by intros -> | by intros [= ->]].
Qed.

(** X23.  The request-id wrapper hands the inner handler the request it
    was given, changed in one place only: the value under the key
    "request_id". Method and URL are the same, and every value that the
    incoming context held under another key is still found.  The request
    id in turn stays visible under any value that a later layer attaches
    under another key. *)
Theorem RequestIDMiddleware_keeps_request (next : http.Handler) (w : ptr)
  (r : http.Request) (σ : World) :
  exists r',
    RequestIDMiddleware next w r σ =
      returning (stack σ)
        (next w r' (set_stack (requestIDFrames ++ stack σ) (afterNow σ)))
    /\ http.Method r' = http.Method r /\ http.URL r' = http.URL r
    /\ (forall key, key <> VString "request_id" ->
          context.Value (http.Context r') key = context.Value (http.Context r) key)
    /\ (forall key val, key <> VString "request_id" ->
          GetRequestID (context.valueCtx (http.Context r') key val)
          = GetRequestID (http.Context r')).
Proof.
  exists (withRequestID r (reading σ)).
  split; [apply RequestIDMiddleware_eq |].
  split; [reflexivity |]. split; [reflexivity |]. split.
  - intros key Hkey. unfold withRequestID, http.WithContext.
    cbn [http.Context context.Value].
    destruct (iface_eq (VString "request_id") key) eqn:Heq; [| reflexivity].
    by apply iface_eq_string in Heq.
  - intros key val Hkey. unfold GetRequestID.
    cbn [context.Value].
    destruct (iface_eq key (VString "request_id")) eqn:Heq; [| reflexivity].
    by apply iface_eq_string_r in Heq.
Qed.

(** X23, at a request whose context holds a user name. *)
Lemma RequestIDMiddleware_keeps_request_witness :
  exists r',
    RequestIDMiddleware panicHandler 0
      (http.mkRequest "GET" "/test"
         (context.valueCtx context.Background (VString "user") (VString "alice")))
      (serving [])
    = returning (stack (serving []))
        (panicHandler 0 r'
           (set_stack (requestIDFrames ++ stack (serving [])) (afterNow (serving []))))
    /\ context.Value (http.Context r') (VString "user") = VString "alice".
Proof.
  destruct (RequestIDMiddleware_keeps_request panicHandler 0
              (http.mkRequest "GET" "/test"
                 (context.valueCtx context.Background (VString "user") (VString "alice")))
              (serving []))
    as (r' & Hrun & _ & _ & Hkeys & _).
  exists r'. split; [exact Hrun |].
  rewrite Hkeys; [reflexivity | discriminate].
Defined.

(** ** Request ids and clock readings *)

Lemma digitChar_digit d :
  (d < 10)%N ->
  isDigit (strconv.digitChar d) = true /\ (N_of_ascii (strconv.digitChar d) - 48 = d)%N.
Proof.
  intros Hd. unfold strconv.digitChar, isDigit.
  assert (Hlt : (d <? 10)%N = true) by (apply N.ltb_lt; lia). rewrite Hlt.
  rewrite N_ascii_embedding by lia.
  split; [| lia].
  apply andb_true_intro. split; apply N.leb_le; lia.
Qed.

Lemma allDigits_app s t : allDigits (s +:+ t) = allDigits s && allDigits t.
Proof.
  induction s as [| c s IH]; [by rewrite append_nil_l |].
  rewrite append_cons. cbn [allDigits]. by rewrite IH, andb_assoc.
Qed.

Lemma parseDigits_app s t : forall acc,
  parseDigits acc (s +:+ t) = parseDigits (parseDigits acc s) t.
Proof.
  induction s as [| c s IH]; intros acc; [by rewrite append_nil_l |].
  rewrite append_cons. cbn [parseDigits]. apply IH.
Qed.

Lemma formatBits_denotes fuel : forall n acc,
  (n < 10 ^ N.of_nat fuel)%N ->
  exists ds,
    strconv.formatBits fuel 10 n acc = ds +:+ acc
    /\ allDigits ds = true
    /\ parseDigits 0 ds = n.
Proof.
  induction fuel as [| fuel IH]; intros n acc Hn.
  - exists "". cbn in Hn. rewrite append_nil_l. repeat split. cbn. lia.
  - cbn [strconv.formatBits].
    assert (Hmod : (n mod 10 < 10)%N) by (apply N.mod_lt; lia).
    destruct (digitChar_digit _ Hmod) as [Hdigit Hval].
    destruct (n <? 10)%N eqn:Hsmall.
    + apply N.ltb_lt in Hsmall.
      exists (String (strconv.digitChar (n mod 10)) "").
      split; [by rewrite append_cons, append_nil_l |].
      split; [cbn [allDigits]; by rewrite Hdigit |].
      cbn [parseDigits]. rewrite Hval, N.mod_small by lia. lia.
    + assert (Hdiv : (n / 10 < 10 ^ N.of_nat fuel)%N).
      { apply N.Div0.div_lt_upper_bound.
        rewrite Nat2N.inj_succ, N.pow_succ_r' in Hn. lia. }
      destruct (IH (n / 10)%N (String (strconv.digitChar (n mod 10)) acc) Hdiv)
        as (ds & Hds & Hall & Hparse).
      exists (ds +:+ String (strconv.digitChar (n mod 10)) "").
      split; [| split].
      * rewrite Hds, append_assoc, append_cons, append_nil_l. reflexivity.
      * rewrite allDigits_app, Hall. cbn [allDigits]. by rewrite Hdigit.
      * rewrite parseDigits_app, Hparse. cbn [parseDigits]. rewrite Hval.
        pose proof (N.div_mod n 10). lia.
Qed.

Lemma FormatUint_denotes n :
  allDigits (strconv.FormatUint n 10) = true /\ parseDigits 0 (strconv.FormatUint n 10) = n.
Proof.
  unfold strconv.FormatUint.
  assert (Hn : (n < 10 ^ N.of_nat (S (N.to_nat (N.log2 n))))%N).
  { rewrite Nat2N.inj_succ, N2Nat.id.
    destruct (N.eq_dec n 0%N) as [-> | Hpos]; [cbn; lia |].
    destruct (N.log2_spec n) as [_ Hlt]; [lia |].
    eapply N.lt_le_trans; [exact Hlt |].
    apply N.pow_le_mono_l. lia. }
  destruct (formatBits_denotes _ n "" Hn) as (ds & Hds & Hall & Hparse).
  rewrite Hds, append_nil_r. by split.
Qed.

Lemma formatBits_short fuel : forall n acc k,
  (n < 10 ^ N.of_nat (S k))%N ->
  String.length (strconv.formatBits fuel 10 n acc) <= S k + String.length acc.
Proof.
  induction fuel as [| fuel IH]; intros n acc k Hn; [cbn; lia |].
  cbn [strconv.formatBits].
  destruct (n <? 10)%N eqn:Hsmall; [cbn; lia |].
  apply N.ltb_ge in Hsmall.
  destruct k as [| k]; [cbn in Hn; lia |].
  assert (Hdiv : (n / 10 < 10 ^ N.of_nat (S k))%N).
  { apply N.Div0.div_lt_upper_bound.
    rewrite (Nat2N.inj_succ (S k)), N.pow_succ_r' in Hn. lia. }
  specialize (IH (n / 10)%N (String (strconv.digitChar (n mod 10)) acc) k Hdiv).
  cbn [String.length] in IH. lia.
Qed.

Lemma Itoa_short z : (0 <= z < 2 ^ 63)%Z -> String.length (strconv.Itoa z) <= 19.
Proof.
  intros Hz. unfold strconv.Itoa.
  assert (Hneg : (z <? 0)%Z = false) by (apply Z.ltb_ge; lia). rewrite Hneg.
  unfold strconv.FormatUint.
  pose proof (formatBits_short (S (N.to_nat (N.log2 (Z.to_N z)))) (Z.to_N z) "" 18) as Hlen.
  cbn [String.length] in Hlen. rewrite Nat.add_0_r in Hlen. apply Hlen.
  change (10 ^ N.of_nat 19)%N with 10000000000000000000%N. lia.
Qed.

Lemma Itoa_denotes z :
  (0 <= z)%Z ->
  allDigits (strconv.Itoa z) = true /\ Z.of_N (parseDigits 0 (strconv.Itoa z)) = z.
Proof.
  intros Hz. unfold strconv.Itoa.
  assert (Hneg : (z <? 0)%Z = false) by (apply Z.ltb_ge; lia). rewrite Hneg.
  destruct (FormatUint_denotes (Z.to_N z)) as [Hall Hparse].
  split; [exact Hall |]. rewrite Hparse. lia.
Qed.

(** X24.  The request id is the clock reading, written in decimal digits
    and nothing else.  When the wrapper's reading of the clock is a
    nanosecond count from 0 up to the largest int64, the id that the inner
    handler observes consists of decimal digits only, at most nineteen of
    them, and denotes that reading; so the ids of two requests are equal
    exactly when the two wrappers read the same nanosecond. *)
Theorem request_id_denotes_the_reading (next : http.Handler) (w : ptr)
  (r : http.Request) (σ : World) :
  (0 <= reading σ < 2 ^ 63)%Z ->
  let r' := withRequestID r (reading σ) in
  RequestIDMiddleware next w r σ =
    returning (stack σ)
      (next w r' (set_stack (requestIDFrames ++ stack σ) (afterNow σ)))
  /\ allDigits (GetRequestID (http.Context r')) = true
  /\ String.length (GetRequestID (http.Context r')) <= 19
  /\ Z.of_N (parseDigits 0 (GetRequestID (http.Context r'))) = reading σ
  /\ (forall r2 σ2,
        (0 <= reading σ2 < 2 ^ 63)%Z ->
        GetRequestID (http.Context (withRequestID r2 (reading σ2)))
        = GetRequestID (http.Context r')
        <-> reading σ2 = reading σ).
Proof.
  intros Hnow r'.
  assert (Hid : forall r0 t, (0 <= t < 2 ^ 63)%Z ->
            GetRequestID (http.Context (withRequestID r0 t)) = strconv.Itoa t).
  { intros r0 t Ht. unfold GetRequestID. cbn. by rewrite UnixNano_small by lia. }
  split; [apply RequestIDMiddleware_eq |].
  unfold r'. rewrite (Hid r _ Hnow).
  destruct (Itoa_denotes (reading σ)) as [Hall Hparse]; [lia |].
  split; [exact Hall |]. split; [by apply Itoa_short |]. split; [exact Hparse |].
  intros r2 σ2 Hnow2. rewrite (Hid r2 _ Hnow2). split.
  - intros Heq. destruct (Itoa_denotes (reading σ2)) as [_ Hparse2]; [lia |].
    rewrite <- Hparse, <- Hparse2. by rewrite Heq.
  - by intros ->.
Qed.

(** X24, at a request served in December 2023. *)
Lemma request_id_denotes_the_reading_witness :
  allDigits (GetRequestID (http.Context (withRequestID testRequest (reading (serving [])))))
  = true.
Proof.
  assert (Hnow : (0 <= reading (serving []) < 2 ^ 63)%Z)
    by (unfold reading, serving; cbn [ticks clock]; lia).
  exact (proj1 (proj2 (request_id_denotes_the_reading echoRequestID 0 testRequest
                         (serving []) Hnow))).
Defined.

(** ** The two wrappers together *)

Lemma recoveredRecord_members `{Labels} v σp :
  exists members,
    json.marshalAppError (recoveredRecord v σp) = Some (JObj members)
    /\ forall j, ~ In ("request_id", j) members.
Proof.
  eexists. split; [reflexivity |].
  intros j Hin.
  cbn [json.omitEmptyString recoveredRecord recovered RequestID set_Module set_Details
       set_UserID set_ErrorType set_ErrorCode set_Priority newRecord] in Hin.
  repeat (apply in_app_or in Hin as [Hin | Hin]).
  - repeat (destruct Hin as [Hin | Hin]; [discriminate Hin |]). destruct Hin.
  - unfold json.omitEmptyString in Hin.
    destruct (String.eqb _ ""); [destruct Hin |].
    destruct Hin as [Hin | []]. discriminate Hin.
  - unfold json.omitEmptyStrings in Hin.
    destruct (Trace _); [destruct Hin |].
    destruct Hin as [Hin | []]. discriminate Hin.
  - destruct Hin as [Hin | []]. discriminate Hin.
  - destruct Hin.
Qed.

(** X25.  With the recovery wrapper around the request-id wrapper, as the
    README installs them, a panic of the handler passes through the
    request-id wrapper and is recovered outside it.  The handler had
    observed a request id, but the record that the recovery wrapper builds
    has none: its request id is empty and the response written carries no
    member "request_id". *)
Theorem recovered_record_has_no_request_id `{Labels} (next : http.Handler) (w : ptr)
  (r : http.Request) (σ σp : World) (v : value) (rw : ResponseRecorder) :
  next w (withRequestID r (reading σ))
    (set_stack (requestIDFrames ++ recoveryFrames ++ stack σ) (afterNow σ)) = (Panic v, σp) ->
  v <> VNil ->
  resps σp !! w = Some rw ->
  exists σ' appErr members rw',
    ErrorRecoveryMiddleware (RequestIDMiddleware next) w r σ = (Ok tt, σ')
    /\ stack σ' = stack σ
    /\ errs σ' = errs σp ++ [appErr]
    /\ GetRequestID (http.Context (withRequestID r (reading σ))) <> ""
    /\ RequestID appErr = ""
    /\ json.marshalAppError appErr = Some (JObj members)
    /\ (forall j, ~ In ("request_id", j) members)
    /\ resps σ' = <[w := rw']> (resps σp)
    /\ Body rw' = Body rw ++ [JsonLine (JObj [("success", JBool false);
                                               ("error", JObj members)])].
Proof.
  intros Hpanic Hv Hw.
  destruct (recoveredRecord_members v σp) as (members & Hj & Hnone).
  exists (afterRecovery (stack σ) w v σp rw), (recoveredRecord v σp), members,
    (errorResponseWritten (recoveredRecord v σp) rw).
  split.
  { apply recovery_eq; [| exact Hv | exact Hw].
    rewrite RequestIDMiddleware_eq, afterNow_set_stack, stack_set_stack, set_stack_twice.
    change (reading (set_stack (recoveryFrames ++ stack σ) σ)) with (reading σ).
    by rewrite Hpanic. }
  split; [reflexivity |]. split; [reflexivity |].
  split; [unfold GetRequestID; cbn; apply Itoa_nonempty |].
  split; [reflexivity |]. split; [exact Hj |]. split; [exact Hnone |].
  split; [apply resps_afterRecovery |].
  cbn [errorResponseWritten Body]. by rewrite Hj.
Qed.

(** X25, at the handler of TestErrorRecoveryMiddleware under both
    wrappers. *)
Lemma recovered_record_has_no_request_id_witness :
  exists σ' appErr,
    @ErrorRecoveryMiddleware testLabels (RequestIDMiddleware panicHandler) 0 testRequest
      (serving []) = (Ok tt, σ')
    /\ errs σ' = [appErr]
    /\ RequestID appErr = "".
Proof.
  destruct (@recovered_record_has_no_request_id testLabels panicHandler 0 testRequest
              (serving [])
              (set_stack (requestIDFrames ++ recoveryFrames ++ stack (serving []))
                 (afterNow (serving [])))
              (VString "Test panic") NewRecorder eq_refl)
    as (σ' & appErr & members & rw' & Hrun & _ & Herrs & _ & Hid & _);
    [discriminate | reflexivity |].
  exists σ', appErr. split; [exact Hrun |]. split; [exact Herrs | exact Hid].
Defined.

(** ** One reading of the clock *)

Lemma Format_seconds offset t :
  time.Format offset t = time.Format offset (time.Unix t * 1000000000).
Proof.
  unfold time.Format.
  replace (time.Unix (time.Unix t * 1000000000)) with (time.Unix t); [reflexivity |].
  unfold time.Unix. by rewrite Z.div_mul.
Qed.

(** X26.  [NewAppError] reads the clock once and uses that one reading for
    both time fields: the timestamp is its Unix second and the
    human-readable time is the rendering of that same second in the local
    zone, so the two fields never disagree.  The call moves the clock on
    by that one reading, stores its four label arguments as given, and
    leaves the caller's stack and every response writer as they were. *)
Theorem NewAppError_reads_clock_once (σ : World) (code : ErrorCode)
  (message priority errorCode errorType userID : string) :
  exists σ' rec,
    NewAppError code message priority errorCode errorType userID σ
      = (Ok (length (errs σ)), σ')
    /\ errs σ' = errs σ ++ [rec]
    /\ Timestamp rec = time.Unix (reading σ)
    /\ HumanReadableTime rec = time.Format (zoneOffset σ) (Timestamp rec * 1000000000)
    /\ clock σ' = reading σ /\ ticks σ' = tail (ticks σ)
    /\ stack σ' = stack σ /\ resps σ' = resps σ
    /\ Priority rec = priority /\ ErrorCode_ rec = errorCode
    /\ ErrorType rec = errorType /\ UserID rec = userID.
Proof.
  rewrite NewAppError_eq. eexists _, _. split; [reflexivity |].
  split; [reflexivity |]. split; [reflexivity |].
  split; [cbn [newRecord HumanReadableTime Timestamp]; apply Format_seconds |].
  destruct (afterNow_rest σ) as (_ & Hstack & _ & Hresps).
  split; [cbn [clock set_errs]; apply clock_afterNow |].
  split; [cbn [ticks set_errs]; unfold afterNow; destruct (ticks σ) eqn:Ht; [exact Ht | reflexivity] |].
  split; [exact Hstack |]. split; [exact Hresps |]. by repeat split.
Qed.

(** ** From the request to the response *)

Lemma afterNow_stack σ : set_stack (stack σ) (afterNow σ) = afterNow σ.
Proof.
  destruct (afterNow_rest σ) as (_ & Hstack & _). rewrite <- Hstack. apply set_stack_id.
Qed.

Lemma GetUserNotFound_eq message withID w r σh rw :
  resps σh !! w = Some rw ->
  let rec := userNotFound σh message withID (GetRequestID (http.Context r)) in
  GetUserNotFound message withID w r σh
  = (Ok tt,
     putResp w (errorResponseWritten rec rw) (set_errs (errs σh ++ [rec]) (afterNow σh))).
Proof.
  intros Hw rec. unfold GetUserNotFound.
  set (σ3 := set_stack (GetUserFrame :: stack σh) σh).
  destruct (afterNow_rest σ3) as (_ & _ & _ & Hr).
  rewrite (call_ok GetUserFrame _ σh tt
             (putResp w (errorResponseWritten rec rw)
                (set_errs (errs σ3 ++ [rec]) (afterNow σ3)))).
  { rewrite set_stack_putResp. unfold σ3.
    rewrite afterNow_set_stack. cbn [errs set_stack].
    change (set_stack (stack σh)
              (set_errs (errs σh ++ [rec])
                 (set_stack (GetUserFrame :: stack σh) (afterNow σh))))
      with (set_errs (errs σh ++ [rec]) (set_stack (stack σh) (afterNow σh))).
    by rewrite afterNow_stack. }
  fold σ3.
  erewrite bind_ok by apply NewAppError_eq.
  unfold WithModule, WithRequestID.
  erewrite bind_ok by (apply assign_last; reflexivity).
  cbn [errs set_errs]. rewrite ?set_errs_twice.
  assert (Hrec : forall σ' : World,
             errs σ' = errs σ3 ++ [set_Module "user-service"
                                     (newRecord σ3 ErrCodeNotFound message "" "" "" "")] ->
             (if withID
              then assign "(*AppError).WithRequestID" 452
                     (set_RequestID (GetRequestID (http.Context r))) (length (errs σ3))
              else mret (length (errs σ3))) σ'
             = (Ok (length (errs σ3)), set_errs (errs σ3 ++ [rec]) σ')).
  { intros σ' Herrs. unfold rec, userNotFound. fold σ3. destruct withID.
    - by apply assign_last.
    - rewrite <- Herrs. by rewrite set_errs_id. }
  erewrite bind_ok by (apply Hrec; reflexivity).
  rewrite set_errs_twice.
  rewrite (WriteErrorResponse_eq _ w (length (errs σ3)) rec rw).
  - reflexivity.
  - cbn [errs set_errs]. by apply list_lookup_middle.
  - cbn [resps set_errs]. by rewrite Hr.
Qed.

Lemma allDigits_valid s : allDigits s = true -> utf8.ToValid s = s.
Proof.
  induction s as [| c s IH]; [reflexivity |].
  cbn [allDigits]. intros Hs. apply andb_prop in Hs as [Hc Hs].
  unfold isDigit in Hc. apply andb_prop in Hc as [_ Hhi]. apply N.leb_le in Hhi.
  cbn [utf8.ToValid]. unfold utf8.byte.
  assert (Hlt : (N_of_ascii c <? 128)%N = true) by (apply N.ltb_lt; lia).
  by rewrite Hlt, IH.
Qed.

(** X27.  The whole path of the README, from the request to the bytes.
    With the recovery wrapper around the request-id wrapper around the
    handler [GetUser], whose error branch builds a NOT_FOUND record for
    the module "user-service" and writes it, a request on a writer whose
    header is not yet written is answered with status 404, content type
    application/json and one failure envelope whose record has the code
    NOT_FOUND, the message and that module; all three calls return
    normally and the record is the only one made.  The envelope carries
    the request id, the decimal clock reading of the request-id wrapper,
    only if the handler passes it to [WithRequestID] itself; the handler
    as the README has it answers without a member "request_id". *)
Theorem request_to_response `{Labels} (message : string) (withID : bool) (w : ptr)
  (r : http.Request) (σ : World) (rw : ResponseRecorder) :
  resps σ !! w = Some rw ->
  wroteHeader rw = false ->
  (0 <= reading σ < 2 ^ 63)%Z ->
  exists σ' appErr members rw',
    ErrorRecoveryMiddleware (RequestIDMiddleware (GetUserNotFound message withID)) w r σ
    = (Ok tt, σ')
    /\ stack σ' = stack σ
    /\ errs σ' = errs σ ++ [appErr]
    /\ resps σ' = <[w := rw']> (resps σ)
    /\ StatusCode rw' = 404%Z
    /\ snapHeader rw' !! "Content-Type" = Some "application/json"
    /\ Body rw' = Body rw ++ [JsonLine (JObj [("success", JBool false);
                                               ("error", JObj members)])]
    /\ json.marshalAppError appErr = Some (JObj members)
    /\ In ("code", JStr "NOT_FOUND") members
    /\ In ("message", JStr (utf8.ToValid message)) members
    /\ In ("module", JStr "user-service") members
    /\ (withID = true ->
          In ("request_id", JStr (strconv.Itoa (reading σ))) members)
    /\ (withID = false -> forall j, ~ In ("request_id", j) members).
Proof.
  intros Hw Hfresh Hnow.
  set (σ1 := set_stack (recoveryFrames ++ stack σ) σ).
  set (σ2 := set_stack (requestIDFrames ++ stack σ1) (afterNow σ1)).
  set (r' := withRequestID r (reading σ)).
  assert (Hid : GetRequestID (http.Context r') = strconv.Itoa (reading σ)).
  { unfold GetRequestID. cbn. by rewrite UnixNano_small by lia. }
  set (rec := userNotFound σ2 message withID (strconv.Itoa (reading σ))).
  set (rw' := errorResponseWritten rec rw).
  assert (Hw2 : resps σ2 !! w = Some rw).
  { unfold σ2, σ1. cbn [resps set_stack].
    destruct (afterNow_rest (set_stack (recoveryFrames ++ stack σ) σ)) as (_ & _ & _ & ->).
    exact Hw. }
  assert (Hinner : RequestIDMiddleware (GetUserNotFound message withID) w r σ1
                   = (Ok tt, set_stack (stack σ1)
                               (putResp w rw' (set_errs (errs σ2 ++ [rec]) (afterNow σ2))))).
  { rewrite RequestIDMiddleware_eq.
    change (reading σ1) with (reading σ). fold r' σ2.
    rewrite (GetUserNotFound_eq message withID w r' σ2 rw Hw2). rewrite Hid.
    reflexivity. }
  assert (Hvalid : utf8.ToValid (strconv.Itoa (reading σ)) = strconv.Itoa (reading σ)).
  { apply allDigits_valid. by apply Itoa_denotes; lia. }
  assert (Hj : exists members,
             json.marshalAppError rec = Some (JObj members)
             /\ In ("code", JStr "NOT_FOUND") members
             /\ In ("message", JStr (utf8.ToValid message)) members
             /\ In ("module", JStr "user-service") members
             /\ (withID = true -> In ("request_id", JStr (strconv.Itoa (reading σ))) members)
             /\ (withID = false -> forall j, ~ In ("request_id", j) members)).
  { unfold rec, userNotFound. destruct withID.
    - eexists. split; [reflexivity |].
      cbn [Code Message Timestamp Module_ Trace Details RequestID set_RequestID set_Module
           newRecord].
      split; [by left |]. split; [right; by left |].
      split; [do 3 right; by left |]. split; [| discriminate].
      intros _. apply in_or_app. right. apply in_or_app. right. apply in_or_app. right.
      apply in_or_app. right.
      unfold json.omitEmptyString.
      destruct (String.eqb_spec (strconv.Itoa (reading σ)) "") as [Hempty | _].
      + by destruct (Itoa_nonempty (reading σ)).
      + left. unfold json.str. by rewrite Hvalid.
    - eexists. split; [reflexivity |].
      cbn [Code Message Timestamp Module_ Trace Details RequestID set_RequestID set_Module
           newRecord].
      split; [by left |]. split; [right; by left |].
      split; [do 3 right; by left |]. split; [discriminate |].
      intros _ j Hin.
      cbn [json.omitEmptyString] in Hin.
      repeat (apply in_app_or in Hin as [Hin | Hin]).
      + repeat (destruct Hin as [Hin | Hin]; [discriminate Hin |]). destruct Hin.
      + cbn in Hin. destruct Hin as [Hin | []]. discriminate Hin.
      + unfold json.omitEmptyStrings in Hin.
        destruct (traceOf _); [destruct Hin |].
        destruct Hin as [Hin | []]. discriminate Hin.
      + destruct Hin.
      + destruct Hin. }
  destruct Hj as (members & Hj & Hcode & Hmsg & Hmod & Hwith & Hwithout).
  exists (set_stack (stack σ)
            (putResp w rw' (set_errs (errs σ2 ++ [rec]) (afterNow σ2)))),
    rec, members, rw'.
  split.
  { rewrite (recovery_passes _ w r σ _ Hinner). by rewrite set_stack_twice. }
  split; [reflexivity |].
  split.
  { cbn [errs set_stack putResp set_resps set_errs]. unfold σ2, σ1.
    cbn [errs set_stack].
    by destruct (afterNow_rest (set_stack (recoveryFrames ++ stack σ) σ)) as (_ & _ & -> & _). }
  split.
  { cbn [resps set_stack putResp set_resps set_errs].
    destruct (afterNow_rest σ2) as (_ & _ & _ & ->). unfold σ2, σ1. cbn [resps set_stack].
    by destruct (afterNow_rest (set_stack (recoveryFrames ++ stack σ) σ)) as (_ & _ & _ & ->). }
  split.
  { unfold rw'. cbn [errorResponseWritten StatusCode]. unfold statusAfter. rewrite Hfresh.
    unfold rec, userNotFound. by destruct withID. }
  split.
  { unfold rw'. cbn [errorResponseWritten snapHeader]. unfold sentHeaderAfter.
    rewrite Hfresh. apply lookup_insert_eq. }
  split; [unfold rw'; cbn [errorResponseWritten Body]; by rewrite Hj |].
  by repeat split.
Qed.

(** X27, at a request served in December 2023, by the handler that passes
    the request id on. *)
Lemma request_to_response_witness :
  exists σ' rw' members,
    @ErrorRecoveryMiddleware testLabels
      (RequestIDMiddleware (GetUserNotFound "User not found" true)) 0 testRequest (serving [])
    = (Ok tt, σ')
    /\ resps σ' = [rw']
    /\ StatusCode rw' = 404%Z
    /\ Body rw' = [JsonLine (JObj [("success", JBool false); ("error", JObj members)])]
    /\ In ("request_id", JStr "1703123456789123706") members.
Proof.
  assert (Hnow : (0 <= reading (serving []) < 2 ^ 63)%Z)
    by (unfold reading, serving; cbn [ticks clock]; lia).
  destruct (@request_to_response testLabels "User not found" true 0 testRequest (serving [])
              NewRecorder eq_refl eq_refl Hnow)
    as (σ' & appErr & members & rw' & Hrun & _ & _ & Hresps & Hstatus & _ & Hbody & _ & _ & _
        & _ & Hwith & _).
  exists σ', rw', members.
  split; [exact Hrun |]. split; [exact Hresps |]. split; [exact Hstatus |].
  split; [exact Hbody | exact (Hwith eq_refl)].
Defined.
